(** * qf3: pagination, join index, enrichment, AND-token filter, report shaping

    A shallow embedding of the three Python modules of the repository

    - [qf3_api.py]         (class [QF3Client]),
    - [qfactory_client.py] (class [QFactoryClient]),
    - [app.py]             (the Streamlit page and its helpers),

    followed by the properties of the pagination-and-join engine.

    Python objects are the JSON values the remote service can send
    ([value]); a Python exception is a [Raise] result; the remote service is
    a function from requests to responses, and every request the client
    issues is appended to a trace, so that "how many page requests were
    issued" is a statement about that trace. *)

From stdpp Require Import gmap strings list pretty.
From Stdlib Require Import ZArith Ascii String Lia.

Set Warnings "-register-all".
#[local] Open Scope string_scope.

(* ===================================================================== *)
(** * Python values and the primitives the code relies on                 *)
(* ===================================================================== *)

Module Py.

(** The JSON values a response body can hold. Floating point numbers are
    left out: none of the modelled control flow reads one. A [str] is
    carried as its UTF-8 bytes. *)
Inductive value :=
| VNone
| VBool (b : bool)
| VInt (z : Z)
| VStr (s : string)
| VList (l : list value)
| VDict (d : list (string * value)).

(** A [dict] with string keys, in insertion order, keys unique. *)
Definition pydict := list (string * value).

Inductive exn :=
| AttributeError
| TypeError
| KeyError
| IndexError
| ValueError
| RequestException
| RuntimeError (msg : string).

Inductive result (A : Type) :=
| Ok (a : A)
| Raise (e : exn).
Arguments Ok {A} a.
Arguments Raise {A} e.

Definition res_bind {A B} (r : result A) (k : A -> result B) : result B :=
  match r with
  | Ok a => k a
  | Raise e => Raise e
  end.

Notation "'let?' x := e 'in' k" := (res_bind e (fun x => k))
  (at level 10, x name, e at level 100, k at level 200).

(** [for x in xs: acc = f(acc, x)] where the body may raise. *)
Fixpoint res_fold {A B} (f : A -> B -> result A) (acc : A) (xs : list B) : result A :=
  match xs with
  | [] => Ok acc
  | x :: xs' => let? acc' := f acc x in res_fold f acc' xs'
  end.

(** [[f(x) for x in xs]] where [f] may raise. *)
Fixpoint res_map {A B} (f : A -> result B) (xs : list A) : result (list B) :=
  match xs with
  | [] => Ok []
  | x :: xs' => let? y := f x in let? ys := res_map f xs' in Ok (y :: ys)
  end.

(** ** Truthiness, [or], [len] *)

Definition truthy (v : value) : bool :=
  match v with
  | VNone => false
  | VBool b => b
  | VInt z => negb (z =? 0)%Z
  | VStr s => negb (String.eqb s "")
  | VList l => match l with [] => false | _ => true end
  | VDict d => match d with [] => false | _ => true end
  end.

(** [a or b] *)
Definition py_or (a b : value) : value := if truthy a then a else b.

(** [len(v)] as a Python [int]. *)
Definition py_len (v : value) : result Z :=
  match v with
  | VStr s => Ok (Z.of_nat (String.length s))
  | VList l => Ok (Z.of_nat (List.length l))
  | VDict d => Ok (Z.of_nat (List.length d))
  | VNone | VBool _ | VInt _ => Raise TypeError
  end.

(** ** Dictionaries *)

Fixpoint dict_lookup (d : pydict) (k : string) : option value :=
  match d with
  | [] => None
  | (k', v) :: d' => if String.eqb k' k then Some v else dict_lookup d' k
  end.

(** [d[k] = v]: replaces the binding in place, or appends a new one. *)
Fixpoint dict_set (d : pydict) (k : string) (v : value) : pydict :=
  match d with
  | [] => [(k, v)]
  | (k', v') :: d' =>
      if String.eqb k' k then (k, v) :: d' else (k', v') :: dict_set d' k v
  end.

(** [d.get(k, dflt)] on a dict. *)
Definition dict_get (d : pydict) (k : string) (dflt : value) : value :=
  match dict_lookup d k with
  | Some v => v
  | None => dflt
  end.

(** [o.get(k, dflt)] on any object: only a dict has the method. *)
Definition py_get (o : value) (k : string) (dflt : value) : result value :=
  match o with
  | VDict d => Ok (dict_get d k dflt)
  | _ => Raise AttributeError
  end.

(** [d[k]] on a dict. *)
Definition dict_getitem (d : pydict) (k : string) : result value :=
  match dict_lookup d k with
  | Some v => Ok v
  | None => Raise KeyError
  end.

(** [isinstance(o, dict) and k in o] *)
Definition has_key (o : value) (k : string) : bool :=
  match o with
  | VDict d => match dict_lookup d k with Some _ => true | None => false end
  | _ => false
  end.

(** ** Iteration and indexing

    A [str] is iterated, measured and indexed by its UTF-8 bytes. The
    code iterates a [str] only where it expects a list of rows, and then
    raises at the first item, whatever the characters are. *)

Fixpoint chars (s : string) : list value :=
  match s with
  | EmptyString => []
  | String c s' => VStr (String c EmptyString) :: chars s'
  end.

(** The items [for x in v] visits: the elements of a list, the characters
    of a string, the keys of a dict. *)
Definition py_iter (v : value) : result (list value) :=
  match v with
  | VList l => Ok l
  | VStr s => Ok (chars s)
  | VDict d => Ok (map (fun kv => VStr (fst kv)) d)
  | VNone | VBool _ | VInt _ => Raise TypeError
  end.

(** [v[0]]. The keys of a JSON object are strings, so [d[0]] finds none. *)
Definition py_first (v : value) : result value :=
  match v with
  | VList (x :: _) => Ok x
  | VList [] => Raise IndexError
  | VStr (String c _) => Ok (VStr (String c EmptyString))
  | VStr EmptyString => Raise IndexError
  | VDict _ => Raise KeyError
  | VNone | VBool _ | VInt _ => Raise TypeError
  end.

(** [dict(h)]: a copy of a dict. The rows of the service are JSON objects
    (the annotation is [List[Dict[str, Any]]]); any other argument is
    reported as a [TypeError]. *)
Definition py_dict (h : value) : result pydict :=
  match h with
  | VDict d => Ok d
  | _ => Raise TypeError
  end.

(** ** Strings

    A [str] is carried as its UTF-8 bytes; [decode] and [encode] go to
    its characters (code points) and back. A byte that is part of no
    character stands for itself. *)

Definition is_space (c : ascii) : bool :=
  let n := nat_of_ascii c in
  ((9 <=? n)%nat && (n <=? 13)%nat) || ((28 <=? n)%nat && (n <=? 32)%nat).

(** The white-space characters beyond ASCII, by their UTF-8 bytes:
    U+0085 and U+00A0 take two bytes, U+1680, U+2000 to U+200A, U+2028,
    U+2029, U+202F, U+205F and U+3000 three. *)
Definition is_space2 (c1 c2 : ascii) : bool :=
  let n1 := nat_of_ascii c1 in
  let n2 := nat_of_ascii c2 in
  (n1 =? 194)%nat && ((n2 =? 133)%nat || (n2 =? 160)%nat).

Definition is_space3 (c1 c2 c3 : ascii) : bool :=
  let n1 := nat_of_ascii c1 in
  let n2 := nat_of_ascii c2 in
  let n3 := nat_of_ascii c3 in
  ((n1 =? 225)%nat && (n2 =? 154)%nat && (n3 =? 128)%nat)
  || ((n1 =? 226)%nat && (n2 =? 128)%nat
      && (((128 <=? n3)%nat && (n3 <=? 138)%nat)
          || (n3 =? 168)%nat || (n3 =? 169)%nat || (n3 =? 175)%nat))
  || ((n1 =? 226)%nat && (n2 =? 129)%nat && (n3 =? 159)%nat)
  || ((n1 =? 227)%nat && (n2 =? 128)%nat && (n3 =? 128)%nat).

(** [s] is one white-space character. *)
Definition is_space_char (s : string) : bool :=
  match s with
  | String c1 EmptyString => is_space c1
  | String c1 (String c2 EmptyString) => is_space2 c1 c2
  | String c1 (String c2 (String c3 EmptyString)) => is_space3 c1 c2 c3
  | _ => false
  end.

Definition is_digit (c : ascii) : bool :=
  let n := nat_of_ascii c in (48 <=? n)%nat && (n <=? 57)%nat.

(** *** UTF-8 *)

(** A continuation byte. *)
Definition is_cont (n : N) : bool := ((128 <=? n) && (n <=? 191))%N.

(** The characters of a string. A byte outside any well-formed sequence
    is kept as the number [1114112 + byte], above every code point. *)
Fixpoint decode (s : string) : list N :=
  match s with
  | EmptyString => []
  | String c1 s1 =>
      let n1 := N_of_ascii c1 in
      let stray := (1114112 + n1)%N in
      if (n1 <? 128)%N then n1 :: decode s1
      else
        match s1 with
        | EmptyString => [stray]
        | String c2 s2 =>
            let n2 := N_of_ascii c2 in
            if ((194 <=? n1) && (n1 <=? 223))%N && is_cont n2
            then ((n1 - 192) * 64 + (n2 - 128))%N :: decode s2
            else
              match s2 with
              | EmptyString => stray :: decode s1
              | String c3 s3 =>
                  let n3 := N_of_ascii c3 in
                  let p3 := ((n1 - 224) * 4096 + (n2 - 128) * 64 + (n3 - 128))%N in
                  if ((224 <=? n1) && (n1 <=? 239))%N && is_cont n2 && is_cont n3
                     && (2048 <=? p3)%N
                  then p3 :: decode s3
                  else
                    match s3 with
                    | EmptyString => stray :: decode s1
                    | String c4 s4 =>
                        let n4 := N_of_ascii c4 in
                        let p4 := ((n1 - 240) * 262144 + (n2 - 128) * 4096
                                   + (n3 - 128) * 64 + (n4 - 128))%N in
                        if ((240 <=? n1) && (n1 <=? 244))%N
                           && is_cont n2 && is_cont n3 && is_cont n4
                           && ((65536 <=? p4) && (p4 <=? 1114111))%N
                        then p4 :: decode s4
                        else stray :: decode s1
                    end
              end
        end
  end.

Definition encode_point (p : N) : string :=
  if (p <? 128)%N then String (ascii_of_N p) EmptyString
  else if (p <? 2048)%N then
    String (ascii_of_N (192 + p / 64))
      (String (ascii_of_N (128 + p mod 64)) EmptyString)
  else if (p <? 65536)%N then
    String (ascii_of_N (224 + p / 4096))
      (String (ascii_of_N (128 + (p / 64) mod 64))
         (String (ascii_of_N (128 + p mod 64)) EmptyString))
  else if (p <? 1114112)%N then
    String (ascii_of_N (240 + p / 262144))
      (String (ascii_of_N (128 + (p / 4096) mod 64))
         (String (ascii_of_N (128 + (p / 64) mod 64))
            (String (ascii_of_N (128 + p mod 64)) EmptyString)))
  else String (ascii_of_N (p - 1114112)) EmptyString.

Fixpoint encode (l : list N) : string :=
  match l with
  | [] => EmptyString
  | p :: l' => encode_point p ++ encode l'
  end.

(** *** Letter case

    The tables are those of Unicode 14.0, as CPython 3.11 has them. *)

(** The simple lower-case mappings beyond ASCII: in [(first, last, step,
    target)] the characters [first], [first + step], ... up to [last] map
    to [target], [target + step], ... *)
Definition lower_table : list (N * N * N * N) := [
    (192, 214, 1, 224); (216, 222, 1, 248); (256, 302, 2, 257);
    (306, 310, 2, 307); (313, 327, 2, 314); (330, 374, 2, 331);
    (376, 376, 1, 255); (377, 381, 2, 378); (385, 385, 1, 595);
    (386, 388, 2, 387); (390, 390, 1, 596); (391, 391, 1, 392);
    (393, 394, 1, 598); (395, 395, 1, 396); (398, 398, 1, 477);
    (399, 399, 1, 601); (400, 400, 1, 603); (401, 401, 1, 402);
    (403, 403, 1, 608); (404, 404, 1, 611); (406, 406, 1, 617);
    (407, 407, 1, 616); (408, 408, 1, 409); (412, 412, 1, 623);
    (413, 413, 1, 626); (415, 415, 1, 629); (416, 420, 2, 417);
    (422, 422, 1, 640); (423, 423, 1, 424); (425, 425, 1, 643);
    (428, 428, 1, 429); (430, 430, 1, 648); (431, 431, 1, 432);
    (433, 434, 1, 650); (435, 437, 2, 436); (439, 439, 1, 658);
    (440, 440, 1, 441); (444, 444, 1, 445); (452, 452, 1, 454);
    (453, 453, 1, 454); (455, 455, 1, 457); (456, 456, 1, 457);
    (458, 458, 1, 460); (459, 475, 2, 460); (478, 494, 2, 479);
    (497, 497, 1, 499); (498, 500, 2, 499); (502, 502, 1, 405);
    (503, 503, 1, 447); (504, 542, 2, 505); (544, 544, 1, 414);
    (546, 562, 2, 547); (570, 570, 1, 11365); (571, 571, 1, 572);
    (573, 573, 1, 410); (574, 574, 1, 11366); (577, 577, 1, 578);
    (579, 579, 1, 384); (580, 580, 1, 649); (581, 581, 1, 652);
    (582, 590, 2, 583); (880, 882, 2, 881); (886, 886, 1, 887);
    (895, 895, 1, 1011); (902, 902, 1, 940); (904, 906, 1, 941);
    (908, 908, 1, 972); (910, 911, 1, 973); (913, 929, 1, 945);
    (931, 939, 1, 963); (975, 975, 1, 983); (984, 1006, 2, 985);
    (1012, 1012, 1, 952); (1015, 1015, 1, 1016); (1017, 1017, 1, 1010);
    (1018, 1018, 1, 1019); (1021, 1023, 1, 891); (1024, 1039, 1, 1104);
    (1040, 1071, 1, 1072); (1120, 1152, 2, 1121); (1162, 1214, 2, 1163);
    (1216, 1216, 1, 1231); (1217, 1229, 2, 1218); (1232, 1326, 2, 1233);
    (1329, 1366, 1, 1377); (4256, 4293, 1, 11520); (4295, 4295, 1, 11559);
    (4301, 4301, 1, 11565); (5024, 5103, 1, 43888); (5104, 5109, 1, 5112);
    (7312, 7354, 1, 4304); (7357, 7359, 1, 4349); (7680, 7828, 2, 7681);
    (7838, 7838, 1, 223); (7840, 7934, 2, 7841); (7944, 7951, 1, 7936);
    (7960, 7965, 1, 7952); (7976, 7983, 1, 7968); (7992, 7999, 1, 7984);
    (8008, 8013, 1, 8000); (8025, 8031, 2, 8017); (8040, 8047, 1, 8032);
    (8072, 8079, 1, 8064); (8088, 8095, 1, 8080); (8104, 8111, 1, 8096);
    (8120, 8121, 1, 8112); (8122, 8123, 1, 8048); (8124, 8124, 1, 8115);
    (8136, 8139, 1, 8050); (8140, 8140, 1, 8131); (8152, 8153, 1, 8144);
    (8154, 8155, 1, 8054); (8168, 8169, 1, 8160); (8170, 8171, 1, 8058);
    (8172, 8172, 1, 8165); (8184, 8185, 1, 8056); (8186, 8187, 1, 8060);
    (8188, 8188, 1, 8179); (8486, 8486, 1, 969); (8490, 8490, 1, 107);
    (8491, 8491, 1, 229); (8498, 8498, 1, 8526); (8544, 8559, 1, 8560);
    (8579, 8579, 1, 8580); (9398, 9423, 1, 9424); (11264, 11311, 1, 11312);
    (11360, 11360, 1, 11361); (11362, 11362, 1, 619); (11363, 11363, 1, 7549);
    (11364, 11364, 1, 637); (11367, 11371, 2, 11368); (11373, 11373, 1, 593);
    (11374, 11374, 1, 625); (11375, 11375, 1, 592); (11376, 11376, 1, 594);
    (11378, 11378, 1, 11379); (11381, 11381, 1, 11382); (11390, 11391, 1, 575);
    (11392, 11490, 2, 11393); (11499, 11501, 2, 11500); (11506, 11506, 1, 11507);
    (42560, 42604, 2, 42561); (42624, 42650, 2, 42625); (42786, 42798, 2, 42787);
    (42802, 42862, 2, 42803); (42873, 42875, 2, 42874); (42877, 42877, 1, 7545);
    (42878, 42886, 2, 42879); (42891, 42891, 1, 42892); (42893, 42893, 1, 613);
    (42896, 42898, 2, 42897); (42902, 42920, 2, 42903); (42922, 42922, 1, 614);
    (42923, 42923, 1, 604); (42924, 42924, 1, 609); (42925, 42925, 1, 620);
    (42926, 42926, 1, 618); (42928, 42928, 1, 670); (42929, 42929, 1, 647);
    (42930, 42930, 1, 669); (42931, 42931, 1, 43859); (42932, 42946, 2, 42933);
    (42948, 42948, 1, 42900); (42949, 42949, 1, 642); (42950, 42950, 1, 7566);
    (42951, 42953, 2, 42952); (42960, 42960, 1, 42961); (42966, 42968, 2, 42967);
    (42997, 42997, 1, 42998); (65313, 65338, 1, 65345); (66560, 66599, 1, 66600);
    (66736, 66771, 1, 66776); (66928, 66938, 1, 66967); (66940, 66954, 1, 66979);
    (66956, 66962, 1, 66995); (66964, 66965, 1, 67003); (68736, 68786, 1, 68800);
    (71840, 71871, 1, 71872); (93760, 93791, 1, 93792); (125184, 125217, 1, 125218)
  ]%N.

(** The characters with the property Cased. *)
Definition cased_table : list (N * N) := [
    (65, 90); (97, 122); (170, 170); (181, 181); (186, 186);
    (192, 214); (216, 246); (248, 442); (444, 447); (452, 659);
    (661, 687); (880, 883); (886, 887); (891, 893); (895, 895);
    (902, 902); (904, 906); (908, 908); (910, 929); (931, 1013);
    (1015, 1153); (1162, 1327); (1329, 1366); (1376, 1416); (4256, 4293);
    (4295, 4295); (4301, 4301); (4304, 4346); (4349, 4351); (5024, 5109);
    (5112, 5117); (7296, 7304); (7312, 7354); (7357, 7359); (7424, 7467);
    (7531, 7543); (7545, 7578); (7680, 7957); (7960, 7965); (7968, 8005);
    (8008, 8013); (8016, 8023); (8025, 8025); (8027, 8027); (8029, 8029);
    (8031, 8061); (8064, 8116); (8118, 8124); (8126, 8126); (8130, 8132);
    (8134, 8140); (8144, 8147); (8150, 8155); (8160, 8172); (8178, 8180);
    (8182, 8188); (8450, 8450); (8455, 8455); (8458, 8467); (8469, 8469);
    (8473, 8477); (8484, 8484); (8486, 8486); (8488, 8488); (8490, 8493);
    (8495, 8500); (8505, 8505); (8508, 8511); (8517, 8521); (8526, 8526);
    (8544, 8575); (8579, 8580); (9398, 9449); (11264, 11387); (11390, 11492);
    (11499, 11502); (11506, 11507); (11520, 11557); (11559, 11559); (11565, 11565);
    (42560, 42605); (42624, 42651); (42786, 42863); (42865, 42887); (42891, 42894);
    (42896, 42954); (42960, 42961); (42963, 42963); (42965, 42969); (42997, 42998);
    (43002, 43002); (43824, 43866); (43872, 43880); (43888, 43967); (64256, 64262);
    (64275, 64279); (65313, 65338); (65345, 65370); (66560, 66639); (66736, 66771);
    (66776, 66811); (66928, 66938); (66940, 66954); (66956, 66962); (66964, 66965);
    (66967, 66977); (66979, 66993); (66995, 67001); (67003, 67004); (68736, 68786);
    (68800, 68850); (71840, 71903); (93760, 93823); (119808, 119892); (119894, 119964);
    (119966, 119967); (119970, 119970); (119973, 119974); (119977, 119980); (119982, 119993);
    (119995, 119995); (119997, 120003); (120005, 120069); (120071, 120074); (120077, 120084);
    (120086, 120092); (120094, 120121); (120123, 120126); (120128, 120132); (120134, 120134);
    (120138, 120144); (120146, 120485); (120488, 120512); (120514, 120538); (120540, 120570);
    (120572, 120596); (120598, 120628); (120630, 120654); (120656, 120686); (120688, 120712);
    (120714, 120744); (120746, 120770); (120772, 120779); (122624, 122633); (122635, 122654);
    (125184, 125251); (127280, 127305); (127312, 127337); (127344, 127369)
  ]%N.

(** The characters with the property Case_Ignorable. *)
Definition case_ignorable_table : list (N * N) := [
    (39, 39); (46, 46); (58, 58); (94, 94); (96, 96);
    (168, 168); (173, 173); (175, 175); (180, 180); (183, 184);
    (688, 879); (884, 885); (890, 890); (900, 901); (903, 903);
    (1155, 1161); (1369, 1369); (1375, 1375); (1425, 1469); (1471, 1471);
    (1473, 1474); (1476, 1477); (1479, 1479); (1524, 1524); (1536, 1541);
    (1552, 1562); (1564, 1564); (1600, 1600); (1611, 1631); (1648, 1648);
    (1750, 1757); (1759, 1768); (1770, 1773); (1807, 1807); (1809, 1809);
    (1840, 1866); (1958, 1968); (2027, 2037); (2042, 2042); (2045, 2045);
    (2070, 2093); (2137, 2139); (2184, 2184); (2192, 2193); (2200, 2207);
    (2249, 2306); (2362, 2362); (2364, 2364); (2369, 2376); (2381, 2381);
    (2385, 2391); (2402, 2403); (2417, 2417); (2433, 2433); (2492, 2492);
    (2497, 2500); (2509, 2509); (2530, 2531); (2558, 2558); (2561, 2562);
    (2620, 2620); (2625, 2626); (2631, 2632); (2635, 2637); (2641, 2641);
    (2672, 2673); (2677, 2677); (2689, 2690); (2748, 2748); (2753, 2757);
    (2759, 2760); (2765, 2765); (2786, 2787); (2810, 2815); (2817, 2817);
    (2876, 2876); (2879, 2879); (2881, 2884); (2893, 2893); (2901, 2902);
    (2914, 2915); (2946, 2946); (3008, 3008); (3021, 3021); (3072, 3072);
    (3076, 3076); (3132, 3132); (3134, 3136); (3142, 3144); (3146, 3149);
    (3157, 3158); (3170, 3171); (3201, 3201); (3260, 3260); (3263, 3263);
    (3270, 3270); (3276, 3277); (3298, 3299); (3328, 3329); (3387, 3388);
    (3393, 3396); (3405, 3405); (3426, 3427); (3457, 3457); (3530, 3530);
    (3538, 3540); (3542, 3542); (3633, 3633); (3636, 3642); (3654, 3662);
    (3761, 3761); (3764, 3772); (3782, 3782); (3784, 3789); (3864, 3865);
    (3893, 3893); (3895, 3895); (3897, 3897); (3953, 3966); (3968, 3972);
    (3974, 3975); (3981, 3991); (3993, 4028); (4038, 4038); (4141, 4144);
    (4146, 4151); (4153, 4154); (4157, 4158); (4184, 4185); (4190, 4192);
    (4209, 4212); (4226, 4226); (4229, 4230); (4237, 4237); (4253, 4253);
    (4348, 4348); (4957, 4959); (5906, 5908); (5938, 5939); (5970, 5971);
    (6002, 6003); (6068, 6069); (6071, 6077); (6086, 6086); (6089, 6099);
    (6103, 6103); (6109, 6109); (6155, 6159); (6211, 6211); (6277, 6278);
    (6313, 6313); (6432, 6434); (6439, 6440); (6450, 6450); (6457, 6459);
    (6679, 6680); (6683, 6683); (6742, 6742); (6744, 6750); (6752, 6752);
    (6754, 6754); (6757, 6764); (6771, 6780); (6783, 6783); (6823, 6823);
    (6832, 6862); (6912, 6915); (6964, 6964); (6966, 6970); (6972, 6972);
    (6978, 6978); (7019, 7027); (7040, 7041); (7074, 7077); (7080, 7081);
    (7083, 7085); (7142, 7142); (7144, 7145); (7149, 7149); (7151, 7153);
    (7212, 7219); (7222, 7223); (7288, 7293); (7376, 7378); (7380, 7392);
    (7394, 7400); (7405, 7405); (7412, 7412); (7416, 7417); (7468, 7530);
    (7544, 7544); (7579, 7679); (8125, 8125); (8127, 8129); (8141, 8143);
    (8157, 8159); (8173, 8175); (8189, 8190); (8203, 8207); (8216, 8217);
    (8228, 8228); (8231, 8231); (8234, 8238); (8288, 8292); (8294, 8303);
    (8305, 8305); (8319, 8319); (8336, 8348); (8400, 8432); (11388, 11389);
    (11503, 11505); (11631, 11631); (11647, 11647); (11744, 11775); (11823, 11823);
    (12293, 12293); (12330, 12333); (12337, 12341); (12347, 12347); (12441, 12446);
    (12540, 12542); (40981, 40981); (42232, 42237); (42508, 42508); (42607, 42610);
    (42612, 42621); (42623, 42623); (42652, 42655); (42736, 42737); (42752, 42785);
    (42864, 42864); (42888, 42890); (42994, 42996); (43000, 43001); (43010, 43010);
    (43014, 43014); (43019, 43019); (43045, 43046); (43052, 43052); (43204, 43205);
    (43232, 43249); (43263, 43263); (43302, 43309); (43335, 43345); (43392, 43394);
    (43443, 43443); (43446, 43449); (43452, 43453); (43471, 43471); (43493, 43494);
    (43561, 43566); (43569, 43570); (43573, 43574); (43587, 43587); (43596, 43596);
    (43632, 43632); (43644, 43644); (43696, 43696); (43698, 43700); (43703, 43704);
    (43710, 43711); (43713, 43713); (43741, 43741); (43756, 43757); (43763, 43764);
    (43766, 43766); (43867, 43871); (43881, 43883); (44005, 44005); (44008, 44008);
    (44013, 44013); (64286, 64286); (64434, 64450); (65024, 65039); (65043, 65043);
    (65056, 65071); (65106, 65106); (65109, 65109); (65279, 65279); (65287, 65287);
    (65294, 65294); (65306, 65306); (65342, 65342); (65344, 65344); (65392, 65392);
    (65438, 65439); (65507, 65507); (65529, 65531); (66045, 66045); (66272, 66272);
    (66422, 66426); (67456, 67461); (67463, 67504); (67506, 67514); (68097, 68099);
    (68101, 68102); (68108, 68111); (68152, 68154); (68159, 68159); (68325, 68326);
    (68900, 68903); (69291, 69292); (69446, 69456); (69506, 69509); (69633, 69633);
    (69688, 69702); (69744, 69744); (69747, 69748); (69759, 69761); (69811, 69814);
    (69817, 69818); (69821, 69821); (69826, 69826); (69837, 69837); (69888, 69890);
    (69927, 69931); (69933, 69940); (70003, 70003); (70016, 70017); (70070, 70078);
    (70089, 70092); (70095, 70095); (70191, 70193); (70196, 70196); (70198, 70199);
    (70206, 70206); (70367, 70367); (70371, 70378); (70400, 70401); (70459, 70460);
    (70464, 70464); (70502, 70508); (70512, 70516); (70712, 70719); (70722, 70724);
    (70726, 70726); (70750, 70750); (70835, 70840); (70842, 70842); (70847, 70848);
    (70850, 70851); (71090, 71093); (71100, 71101); (71103, 71104); (71132, 71133);
    (71219, 71226); (71229, 71229); (71231, 71232); (71339, 71339); (71341, 71341);
    (71344, 71349); (71351, 71351); (71453, 71455); (71458, 71461); (71463, 71467);
    (71727, 71735); (71737, 71738); (71995, 71996); (71998, 71998); (72003, 72003);
    (72148, 72151); (72154, 72155); (72160, 72160); (72193, 72202); (72243, 72248);
    (72251, 72254); (72263, 72263); (72273, 72278); (72281, 72283); (72330, 72342);
    (72344, 72345); (72752, 72758); (72760, 72765); (72767, 72767); (72850, 72871);
    (72874, 72880); (72882, 72883); (72885, 72886); (73009, 73014); (73018, 73018);
    (73020, 73021); (73023, 73029); (73031, 73031); (73104, 73105); (73109, 73109);
    (73111, 73111); (73459, 73460); (78896, 78904); (92912, 92916); (92976, 92982);
    (92992, 92995); (94031, 94031); (94095, 94111); (94176, 94177); (94179, 94180);
    (110576, 110579); (110581, 110587); (110589, 110590); (113821, 113822); (113824, 113827);
    (118528, 118573); (118576, 118598); (119143, 119145); (119155, 119170); (119173, 119179);
    (119210, 119213); (119362, 119364); (121344, 121398); (121403, 121452); (121461, 121461);
    (121476, 121476); (121499, 121503); (121505, 121519); (122880, 122886); (122888, 122904);
    (122907, 122913); (122915, 122916); (122918, 122922); (123184, 123197); (123566, 123566);
    (123628, 123631); (125136, 125142); (125252, 125259); (127995, 127999); (917505, 917505);
    (917536, 917631); (917760, 917999)
  ]%N.

Fixpoint lower_in (table : list (N * N * N * N)) (x : N) : N :=
  match table with
  | [] => x
  | (first, last, step, target) :: table' =>
      if (x <? first)%N then x
      else if ((x <=? last) && ((x - first) mod step =? 0))%N
      then (target + (x - first))%N
      else lower_in table' x
  end.

Fixpoint in_ranges (ranges : list (N * N)) (x : N) : bool :=
  match ranges with
  | [] => false
  | (first, last) :: ranges' =>
      if (x <? first)%N then false
      else if (x <=? last)%N then true
      else in_ranges ranges' x
  end.

Definition is_cased (x : N) : bool := in_ranges cased_table x.

Definition is_case_ignorable (x : N) : bool := in_ranges case_ignorable_table x.

(** The lower case of one character, whatever surrounds it. U+0130 is
    the one character that becomes two. *)
Definition lower_point (x : N) : list N :=
  if (x <? 128)%N then [if ((65 <=? x) && (x <=? 90))%N then (x + 32)%N else x]
  else if (x =? 304)%N then [105; 775]%N
  else [lower_in lower_table x].

(** No cased letter follows, case-ignorable characters aside. *)
Fixpoint no_cased_letter_next (l : list N) : bool :=
  match l with
  | [] => true
  | y :: l' =>
      if is_case_ignorable y then no_cased_letter_next l' else negb (is_cased y)
  end.

(** [after_cased] tells whether a cased letter precedes, case-ignorable
    characters aside. A capital sigma (U+03A3) becomes the final sigma
    (U+03C2) at the end of a word, and the small sigma (U+03C3)
    elsewhere. *)
Fixpoint lower_points (after_cased : bool) (l : list N) : list N :=
  match l with
  | [] => []
  | x :: l' =>
      ((if (x =? 931)%N
        then [if after_cased && no_cased_letter_next l' then 962 else 963]%N
        else lower_point x)
       ++ lower_points (if is_case_ignorable x then after_cased else is_cased x) l')%list
  end.

(** [s.lower()] *)
Definition lower (s : string) : string :=
  encode (lower_points false (decode s)).

(** *** White space at the ends *)

Fixpoint lstrip (s : string) : string :=
  match s with
  | EmptyString => EmptyString
  | String c1 s1 =>
      if is_space c1 then lstrip s1
      else
        match s1 with
        | EmptyString => s
        | String c2 s2 =>
            if is_space2 c1 c2 then lstrip s2
            else
              match s2 with
              | EmptyString => s
              | String c3 s3 => if is_space3 c1 c2 c3 then lstrip s3 else s
              end
        end
  end.

(** [rstrip s'] is what is left of the rest of the string: when the
    character at hand and that make up one white-space character, only
    white space follows. *)
Fixpoint rstrip (s : string) : string :=
  match s with
  | EmptyString => EmptyString
  | String c s' =>
      let r := rstrip s' in
      if is_space_char (String c r) then EmptyString else String c r
  end.

(** [s.strip()] *)
Definition strip (s : string) : string := rstrip (lstrip s).

(** [s.split(sep)] for a one-character separator: never an empty list. *)
Fixpoint split (sep : ascii) (s : string) : list string :=
  match s with
  | EmptyString => [EmptyString]
  | String c s' =>
      if Ascii.eqb c sep then EmptyString :: split sep s'
      else match split sep s' with
           | p :: ps => String c p :: ps
           | [] => [String c EmptyString]
           end
  end.

(** [t in s] for two strings. *)
Fixpoint contains (t s : string) : bool :=
  String.prefix t s ||
  match s with
  | EmptyString => false
  | String _ s' => contains t s'
  end.

(** [sep.join(xs)]: every item has to be a [str]. *)
Fixpoint py_join (sep : string) (xs : list value) : result string :=
  match xs with
  | [] => Ok EmptyString
  | [VStr s] => Ok s
  | VStr s :: xs' => let? r := py_join sep xs' in Ok (s ++ sep ++ r)
  | _ :: _ => Raise TypeError
  end.

(** [(v or "").strip()] style string methods: only a [str] has them. *)
Definition py_str (v : value) : result string :=
  match v with
  | VStr s => Ok s
  | _ => Raise AttributeError
  end.

(** ** [int(...)] *)

Definition digit_val (c : ascii) : Z := Z.of_nat (nat_of_ascii c - 48)%nat.

(** Decimal digits with single underscores allowed between digits.
    [prev_digit] tells whether the previous character was a digit. *)
Fixpoint parse_digits (s : string) (acc : Z) (prev_digit : bool) : option Z :=
  match s with
  | EmptyString => if prev_digit then Some acc else None
  | String c s' =>
      if is_digit c then parse_digits s' (10 * acc + digit_val c)%Z true
      else if Ascii.eqb c "_" && prev_digit then
        match s' with
        | String c' _ => if is_digit c' then parse_digits s' acc false else None
        | EmptyString => None
        end
      else None
  end.

(** [int(s)] for a string, base 10. *)
Definition int_of_str (s : string) : result Z :=
  let body := strip s in
  let parsed :=
    match body with
    | String "-" r => option_map Z.opp (parse_digits r 0 false)
    | String "+" r => parse_digits r 0 false
    | _ => parse_digits body 0 false
    end in
  match parsed with
  | Some z => Ok z
  | None => Raise ValueError
  end.

Definition py_int (v : value) : result Z :=
  match v with
  | VInt z => Ok z
  | VBool b => Ok (if b then 1 else 0)%Z
  | VStr s => int_of_str s
  | VNone | VList _ | VDict _ => Raise TypeError
  end.

(** [s.isdigit()] *)
Fixpoint all_digits (s : string) : bool :=
  match s with
  | EmptyString => true
  | String c s' => is_digit c && all_digits s'
  end.

Definition isdigit (s : string) : bool :=
  negb (String.eqb s EmptyString) && all_digits s.

End Py.
Import Py.

(* ===================================================================== *)
(** * The HTTP session, the request trace and [while] loops               *)
(* ===================================================================== *)

Module Run.

(** [requests.Session.post(url, json=payload)], followed by
    [raise_for_status()] and [.json()]: the decoded body, or [None] for any
    transport or protocol failure. *)
Definition session := string -> value -> option value.

(** The requests issued so far, oldest first: URL and JSON payload. *)
Definition trace := list (string * value).

(** A computation that may issue requests and may raise. [None] is the
    model running out of loop fuel; no Python behaviour corresponds to it. *)
Definition M (A : Type) := trace -> option (result A * trace).

Definition ret {A} (a : A) : M A := fun t => Some (Ok a, t).

Definition raise {A} (e : exn) : M A := fun t => Some (Raise e, t).

Definition lift {A} (r : result A) : M A := fun t => Some (r, t).

Definition bind {A B} (m : M A) (k : A -> M B) : M B :=
  fun t =>
    match m t with
    | Some (Ok a, t') => k a t'
    | Some (Raise e, t') => Some (Raise e, t')
    | None => None
    end.

Notation "'do' x <- e ; k" := (bind e (fun x => k))
  (at level 10, x name, e at level 100, k at level 200).

Definition post (s : session) (url : string) (payload : value) : M value :=
  fun t =>
    Some (match s url payload with
          | Some body => Ok body
          | None => Raise RequestException
          end, (t ++ [(url, payload)])%list).

(** What one pass through a loop body decides. *)
Inductive ctl (S : Type) :=
| Next (s : S)
| Break (s : S).
Arguments Next {S} s.
Arguments Break {S} s.

(** [while cond(s): s = body(s)], with [break]. *)
Fixpoint while {S} (fuel : nat) (cond : S -> bool) (body : S -> M (ctl S)) (s : S) : M S :=
  if cond s then
    match fuel with
    | O => fun _ => None
    | Datatypes.S fuel' =>
        do c <- body s;
        match c with
        | Break s' => ret s'
        | Next s' => while fuel' cond body s'
        end
    end
  else ret s.

(** [for x in xs: acc = body(acc, x)] where the body issues requests. *)
Fixpoint for_each {A B} (body : A -> B -> M A) (acc : A) (xs : list B) : M A :=
  match xs with
  | [] => ret acc
  | x :: xs' => do acc' <- body acc x; for_each body acc' xs'
  end.

End Run.
Import Run.

(* ===================================================================== *)
(** * qf3_api.py                                                          *)
(* ===================================================================== *)

Module qf3_api.

Record QF3Config := {
  base_url : string;
  language_code : string;
  company_id : Z;
  plant_id : Z;
}.

Definition default_config : QF3Config :=
  {| base_url := "https://qf3.qfactory.biz:8000";
     language_code := "KO";
     company_id := 100;
     plant_id := 11 |}.

Record QF3Client := {
  config : QF3Config;
  sess : session;
}.

(** The keys of the job index. A key is used through its hash and
    equality, under which [True] and [1] are the same key. *)
Inductive key :=
| KNone
| KInt (z : Z)
| KStr (s : string).

#[export] Instance key_eq_dec : EqDecision key.
Proof. solve_decision. Defined.

#[export] Instance key_countable : Countable key.
Proof.
  refine (inj_countable'
    (fun k => match k with
              | KNone => inl ()
              | KInt z => inr (inl z)
              | KStr s => inr (inr s)
              end)
    (fun x => match x with
              | inl _ => KNone
              | inr (inl z) => KInt z
              | inr (inr s) => KStr s
              end) _).
  intros []; reflexivity.
Defined.

(** Hashing a value to use it as a dict key; lists and dicts are
    unhashable. *)
Definition hash_key (v : value) : result key :=
  match v with
  | VNone => Ok KNone
  | VBool b => Ok (KInt (if b then 1 else 0))
  | VInt z => Ok (KInt z)
  | VStr s => Ok (KStr s)
  | VList _ | VDict _ => Raise TypeError
  end.

Section Client.

Variable self : QF3Client.

(** ** QCM *)

Definition head_list
    (inspection_date_from inspection_date_to : string)
    (item_code item_name job_name operation_code : string)
    (person_id : Z) (check_class : string)
    (page limit start : Z) : M value :=
  let url := base_url (config self) ++ "/qcm/operation_inspection-view/head-list" in
  let payload := VDict [
    ("companyId", VInt (company_id (config self)));
    ("plantId", VInt (plant_id (config self)));
    ("inspectionDateFrom", VStr inspection_date_from);
    ("inspectionDateTo", VStr inspection_date_to);
    ("itemCode", VStr item_code);
    ("itemName", VStr item_name);
    ("jobName", VStr job_name);
    ("operationCode", VStr operation_code);
    ("personId", VInt person_id);
    ("checkClass", VStr check_class);
    ("languageCode", VStr (language_code (config self)));
    ("start", VInt start);
    ("page", VInt page);
    ("limit", VStr (pretty limit))
  ] in
  post (sess self) url payload.

Definition line_list (mfg_inspection_id : Z) (page limit : Z) (node : string) : M value :=
  let url := base_url (config self) ++ "/qcm/operation_inspection-view/line-list" in
  let payload := VDict [
    ("languageCode", VStr (language_code (config self)));
    ("companyId", VInt (company_id (config self)));
    ("plantId", VInt (plant_id (config self)));
    ("mfgInspectionId", VInt mfg_inspection_id);
    ("start", VInt 1);
    ("page", VInt page);
    ("limit", VStr (pretty limit));
    ("node", VStr node)
  ] in
  post (sess self) url payload.

(** ** MFG *)

Definition joborder_list
    (released_date_from released_date_to : string)
    (item_code item_name job_name workcenter_code worker_result : string)
    (page limit start : Z) : M value :=
  let url := base_url (config self) ++ "/mfg/job_order_sum_view/joborder-list" in
  let payload := VDict [
    ("languageCode", VStr (language_code (config self)));
    ("companyId", VInt (company_id (config self)));
    ("plantId", VInt (plant_id (config self)));
    ("releasedDateFrom", VStr released_date_from);
    ("releasedDateTo", VStr released_date_to);
    ("itemCode", VStr item_code);
    ("itemName", VStr item_name);
    ("jobName", VStr job_name);
    ("jobComent", VStr "");
    ("workcenterCode", VStr workcenter_code);
    ("workerResult", VStr worker_result);
    ("status", VDict [
       ("CANCEL", VBool false);
       ("CLOSE", VBool true);
       ("COMPLETE", VBool true);
       ("EXECUTE", VBool true);
       ("HOLDING", VBool true);
       ("RELEASED", VBool false);
       ("UNRELEASE", VBool false)
     ]);
    ("start", VInt start);
    ("page", VInt page);
    ("limit", VStr (pretty limit))
  ] in
  post (sess self) url payload.

End Client.

(** ** Helpers *)

(** [(resp or {}).get("data", {}).get("list", []) or []] *)
Definition _extract_list (resp : value) : result value :=
  let? data := py_get (py_or resp (VDict [])) "data" (VDict []) in
  let? lst := py_get data "list" (VList []) in
  Ok (py_or lst (VList [])).

(** [lst] is computed by the expression of [_extract_list]. *)
Definition _extract_total (resp : value) : result Z :=
  let? lst := _extract_list resp in
  if negb (truthy lst) then Ok 0%Z
  else
    let? first := py_first lst in
    let? n := py_len lst in
    let? cnt := py_get first "cnt" (VInt n) in
    py_int (py_or cnt (VInt n)).

(** The job index: job name to its equipment names. *)
Abbreviation job_map := (gmap key pydict).

(** One pass of [for r in rows] in [build_job_equipment_map]. *)
Definition index_row (mp : job_map) (r : value) : result job_map :=
  let? jn := py_get r "jobName" VNone in
  if negb (truthy jn) then Ok mp
  else
    let? wc := py_get r "workcenterName" VNone in
    let? mc := py_get r "machineName" VNone in
    let? rs := py_get r "resourceName" VNone in
    let? k := hash_key jn in
    Ok (<[k := [("workcenterName", wc); ("machineName", mc); ("resourceName", rs)]]> mp).

Section Fetch.

Variable self : QF3Client.

(** Loop state of [build_job_equipment_map]. *)
Record map_state := { ms_mp : job_map; ms_page : Z }.

Definition build_job_equipment_map_body
    (released_date_from released_date_to : string) (limit : Z)
    (st : map_state) : M (ctl map_state) :=
  do resp <- joborder_list self released_date_from released_date_to
               "" "" "" "" "Y" (ms_page st) limit 1;
  do rows <- lift (_extract_list resp);
  if negb (truthy rows) then ret (Break st)
  else
    do items <- lift (py_iter rows);
    do mp <- lift (res_fold index_row (ms_mp st) items);
    do total <- lift (_extract_total resp);
    if (Z.of_nat (size mp) >=? total)%Z
    then ret (Break {| ms_mp := mp; ms_page := ms_page st |})
    else ret (Next {| ms_mp := mp; ms_page := (ms_page st + 1)%Z |}).

Definition build_job_equipment_map
    (released_date_from released_date_to : string)
    (limit max_pages : Z) : M job_map :=
  do st <- while (Z.to_nat max_pages)
             (fun st => (ms_page st <=? max_pages)%Z)
             (build_job_equipment_map_body released_date_from released_date_to limit)
             {| ms_mp := ∅; ms_page := 1 |};
  ret (ms_mp st).

(** Loop state of [fetch_all_heads]. *)
Record heads_state := { hs_all_rows : list value; hs_page : Z }.

Definition fetch_all_heads_body
    (inspection_date_from inspection_date_to : string)
    (item_code item_name job_name operation_code : string)
    (person_id : Z) (check_class : string) (limit : Z)
    (st : heads_state) : M (ctl heads_state) :=
  do resp <- head_list self inspection_date_from inspection_date_to
               item_code item_name job_name operation_code
               person_id check_class (hs_page st) limit 1;
  do rows <- lift (_extract_list resp);
  if negb (truthy rows) then ret (Break st)
  else
    do items <- lift (py_iter rows);
    let all_rows := (hs_all_rows st ++ items)%list in
    do total <- lift (_extract_total resp);
    if (Z.of_nat (List.length all_rows) >=? total)%Z
    then ret (Break {| hs_all_rows := all_rows; hs_page := hs_page st |})
    else ret (Next {| hs_all_rows := all_rows; hs_page := (hs_page st + 1)%Z |}).

Definition fetch_all_heads
    (inspection_date_from inspection_date_to : string)
    (item_code item_name job_name operation_code : string)
    (person_id : Z) (check_class : string)
    (limit max_pages : Z) : M (list value) :=
  do st <- while (Z.to_nat max_pages)
             (fun st => (hs_page st <=? max_pages)%Z)
             (fetch_all_heads_body inspection_date_from inspection_date_to
                item_code item_name job_name operation_code
                person_id check_class limit)
             {| hs_all_rows := []; hs_page := 1 |};
  ret (hs_all_rows st).

End Fetch.

(** One pass of [for h in heads] in [attach_equipment_to_heads]. *)
Definition attach_equipment (job_mp : job_map) (h : value) : result pydict :=
  let? h2 := py_dict h in
  let jn := dict_get h2 "jobName" VNone in
  let? eq :=
    if truthy jn
    then let? k := hash_key jn in Ok (default [] (job_mp !! k))
    else Ok [] in
  let h2 := dict_set h2 "workcenterName" (dict_get eq "workcenterName" VNone) in
  let h2 := dict_set h2 "machineName" (dict_get eq "machineName" VNone) in
  let h2 := dict_set h2 "resourceName" (dict_get eq "resourceName" VNone) in
  let wc := py_or (dict_get h2 "workcenterName" VNone) (VStr "") in
  let mc := py_or (dict_get h2 "machineName" VNone) (VStr "") in
  let rs := py_or (dict_get h2 "resourceName" VNone) (VStr "") in
  let? display := py_join " / " (List.filter truthy [wc; mc; rs]) in
  Ok (dict_set h2 "equipmentDisplay" (VStr display)).

Definition attach_equipment_to_heads (heads : list value) (job_mp : job_map)
    : result (list pydict) :=
  res_map (attach_equipment job_mp) heads.

(** ** Auth *)

Section Auth.

(** [f"{data}"], the text Python prints for a value. Only the message of
    the exception depends on it. *)
Variable repr : value -> string.

Definition login (self : QF3Client) (company_code user_key password : string)
    : M value :=
  let url := base_url (config self) ++ "/common/login/post-login" in
  let payload := VDict [
    ("companyCode", VStr company_code);
    ("userKey", VStr user_key);
    ("password", VStr password);
    ("languageCode", VStr (language_code (config self)))
  ] in
  do data <- post (sess self) url payload;
  do ok <- lift (py_get data "success" VNone);
  if negb (truthy ok) then raise (RuntimeError ("Login failed: " ++ repr data))
  else ret data.

End Auth.

End qf3_api.
Import qf3_api.

(* ===================================================================== *)
(** * qfactory_client.py                                                  *)
(* ===================================================================== *)

Module qfactory_client.

Record QFactoryClient := {
  base_url : string;
  sess : session;
}.

Definition ITEM_LIST_ENDPOINT : string := "/base/item/list".

(** The keyword arguments shared by [list_items_page] and
    [list_items_all]. *)
Record item_filters := {
  language_code : string;
  company_id : Z;
  status : string;
  item_plant : Z;
  item_code : string;
  item_name : string;
  item_type : string;
  product_group : string;
  buy_make : string;
  control_lot : string;
}.

Section Client.

Variable self : QFactoryClient.

Definition post_json (path : string) (payload : value) : M value :=
  post (sess self) (base_url self ++ path) payload.

Definition list_items_page (f : item_filters) (page limit : Z) : M value :=
  let start := ((page - 1) * limit + 1)%Z in
  let payload := VDict [
    ("languageCode", VStr (language_code f));
    ("companyId", VInt (company_id f));
    ("status", VStr (status f));
    ("itemPlant", VInt (item_plant f));
    ("itemCode", VStr (item_code f));
    ("itemName", VStr (item_name f));
    ("itemType", VStr (item_type f));
    ("productGroup", VStr (product_group f));
    ("buyMake", VStr (buy_make f));
    ("controlLot", VStr (control_lot f));
    ("start", VInt start);
    ("page", VInt page);
    ("limit", VInt limit)
  ] in
  post_json ITEM_LIST_ENDPOINT payload.

End Client.

(** The inner [for k in path] of [extract_rows]: [None] when a step
    fails ([ok = False]). *)
Fixpoint walk_path (cur : value) (path : list string) : option value :=
  match path with
  | [] => Some cur
  | k :: path' =>
      match cur with
      | VDict d =>
          match dict_lookup d k with
          | Some v => walk_path v path'
          | None => None
          end
      | _ => None
      end
  end.

Definition row_paths : list (list string) :=
  [ ["data"; "list"]; ["data"; "rows"]; ["data"; "items"];
    ["result"; "list"]; ["result"; "rows"];
    ["list"]; ["rows"]; ["items"] ].

(** The outer [for path in ...]: the first path that leads to a list. *)
Fixpoint first_list_at (resp_json : value) (paths : list (list string)) : option (list value) :=
  match paths with
  | [] => None
  | path :: paths' =>
      match walk_path resp_json path with
      | Some (VList l) => Some l
      | _ => first_list_at resp_json paths'
      end
  end.

(** [for v in resp_json.values()]: the first non-empty list whose first
    element is a dict. *)
Fixpoint first_list_of_dicts (d : pydict) : option (list value) :=
  match d with
  | [] => None
  | (_, VList (VDict x :: l)) :: _ => Some (VDict x :: l)
  | _ :: d' => first_list_of_dicts d'
  end.

Definition extract_rows (resp_json : value) : list value :=
  match resp_json with
  | VNone => []
  | VList l => l
  | VDict d =>
      match first_list_at resp_json row_paths with
      | Some l => l
      | None =>
          match first_list_of_dicts d with
          | Some l => l
          | None => []
          end
      end
  | VBool _ | VInt _ | VStr _ => []
  end.

(** The [for k in ["total", ...]] of [extract_total]. A [bool] is an
    [int] for [isinstance]. *)
Fixpoint total_at_keys (d : pydict) (keys : list string) : result (option Z) :=
  match keys with
  | [] => Ok None
  | k :: keys' =>
      match dict_get d k VNone with
      | VInt z => Ok (Some z)
      | VBool b => Ok (Some (if b then 1 else 0)%Z)
      | VStr s =>
          if isdigit s then let? z := int_of_str s in Ok (Some z)
          else total_at_keys d keys'
      | _ => total_at_keys d keys'
      end
  end.

Definition extract_total (resp_json : value) : result (option Z) :=
  match resp_json with
  | VDict d =>
      let? t := total_at_keys d ["total"; "count"; "recordsTotal"; "totalCount"] in
      match t with
      | Some z => Ok (Some z)
      | None =>
          match dict_get d "data" VNone with
          | VDict data =>
              match dict_get data "total" VNone with
              | VInt z => Ok (Some z)
              | VBool b => Ok (Some (if b then 1 else 0)%Z)
              | _ => Ok None
              end
          | _ => Ok None
          end
      end
  | _ => Ok None
  end.

Section Fetch.

Variable self : QFactoryClient.

(** Loop state of [list_items_all]. The progress callback only observes
    it and is left out. *)
Record items_state := {
  is_all_rows : list value;
  is_page : Z;
  is_total : option Z;
}.

Definition list_items_all_body (f : item_filters) (limit : Z)
    (st : items_state) : M (ctl items_state) :=
  do resp <- list_items_page self f (is_page st) limit;
  do total <- match is_total st with
              | None => lift (extract_total resp)
              | Some t => ret (Some t)
              end;
  let rows := extract_rows resp in
  let all_rows := (is_all_rows st ++ rows)%list in
  let st' := {| is_all_rows := all_rows; is_page := is_page st; is_total := total |} in
  if match total with
     | Some t => (Z.of_nat (List.length all_rows) >=? t)%Z
     | None => false
     end
  then ret (Break st')
  else if (Z.of_nat (List.length rows) <? limit)%Z
  then ret (Break st')
  else ret (Next {| is_all_rows := all_rows;
                    is_page := (is_page st + 1)%Z;
                    is_total := total |}).

Definition list_items_all (f : item_filters) (limit max_pages : Z) : M (list value) :=
  do st <- while (Z.to_nat max_pages)
             (fun st => (is_page st <=? max_pages)%Z)
             (list_items_all_body f limit)
             {| is_all_rows := []; is_page := 1; is_total := None |};
  ret (is_all_rows st).

End Fetch.

(** [login] hands the answer back as it is, whatever it says. *)
Definition login (self : QFactoryClient)
    (company_code user_key password language_code : string) : M value :=
  post_json self "/common/login/post-login"
    (VDict [
       ("companyCode", VStr company_code);
       ("userKey", VStr user_key);
       ("password", VStr password);
       ("languageCode", VStr language_code)
     ]).

End qfactory_client.

(* ===================================================================== *)
(** * app.py                                                              *)
(* ===================================================================== *)

Module app.

Definition _workcenter_from_head (h : pydict) : result string :=
  let? wc := py_str (py_or (dict_get h "workcenterName" VNone) (VStr "")) in
  let wc := strip wc in
  if truthy (VStr wc) then Ok wc
  else
    let? ed := py_str (py_or (dict_get h "equipmentDisplay" VNone) (VStr "")) in
    let ed := strip ed in
    if truthy (VStr ed) then Ok (strip (hd "" (split "/" ed)))
    else
      let? cb := py_str (py_or (dict_get h "createdBy" VNone) (VStr "")) in
      Ok (strip cb).

(** [q] is the text of the search box, a [str]; [q or ""] is [q]. *)
Definition _parse_and_tokens (q : string) : list string :=
  let q := strip q in
  if negb (truthy (VStr q)) then []
  else
    let parts := map strip (split "%" q) in
    List.filter (fun p => truthy (VStr p)) parts.

(** The inner [for t in tokens] with its [break]: the final [ok]. *)
Fixpoint all_tokens_in (tokens : list string) (name_l : string) : bool :=
  match tokens with
  | [] => true
  | t :: tokens' =>
      if negb (contains (lower t) name_l) then false
      else all_tokens_in tokens' name_l
  end.

(** One pass of [for h in heads] in [_filter_heads_by_item_name]. *)
Definition filter_head (tokens : list string) (out : list pydict) (h : pydict)
    : result (list pydict) :=
  let? name := py_str (py_or (dict_get h "itemName" VNone) (VStr "")) in
  let name_l := lower name in
  if all_tokens_in tokens name_l then Ok (out ++ [h])%list else Ok out.

Definition _filter_heads_by_item_name (heads : list pydict) (item_name_q : string)
    : result (list pydict) :=
  let tokens := _parse_and_tokens item_name_q in
  match tokens with
  | [] => Ok heads
  | _ => res_fold (filter_head tokens) [] heads
  end.

(** ** The export sheet *)

Inductive cell_style :=
| header_style   (* bold white on 1F4E79, centred *)
| item_style.    (* bold white on 2F2F2F, left aligned *)

(** The worksheet as the code builds it: the rows passed to [ws.append],
    top row first, and the row numbers (1-based) whose cells were styled.
    openpyxl is taken to accept every cell (it refuses lists, dicts and
    strings with control characters, and cuts a string at 32767
    characters). Column widths, the frozen pane and the serialisation to
    bytes do not depend on the data and are left out. *)
Record worksheet := {
  ws_title : string;
  ws_rows : list (list value);
  ws_styled : list (Z * cell_style);
}.

Definition ws_append (ws : worksheet) (row : list value) : worksheet :=
  {| ws_title := ws_title ws;
     ws_rows := (ws_rows ws ++ [row])%list;
     ws_styled := ws_styled ws |}.

(** The [for col_idx in range(1, len(columns) + 1)] styling loops: every
    cell of row [row] gets the same font, fill and alignment. *)
Definition ws_style_row (ws : worksheet) (row : Z) (sty : cell_style) : worksheet :=
  {| ws_title := ws_title ws;
     ws_rows := ws_rows ws;
     ws_styled := (ws_styled ws ++ [(row, sty)])%list |}.

Definition columns : list value :=
  [ VStr "구분"; VStr "품목코드"; VStr "품목명"; VStr "작업장";
    VStr "검사항목"; VStr "측정값"; VStr "단위"; VStr "기준";
    VStr "상한"; VStr "하한"; VStr "판정" ].

(** Loop state of [_excel_one_sheet_item_then_results]. *)
Record sheet_state := { ss_ws : worksheet; ss_row_num : Z }.

(** The item row of a head. *)
Definition item_row (item_code item_name : value) (wc : string) : list value :=
  [ VStr "품목"; item_code; item_name; VStr wc;
    VStr ""; VStr ""; VStr ""; VStr ""; VStr ""; VStr ""; VStr "" ].

(** The placeholder row of a head without inspection results. *)
Definition no_result_row (item_code item_name : value) (wc : string) : list value :=
  [ VStr "검사"; item_code; item_name; VStr wc; VStr "(검사결과 없음)";
    VStr ""; VStr ""; VStr ""; VStr ""; VStr ""; VStr "" ].

(** The row of one inspection result [r]. *)
Definition result_row (item_code item_name : value) (wc : string) (r : value)
    : result (list value) :=
  let? c5 := py_get r "level3ClassName" VNone in
  let? c6 := py_get r "checkValue" VNone in
  let? c7 := py_get r "unit" VNone in
  let? c8 := py_get r "standardValue" VNone in
  let? c9 := py_get r "upperLimit" VNone in
  let? c10 := py_get r "lowerLimit" VNone in
  let? c11 := py_get r "passDecision" VNone in
  Ok [ VStr "검사"; item_code; item_name; VStr wc; c5; c6; c7; c8; c9; c10; c11 ].

(** One pass of [for r in rows_l]. *)
Definition append_result (item_code item_name : value) (wc : string)
    (st : sheet_state) (r : value) : result sheet_state :=
  let? row := result_row item_code item_name wc r in
  Ok {| ss_ws := ws_append (ss_ws st) row; ss_row_num := (ss_row_num st + 1)%Z |}.

(** One pass of [for i, h in enumerate(heads2, start=1)]. The progress
    callback only observes [i] and is left out. *)
Definition append_head (client : QF3Client) (st : sheet_state) (h : pydict)
    : M sheet_state :=
  do wc <- lift (_workcenter_from_head h);
  let item_code := dict_get h "itemCode" VNone in
  let item_name := dict_get h "itemName" VNone in
  do mid <- lift (let? v := dict_getitem h "mfgInspectionId" in py_int v);
  let ws := ws_append (ss_ws st) (item_row item_code item_name wc) in
  let ws := ws_style_row ws (ss_row_num st) item_style in
  let row_num := (ss_row_num st + 1)%Z in
  do resp_l <- line_list client mid 1 500 "root";
  do rows_l <- lift (_extract_list resp_l);
  if negb (truthy rows_l) then
    ret {| ss_ws := ws_append ws (no_result_row item_code item_name wc);
           ss_row_num := (row_num + 1)%Z |}
  else
    do items <- lift (py_iter rows_l);
    lift (res_fold (append_result item_code item_name wc)
            {| ss_ws := ws; ss_row_num := row_num |} items).

Definition _excel_one_sheet_item_then_results (heads2 : list pydict) (client : QF3Client)
    : M worksheet :=
  let ws := {| ws_title := "품목_검사결과"; ws_rows := []; ws_styled := [] |} in
  let ws := ws_append ws columns in
  let ws := ws_style_row ws 1 header_style in
  do st <- for_each (append_head client) {| ss_ws := ws; ss_row_num := 2 |} heads2;
  ret (ss_ws st).

(** ** The export button *)

Definition nothing_to_export : exn :=
  RuntimeError "다운로드할 데이터가 없습니다. 조회조건을 확인하세요.".

(** The body of the [try] under the export button. The [except] clause
    turns any exception into an error banner, so that a [Raise] result is
    the banner and an [Ok] result is the offered download. *)
Definition excel_download (client : QF3Client)
    (inspection_date_from inspection_date_to released_from released_to : string)
    (job_name operation_code item_code item_name_q : string) : M worksheet :=
  do job_mp <- build_job_equipment_map client released_from released_to 500 999;
  do heads <- fetch_all_heads client inspection_date_from inspection_date_to
                item_code "" job_name operation_code 0 "OPR" 500 999;
  do heads2 <- lift (attach_equipment_to_heads heads job_mp);
  do heads2 <- lift (_filter_heads_by_item_name heads2 item_name_q);
  match heads2 with
  | [] => raise nothing_to_export
  | _ => _excel_one_sheet_item_then_results heads2 client
  end.

(** ** The login button *)

Definition missing_credentials : exn :=
  RuntimeError "회사코드/아이디/비밀번호를 입력하세요.".

(** The body of the [try] under the login button; [s] is the session the
    new client opens. An [Ok] result is the client kept in the session
    state with [logged_in = True]; a [Raise] result is the error banner,
    with [logged_in = False] and no client. *)
Definition login_button (repr : value -> string) (s : session)
    (company_code user_key password : string) : M QF3Client :=
  if negb (truthy (VStr company_code))
     || negb (truthy (VStr user_key))
     || negb (truthy (VStr password))
  then raise missing_credentials
  else
    let cfg := {| base_url := "https://qf3.qfactory.biz:8000";
                  language_code := "KO";
                  company_id := 100;
                  plant_id := 11 |} in
    let client := {| config := cfg; sess := s |} in
    do _ <- login repr client company_code user_key password;
    ret client.

(** ** The query button *)

(** The body of the [try] under the query button, up to the records it
    keeps in the session state; the table shown is a view of them.
    [fetch_all] is the check box and [limit] the page size selected. *)
Definition query (client : QF3Client) (fetch_all : bool) (limit : Z)
    (inspection_date_from inspection_date_to released_from released_to : string)
    (job_name operation_code item_code item_name_q : string) : M (list pydict) :=
  do job_mp <- build_job_equipment_map client released_from released_to 500 999;
  do heads <-
    (if fetch_all
     then fetch_all_heads client inspection_date_from inspection_date_to
            item_code "" job_name operation_code 0 "OPR" 500 999
     else
       do resp <- head_list client inspection_date_from inspection_date_to
                    item_code "" job_name operation_code 0 "OPR" 1 limit 1;
       do rows <- lift (_extract_list resp);
       lift (py_iter rows));
  do heads2 <- lift (attach_equipment_to_heads heads job_mp);
  lift (_filter_heads_by_item_name heads2 item_name_q).

End app.
Import app.


(* ===================================================================== *)
(** * Vocabulary of the properties                                        *)
(* ===================================================================== *)

(** ** Requests and page loops *)

(** The number of passes the guard [page <= max_pages] still allows. *)
Definition pages_left (max_pages page : Z) : nat := Z.to_nat (max_pages + 1 - page).

(** What the service answers to a single request. *)
Definition reply {A} (m : M A) : result A :=
  match m [] with
  | Some (r, _) => r
  | None => Raise RequestException
  end.

(** The rows a page carries. *)
Definition rows_of (resp : value) : result (list value) :=
  let? rows := _extract_list resp in
  if truthy rows then py_iter rows else Ok [].

(** What a pass of [fetch_all_heads] does with the answer [r]. *)
Definition heads_pass (st : heads_state) (r : result value) : result (ctl heads_state) :=
  let? resp := r in
  let? rows := _extract_list resp in
  if negb (truthy rows) then Ok (Break st)
  else
    let? items := py_iter rows in
    let all_rows := (hs_all_rows st ++ items)%list in
    let? total := _extract_total resp in
    if (Z.of_nat (List.length all_rows) >=? total)%Z
    then Ok (Break {| hs_all_rows := all_rows; hs_page := hs_page st |})
    else Ok (Next {| hs_all_rows := all_rows; hs_page := (hs_page st + 1)%Z |}).

(** What a pass of [build_job_equipment_map] does with the answer [r]. *)
Definition map_pass (st : map_state) (r : result value) : result (ctl map_state) :=
  let? resp := r in
  let? rows := _extract_list resp in
  if negb (truthy rows) then Ok (Break st)
  else
    let? items := py_iter rows in
    let? mp := res_fold index_row (ms_mp st) items in
    let? total := _extract_total resp in
    if (Z.of_nat (size mp) >=? total)%Z
    then Ok (Break {| ms_mp := mp; ms_page := ms_page st |})
    else Ok (Next {| ms_mp := mp; ms_page := (ms_page st + 1)%Z |}).

(** What a pass of [list_items_all] does with the answer [r]. *)
Definition items_pass (limit : Z) (st : qfactory_client.items_state) (r : result value)
    : result (ctl qfactory_client.items_state) :=
  let? resp := r in
  let? total := match qfactory_client.is_total st with
                | None => qfactory_client.extract_total resp
                | Some t => Ok (Some t)
                end in
  let rows := qfactory_client.extract_rows resp in
  let all_rows := (qfactory_client.is_all_rows st ++ rows)%list in
  let st' := {| qfactory_client.is_all_rows := all_rows;
                qfactory_client.is_page := qfactory_client.is_page st;
                qfactory_client.is_total := total |} in
  if match total with
     | Some t => (Z.of_nat (List.length all_rows) >=? t)%Z
     | None => false
     end
  then Ok (Break st')
  else if (Z.of_nat (List.length rows) <? limit)%Z
  then Ok (Break st')
  else Ok (Next {| qfactory_client.is_all_rows := all_rows;
                   qfactory_client.is_page := (qfactory_client.is_page st + 1)%Z;
                   qfactory_client.is_total := total |}).

Section HeadPages.

Variable self : QF3Client.
Variables df dt ic inm jn oc : string.
Variable pid : Z.
Variable cc : string.
Variable limit : Z.

(** The answer of the service for page [p] of the head list. *)
Definition head_page (p : Z) : result value :=
  reply (head_list self df dt ic inm jn oc pid cc p limit 1).

(** [pages] are the row lists of pages 1, 2, ... of the head list: each
    page is answered with a non-empty list, and on every page but the last
    of them the rows accumulated so far stay below the total it reports. *)
Definition heads_pages_below_total (pages : list (list value)) : Prop :=
  forall i rows,
    pages !! i = Some rows ->
    exists resp total,
      head_page (Z.of_nat i + 1) = Ok resp /\
      _extract_list resp = Ok (VList rows) /\
      rows <> [] /\
      _extract_total resp = Ok total /\
      (i + 1 < List.length pages ->
       (Z.of_nat (List.length (List.concat (take (i + 1) pages))) < total)%Z).

(** The page after [pages] is answered with an empty list. *)
Definition heads_page_empty (p : Z) : Prop :=
  exists resp lst,
    head_page p = Ok resp /\ _extract_list resp = Ok lst /\ truthy lst = false.

End HeadPages.

Section ItemPages.

Variable self : qfactory_client.QFactoryClient.
Variable f : qfactory_client.item_filters.
Variable limit : Z.

(** The answer of the service for page [p] of the item list. *)
Definition items_page (p : Z) : result value :=
  reply (qfactory_client.list_items_page self f p limit).

(** The total the loop knows after reading [resps]: the first one that
    any of them reports. *)
Fixpoint first_total (resps : list value) : option Z :=
  match resps with
  | [] => None
  | r :: rs =>
      match qfactory_client.extract_total r with
      | Ok (Some t) => Some t
      | _ => first_total rs
      end
  end.

(** The rows of the answers [resps], in page order. *)
Definition rows_upto (resps : list value) : list value :=
  List.concat (map qfactory_client.extract_rows resps).

(** [resps] are the answers for pages 1, 2, ... of the item list, and
    every one of them but the last is a full page that leaves the rows
    accumulated so far below the total known by then. *)
Definition items_pages_full_below_total (resps : list value) : Prop :=
  forall i resp,
    resps !! i = Some resp ->
    items_page (Z.of_nat i + 1) = Ok resp /\
    (i + 1 < List.length resps ->
     (limit <= Z.of_nat (List.length (qfactory_client.extract_rows resp)))%Z /\
     match first_total (take (i + 1) resps) with
     | Some total =>
         (Z.of_nat (List.length (rows_upto (take (i + 1) resps))) < total)%Z
     | None => True
     end).

(** The page after them is answered without rows. *)
Definition items_page_empty (p : Z) : Prop :=
  exists resp, items_page p = Ok resp /\ qfactory_client.extract_rows resp = [].

End ItemPages.

(** C1 as it is stated, for [fetch_all_heads]: whenever pages 1..n carry
    rows and page n+1 is empty, the fetch returns the rows of pages 1..n. *)
Definition fetch_all_heads_returns_every_page : Prop :=
  forall self df dt ic inm jn oc pid cc limit max_pages (pages : list (list value)),
    (forall i rows,
       pages !! i = Some rows ->
       exists resp,
         head_page self df dt ic inm jn oc pid cc limit (Z.of_nat i + 1) = Ok resp /\
         _extract_list resp = Ok (VList rows) /\ rows <> []) ->
    heads_page_empty self df dt ic inm jn oc pid cc limit
      (Z.of_nat (List.length pages) + 1) ->
    exists t',
      fetch_all_heads self df dt ic inm jn oc pid cc limit max_pages [] 
      = Some (Ok (List.concat pages), t').

(** ** The job index *)

(** The join key under which a row is indexed, if it is indexed at all. *)
Definition row_key (r : value) : option key :=
  match r with
  | VDict d =>
      let jn := dict_get d "jobName" VNone in
      if truthy jn
      then match hash_key jn with Ok k => Some k | Raise _ => None end
      else None
  | _ => None
  end.

(** The metadata the index keeps of a row. *)
Definition equipment_of (d : pydict) : pydict :=
  [ ("workcenterName", dict_get d "workcenterName" VNone);
    ("machineName", dict_get d "machineName" VNone);
    ("resourceName", dict_get d "resourceName" VNone) ].

(** A row the index builder accepts: a JSON object whose job name, if
    any, is hashable. *)
Definition indexable (r : value) : Prop :=
  exists d, r = VDict d /\
    (truthy (dict_get d "jobName" VNone) = true ->
     exists k, hash_key (dict_get d "jobName" VNone) = Ok k).

(** ** Enrichment *)

Definition metadata_fields : list string :=
  ["workcenterName"; "machineName"; "resourceName"].

(** The index entry a record's job name selects: none when the name is
    absent or empty, or not in the index. *)
Definition equipment_for (job_mp : job_map) (d : pydict) : option pydict :=
  let jn := dict_get d "jobName" VNone in
  if truthy jn
  then match hash_key jn with Ok k => job_mp !! k | Raise _ => None end
  else None.

(** [o] is the record [h] with its four equipment fields set: the three
    metadata fields hold what the index entry holds under the same names,
    and null when there is no entry, in which case the display string is
    empty; every other field is as in [h]. *)
Definition enriched (job_mp : job_map) (h : value) (o : pydict) : Prop :=
  exists d,
    h = VDict d /\
    (forall k, ~ In k ("equipmentDisplay" :: metadata_fields) ->
               dict_lookup o k = dict_lookup d k) /\
    (exists display, dict_lookup o "equipmentDisplay" = Some (VStr display)) /\
    match equipment_for job_mp d with
    | Some eq =>
        forall k, In k metadata_fields ->
                  dict_lookup o k = Some (dict_get eq k VNone)
    | None =>
        (forall k, In k metadata_fields -> dict_lookup o k = Some VNone) /\
        dict_lookup o "equipmentDisplay" = Some (VStr "")
    end.

(** A value [" / ".join] accepts after the [or ""] and the filter. *)
Definition blank_or_text (v : value) : Prop :=
  truthy v = false \/ exists s, v = VStr s.

(** A head the enricher accepts: a JSON object with a hashable job name
    whose index entry, if any, holds names that are text or blank. *)
Definition enrichable (job_mp : job_map) (h : value) : Prop :=
  exists d,
    h = VDict d /\
    (truthy (dict_get d "jobName" VNone) = true ->
     exists k, hash_key (dict_get d "jobName" VNone) = Ok k) /\
    (forall eq, equipment_for job_mp d = Some eq ->
       forall k, In k metadata_fields -> blank_or_text (dict_get eq k VNone)).

(** The record [attach_equipment] builds from [d], the index entry [eq]
    and the display string. *)
Definition with_equipment (d eq : pydict) (display : string) : pydict :=
  dict_set
    (dict_set
       (dict_set
          (dict_set d "workcenterName" (dict_get eq "workcenterName" VNone))
          "machineName" (dict_get eq "machineName" VNone))
       "resourceName" (dict_get eq "resourceName" VNone))
    "equipmentDisplay" (VStr display).

(** The names that go into the display string. *)
Definition display_parts (eq : pydict) : list value :=
  List.filter truthy
    [ py_or (dict_get eq "workcenterName" VNone) (VStr "");
      py_or (dict_get eq "machineName" VNone) (VStr "");
      py_or (dict_get eq "resourceName" VNone) (VStr "") ].

(** C3 as it is stated: the metadata fields of a record whose job name
    has no index entry are present and not null. *)
Definition unmatched_metadata_is_never_null : Prop :=
  forall heads (job_mp : job_map) out,
    attach_equipment_to_heads heads job_mp = Ok out ->
    Forall2
      (fun h o =>
         forall d, h = VDict d -> equipment_for job_mp d = None ->
         forall k, In k metadata_fields ->
         exists v, dict_lookup o k = Some v /\ v <> VNone)
      heads out.

(** ** The AND-token filter *)

(** [f] applied to the last item of a list. *)
Fixpoint map_last {A} (f : A -> A) (l : list A) : list A :=
  match l with
  | [] => []
  | [x] => [f x]
  | x :: l' => x :: map_last f l'
  end.


(** The text the filter searches: the item name, and the empty string for
    a missing, null or blank one. *)
Definition item_name_text (h : pydict) : string :=
  match dict_get h "itemName" VNone with
  | VStr s => s
  | _ => EmptyString
  end.

(** A record passes when every token occurs in its item name, letter
    case aside. *)
Definition passes (tokens : list string) (h : pydict) : bool :=
  forallb (fun t => contains (lower t) (lower (item_name_text h))) tokens.

(** A record whose item name the filter can read. *)
Definition item_name_readable (h : pydict) : Prop :=
  blank_or_text (dict_get h "itemName" VNone).

Definition nonempty (p : string) : bool := negb (String.eqb p EmptyString).

(** ** The export *)

(** The inspection results of a head, as the export fetches them: one
    page of at most 500 lines for its inspection id. *)
Definition details_of (client : QF3Client) (h : pydict) : result (list value) :=
  let? v := dict_getitem h "mfgInspectionId" in
  let? mid := py_int v in
  let? resp := reply (line_list client mid 1 500 "root") in
  let? rows_l := _extract_list resp in
  if truthy rows_l then py_iter rows_l else Ok [].

(** The rows of the group of a head: its item row, then one row per
    inspection result, or the placeholder row when there is none. *)
Definition group_rows (client : QF3Client) (h : pydict) : result (list (list value)) :=
  let? wc := _workcenter_from_head h in
  let item_code := dict_get h "itemCode" VNone in
  let item_name := dict_get h "itemName" VNone in
  let? items := details_of client h in
  match items with
  | [] => Ok [item_row item_code item_name wc; no_result_row item_code item_name wc]
  | _ =>
      let? rows := res_map (result_row item_code item_name wc) items in
      Ok (item_row item_code item_name wc :: rows)
  end.

(** The number of inspection results of a head. *)
Definition detail_count (client : QF3Client) (h : pydict) : nat :=
  match details_of client h with
  | Ok items => List.length items
  | Raise _ => 0
  end.

(** The sheet state after the rows [g] of one more group. *)
Definition with_group (st : sheet_state) (g : list (list value)) : sheet_state :=
  {| ss_ws :=
       {| ws_title := ws_title (ss_ws st);
          ws_rows := (ws_rows (ss_ws st) ++ g)%list;
          ws_styled := (ws_styled (ss_ws st) ++ [(ss_row_num st, item_style)])%list |};
     ss_row_num := (ss_row_num st + Z.of_nat (List.length g))%Z |}.

(** The sheet rows, numbered from [row_num], at which the groups [gs]
    start. *)
Fixpoint group_offsets (row_num : Z) (gs : list (list (list value)))
    : list (Z * cell_style) :=
  match gs with
  | [] => []
  | g :: gs' =>
      (row_num, item_style)
      :: group_offsets (row_num + Z.of_nat (List.length g))%Z gs'
  end.

(** The shape of one group: the item row of the head, then the rows of
    its inspection results, or the placeholder row. *)
Definition is_group (client : QF3Client) (h : pydict) (g : list (list value)) : Prop :=
  exists wc items body,
    _workcenter_from_head h = Ok wc /\
    details_of client h = Ok items /\
    g = item_row (dict_get h "itemCode" VNone) (dict_get h "itemName" VNone) wc
        :: body /\
    match items with
    | [] => body = [no_result_row (dict_get h "itemCode" VNone)
                      (dict_get h "itemName" VNone) wc]
    | _ => res_map (result_row (dict_get h "itemCode" VNone)
                      (dict_get h "itemName" VNone) wc) items = Ok body
    end.

(** Row [n] of the sheet (numbered from 1) is an item row. *)
Definition item_row_at (rows : list (list value)) (n : Z) : Prop :=
  exists row, rows !! Z.to_nat (n - 1) = Some row /\ head row = Some (VStr "품목").

(** The exceptions raised by the interpreter and the HTTP layer, as
    opposed to the [RuntimeError] the page raises itself. *)
Definition raised_below (e : exn) : Prop :=
  match e with
  | RuntimeError _ => False
  | _ => True
  end.

(* ===================================================================== *)
(** * Example services and records                                       *)
(* ===================================================================== *)

(** The usual envelope of a list answer. *)
Definition envelope (rows : list value) : value :=
  VDict [("success", VBool true); ("data", VDict [("list", VList rows)])].

(** The page number a payload asks for. *)
Definition page_of (payload : value) : Z :=
  match payload with
  | VDict d => match dict_get d "page" VNone with VInt p => p | _ => 0%Z end
  | _ => 0%Z
  end.

(** A service that answers page [p] with the [p]-th of [pages], and with
    an empty list beyond them. *)
Definition serve_pages (pages : list value) : session :=
  fun _ payload =>
    Some (nth (Z.to_nat (page_of payload - 1)) pages (envelope [])).

Definition qf3_client (s : session) : QF3Client :=
  {| config := default_config; sess := s |}.

Definition qfactory (s : session) : qfactory_client.QFactoryClient :=
  {| qfactory_client.base_url := "https://qf3.qfactory.biz:8000";
     qfactory_client.sess := s |}.

Definition any_items : qfactory_client.item_filters :=
  {| qfactory_client.language_code := "KO";
     qfactory_client.company_id := 100;
     qfactory_client.status := "";
     qfactory_client.item_plant := 11;
     qfactory_client.item_code := "";
     qfactory_client.item_name := "";
     qfactory_client.item_type := "";
     qfactory_client.product_group := "";
     qfactory_client.buy_make := "";
     qfactory_client.control_lot := "" |}.

(** A head row: inspection id, job, item name, and the total the service
    repeats on every row. *)
Definition head_row (id : Z) (job item : string) (cnt : Z) : value :=
  VDict [("mfgInspectionId", VInt id); ("jobName", VStr job);
         ("itemName", VStr item); ("cnt", VInt cnt)].

Definition three_heads : list value :=
  [head_row 1 "J1" "Widget-A" 3; head_row 2 "J2" "Widget-B" 3;
   head_row 3 "J3" "Widget-C" 3].

Definition three_items : value :=
  VDict [("total", VInt 3);
         ("rows", VList [VDict [("itemCode", VStr "A")];
                         VDict [("itemCode", VStr "B")];
                         VDict [("itemCode", VStr "C")]])].

(** A service with two pages of rows that carry no [cnt]. *)
Definition row_a : value := VDict [("mfgInspectionId", VInt 1); ("jobName", VStr "J1")].
Definition row_b : value := VDict [("mfgInspectionId", VInt 2); ("jobName", VStr "J2")].
Definition row_c : value := VDict [("mfgInspectionId", VInt 3); ("jobName", VStr "J3")].

Definition two_pages_without_cnt : session :=
  serve_pages [envelope [row_a; row_b]; envelope [row_c]].

Definition job_row (job wc mc : string) : value :=
  VDict [("jobName", VStr job); ("workcenterName", VStr wc);
         ("machineName", VStr mc); ("cnt", VInt 2)].

Definition nameless_row : value :=
  VDict [("workcenterName", VStr "WC9"); ("cnt", VInt 2)].

Definition duplicate_job_rows : list value :=
  [job_row "J1" "WC1" "M1"; job_row "J1" "WC2" "M2"; nameless_row].

(** Two job orders under one job name, a total of 2, and nothing on the
    second page. *)
Definition one_job_twice : session :=
  serve_pages [envelope [job_row "J1" "WC1" "M1"; job_row "J1" "WC2" "M2"]].

(** Three heads on two pages, every row carrying the true total 3. *)
Definition heads_on_two_pages : session :=
  serve_pages [ envelope [head_row 1 "J1" "Widget-A" 3; head_row 2 "J2" "Widget-B" 3];
                envelope [head_row 3 "J3" "Widget-C" 3] ].

Definition items_page_1 : value :=
  VDict [("total", VInt 3);
         ("rows", VList [VDict [("itemCode", VStr "A")]; VDict [("itemCode", VStr "B")]])].

Definition items_page_2 : value :=
  VDict [("total", VInt 3); ("rows", VList [VDict [("itemCode", VStr "C")]])].

(** Three items on two pages of at most two, and empty pages after. *)
Definition items_on_two_pages : session :=
  fun _ payload =>
    Some (nth (Z.to_nat (page_of payload - 1)) [items_page_1; items_page_2]
              (VDict [("total", VInt 3); ("rows", VList [])])).

(** A service that reports a total of 2 on every row and yet has a third
    row on page 2. *)
Definition total_two_rows_three : session :=
  serve_pages [ envelope [head_row 1 "J1" "Widget-A" 2; head_row 2 "J2" "Widget-B" 2];
                envelope [head_row 3 "J3" "Widget-C" 2] ].

(** The index and the heads of the end-to-end scenario. *)
Definition wc1_index : job_map :=
  <[KStr "J1" := [("workcenterName", VStr "WC1")]]> ∅.

Definition widget_heads : list value :=
  [ VDict [("jobName", VStr "J1"); ("itemName", VStr "Widget-A");
           ("mfgInspectionId", VInt 1)];
    VDict [("jobName", VStr "J2"); ("itemName", VStr "Widget-B");
           ("mfgInspectionId", VInt 2)] ].

Definition head_ar_nnb : pydict :=
  [("itemName", VStr "AR-100-NNB"); ("mfgInspectionId", VInt 1)].

Definition head_ar : pydict :=
  [("itemName", VStr "AR-100"); ("mfgInspectionId", VInt 2)].

Definition head_unnamed : pydict := [("mfgInspectionId", VInt 3)].

(** Inspection 1 has two result lines, every other inspection none. *)
Definition two_lines : list value :=
  [ VDict [("level3ClassName", VStr "Length"); ("checkValue", VStr "10.1");
           ("unit", VStr "mm"); ("passDecision", VStr "OK")];
    VDict [("level3ClassName", VStr "Width"); ("checkValue", VStr "5.0");
           ("unit", VStr "mm"); ("passDecision", VStr "OK")] ].

Definition lines_of_inspection_1 : session :=
  fun _ payload =>
    match payload with
    | VDict d =>
        match dict_get d "mfgInspectionId" VNone with
        | VInt 1 => Some (envelope two_lines)
        | _ => Some (envelope [])
        end
    | _ => None
    end.

(** The end-to-end scenario: one job order J1 at work centre WC1, two
    heads J1 and J2 named Widget-A and Widget-B, no inspection results. *)
Definition scenario_service : session :=
  fun url payload =>
    if String.eqb url
         "https://qf3.qfactory.biz:8000/mfg/job_order_sum_view/joborder-list"
    then Some (nth (Z.to_nat (page_of payload - 1))
                 [envelope [VDict [("jobName", VStr "J1");
                                   ("workcenterName", VStr "WC1");
                                   ("cnt", VInt 1)]]]
                 (envelope []))
    else if String.eqb url
              "https://qf3.qfactory.biz:8000/qcm/operation_inspection-view/head-list"
    then Some (nth (Z.to_nat (page_of payload - 1))
                 [envelope [head_row 1 "J1" "Widget-A" 2;
                            head_row 2 "J2" "Widget-B" 2]]
                 (envelope []))
    else Some (envelope []).


(* ===================================================================== *)
(** * Vocabulary of the further properties                                *)
(* ===================================================================== *)

(** ** What a run asked for *)

(** The page numbers of the requests [reqs], oldest first. *)
Definition pages_asked (reqs : trace) : list Z :=
  map (fun rq => page_of (snd rq)) reqs.

(** The pages [p], [p + 1], ... : [n] of them. *)
Fixpoint pages_from (p : Z) (n : nat) : list Z :=
  match n with
  | O => []
  | Datatypes.S n' => p :: pages_from (p + 1)%Z n'
  end.

(** The [start] field of a payload. *)
Definition start_of (payload : value) : Z :=
  match payload with
  | VDict d => match dict_get d "start" VNone with VInt p => p | _ => 0%Z end
  | _ => 0%Z
  end.

(** The answer of the service for page [p] of the job orders, as
    [build_job_equipment_map] asks for it. *)
Definition job_page (self : QF3Client) (released_date_from released_date_to : string)
    (limit p : Z) : result value :=
  reply (joborder_list self released_date_from released_date_to
           "" "" "" "" "Y" p limit 1).

(** The [start] fields of the requests [reqs], oldest first. *)
Definition starts_asked (reqs : trace) : list Z :=
  map (fun rq => start_of (snd rq)) reqs.

(** ** What the index holds *)

(** The key of a truthy job name: not [None], not zero, not empty. *)
Definition truthy_key (k : key) : bool :=
  match k with
  | KNone => false
  | KInt z => negb (z =? 0)%Z
  | KStr s => negb (String.eqb s "")
  end.

(** An index entry as [build_job_equipment_map] writes it: the three
    equipment names, in this order, and nothing else. *)
Definition equipment_entry (e : pydict) : Prop :=
  map fst e = metadata_fields.

(** Every entry of the index sits under a truthy key and has the three
    equipment names. *)
Definition well_formed_index (mp : job_map) : Prop :=
  forall k e, mp !! k = Some e -> truthy_key k = true /\ equipment_entry e.

(** ** Queries *)


(** The character [c] occurs in [s]. *)
Fixpoint has_char (c : ascii) (s : string) : bool :=
  match s with
  | EmptyString => false
  | String c' s' => Ascii.eqb c' c || has_char c s'
  end.

(** A token as [_parse_and_tokens] returns it: not empty, without white
    space at either end, and without a [%] sign. *)
Definition token (t : string) : Prop :=
  t <> EmptyString /\ strip t = t /\ contains "%" t = false.

(** ** What the export asks for *)

(** [int(h["mfgInspectionId"])] *)
Definition inspection_id (h : pydict) : result Z :=
  let? v := dict_getitem h "mfgInspectionId" in py_int v.

(** The requests a computation issues when it starts with none. *)
Definition requests_of {A} (m : M A) : trace :=
  match m [] with
  | Some (_, t) => t
  | None => []
  end.

(** The requests of one pass over a head: the request for its inspection
    results, when its work centre and inspection id can be read. *)
Definition head_requests (client : QF3Client) (h : pydict) : trace :=
  match _workcenter_from_head h, inspection_id h with
  | Ok _, Ok mid => requests_of (line_list client mid 1 500 "root")
  | _, _ => []
  end.

(** The requests of the passes over [heads], up to the first head whose
    group cannot be built. *)
Fixpoint sheet_requests (client : QF3Client) (heads : list pydict) : trace :=
  match heads with
  | [] => []
  | h :: heads' =>
      (head_requests client h
       ++ match group_rows client h with
          | Ok _ => sheet_requests client heads'
          | Raise _ => []
          end)%list
  end.

(** ** Logging in *)

(** The field [k] of a payload. *)
Definition field_of (payload : value) (k : string) : value :=
  match payload with
  | VDict d => dict_get d k VNone
  | _ => VNone
  end.

(** An answer that marks the login as successful. *)
Definition marked_successful (data : value) : Prop :=
  exists d, data = VDict d /\ truthy (dict_get d "success" VNone) = true.

(** A login request for the given credentials. *)
Definition login_request (base : string) (company_code user_key password : string)
    (rq : string * value) : Prop :=
  fst rq = base ++ "/common/login/post-login" /\
  field_of (snd rq) "companyCode" = VStr company_code /\
  field_of (snd rq) "userKey" = VStr user_key /\
  field_of (snd rq) "password" = VStr password.

(** A service that answers every request with the same single row and
    never reports a total. *)
Definition one_row_no_total : session :=
  fun _ _ => Some (VDict [("rows", VList [VDict [("itemCode", VStr "A")]])]).

(** ** White space *)

(** [s] starts with a white-space character. *)
Definition starts_space (s : string) : bool :=
  match s with
  | EmptyString => false
  | String c1 s1 =>
      is_space c1
      || match s1 with
         | EmptyString => false
         | String c2 s2 =>
             is_space2 c1 c2
             || match s2 with
                | EmptyString => false
                | String c3 _ => is_space3 c1 c2 c3
                end
         end
  end.

(** A byte that is the first of no white-space character. *)
Definition starts_no_space (c : ascii) : Prop :=
  is_space c = false /\
  nat_of_ascii c <> 194 /\
  ~ (225 <= nat_of_ascii c <= 227).

(** ** White space and letter case, as a reader of the page sees them *)

(** The white-space characters of Python, those [str.isspace] accepts:
    tab to carriage return, the four separators U+001C to U+001F, space,
    next line, no-break space, ogham space mark, the spaces U+2000 to
    U+200A, line and paragraph separator, narrow no-break space, medium
    mathematical space, ideographic space. *)
Definition white_space_points : list N :=
  [9; 10; 11; 12; 13; 28; 29; 30; 31; 32; 133; 160; 5760;
   8192; 8193; 8194; 8195; 8196; 8197; 8198; 8199; 8200; 8201; 8202;
   8232; 8233; 8239; 8287; 12288]%N.

(** [w] is one of them, in UTF-8. *)
Definition white_space_char (w : string) : Prop :=
  exists p, In p white_space_points /\ w = encode_point p.

(** A string of white-space characters only. *)
Inductive blank : string -> Prop :=
| blank_nil : blank EmptyString
| blank_cons w s : white_space_char w -> blank s -> blank (w ++ s).

(** [s] neither starts nor ends with a white-space character. *)
Definition trimmed (s : string) : Prop :=
  forall w, white_space_char w -> forall x, s <> w ++ x /\ s <> x ++ w.





(* ===================================================================== *)
(** * Properties                                                          *)
(* ===================================================================== *)

(** ** Running computations *)

Lemma bind_ok {A B} (m : M A) (k : A -> M B) t a t' :
  m t = Some (Ok a, t') -> bind m k t = k a t'.
Proof. intros H. unfold bind. now rewrite H. Qed.

Lemma bind_raise {A B} (m : M A) (k : A -> M B) t e t' :
  m t = Some (Raise e, t') -> bind m k t = Some (Raise e, t').
Proof. intros H. unfold bind. now rewrite H. Qed.

Lemma bind_lift_ok {A B} (r : result A) (k : A -> M B) t a :
  r = Ok a -> bind (lift r) k t = k a t.
Proof. intros ->. reflexivity. Qed.

Lemma post_run (s : session) url payload t :
  exists r, post s url payload t = Some (r, (t ++ [(url, payload)])%list).
Proof. unfold post. eauto. Qed.

(** ** [while] loops *)

Section WhileFacts.

Context {S : Type} (cond : S -> bool) (body : S -> M (ctl S)).

Lemma while_stop fuel s t :
  cond s = false -> while fuel cond body s t = Some (Ok s, t).
Proof. intros H. destruct fuel; simpl; now rewrite H. Qed.

Lemma while_step fuel s t :
  cond s = true ->
  while (Datatypes.S fuel) cond body s t =
  bind (body s)
       (fun c => match c with
                 | Break s' => ret s'
                 | Next s' => while fuel cond body s'
                 end) t.
Proof. intros H. simpl. now rewrite H. Qed.

Lemma while_break fuel s s' t t' :
  cond s = true ->
  body s t = Some (Ok (Break s'), t') ->
  while (Datatypes.S fuel) cond body s t = Some (Ok s', t').
Proof. intros Hc Hb. rewrite while_step by assumption. now rewrite (bind_ok _ _ _ _ _ Hb). Qed.

Lemma while_next fuel s s' t t' :
  cond s = true ->
  body s t = Some (Ok (Next s'), t') ->
  while (Datatypes.S fuel) cond body s t = while fuel cond body s' t'.
Proof. intros Hc Hb. rewrite while_step by assumption. now rewrite (bind_ok _ _ _ _ _ Hb). Qed.

(** A loop whose body issues one request per pass, and whose state has a
    measure that is positive while the guard holds and decreases on every
    pass that continues, returns, after at most that many requests. *)
Variable measure : S -> nat.

Hypothesis measure_pos : forall s, cond s = true -> 0 < measure s.

Hypothesis measure_decreases :
  forall s t s' t',
    cond s = true -> body s t = Some (Ok (Next s'), t') -> measure s' < measure s.

Hypothesis body_one_request :
  forall s t, exists r rq, body s t = Some (r, (t ++ [rq])%list).

Lemma while_bounded fuel :
  forall s t,
    measure s <= fuel ->
    exists r reqs,
      while fuel cond body s t = Some (r, (t ++ reqs)%list) /\
      List.length reqs <= measure s.
Proof.
  induction fuel as [|fuel IH]; intros s t Hfuel.
  - destruct (cond s) eqn:Hc.
    + apply measure_pos in Hc. lia.
    + exists (Ok s), []. rewrite while_stop by assumption.
      rewrite app_nil_r. split; [reflexivity | simpl; lia].
  - destruct (cond s) eqn:Hc.
    + rewrite while_step by assumption.
      destruct (body_one_request s t) as (r & rq & Hb).
      destruct r as [[s'|s']|e].
      * pose proof (measure_decreases _ _ _ _ Hc Hb) as Hlt.
        destruct (IH s' (t ++ [rq])%list) as (r' & reqs & Hw & Hlen); [lia|].
        exists r', (rq :: reqs).
        rewrite (bind_ok _ _ _ _ _ Hb), Hw.
        rewrite <- app_assoc. simpl. split; [reflexivity | lia].
      * exists (Ok s'), [rq]. rewrite (bind_ok _ _ _ _ _ Hb).
        apply measure_pos in Hc. split; [reflexivity | simpl; lia].
      * exists (Raise e), [rq]. rewrite (bind_raise _ _ _ _ _ Hb).
        apply measure_pos in Hc. split; [reflexivity | simpl; lia].
    + exists (Ok s), []. rewrite while_stop by assumption.
      rewrite app_nil_r. split; [reflexivity | simpl; lia].
Qed.

End WhileFacts.

(** ** The page loops issue one request per pass *)

Ltac one_request :=
  unfold bind, post, lift, ret;
  repeat case_match; simplify_eq; eauto.

Lemma fetch_all_heads_body_one_request self df dt ic inm jn oc pid cc limit st t :
  exists r rq,
    fetch_all_heads_body self df dt ic inm jn oc pid cc limit st t
    = Some (r, (t ++ [rq])%list).
Proof. unfold fetch_all_heads_body, head_list. one_request. Qed.

Lemma build_job_equipment_map_body_one_request self df dt limit st t :
  exists r rq,
    build_job_equipment_map_body self df dt limit st t
    = Some (r, (t ++ [rq])%list).
Proof. unfold build_job_equipment_map_body, joborder_list. one_request. Qed.

Lemma list_items_all_body_one_request self f limit st t :
  exists r rq,
    qfactory_client.list_items_all_body self f limit st t
    = Some (r, (t ++ [rq])%list).
Proof.
  unfold qfactory_client.list_items_all_body, qfactory_client.list_items_page,
    qfactory_client.post_json.
  one_request.
Qed.

Lemma fetch_all_heads_body_next self df dt ic inm jn oc pid cc limit st t st' t' :
  fetch_all_heads_body self df dt ic inm jn oc pid cc limit st t
  = Some (Ok (Next st'), t') ->
  hs_page st' = (hs_page st + 1)%Z.
Proof.
  unfold fetch_all_heads_body, head_list, bind, post, lift, ret.
  intros H. repeat case_match; simplify_eq; reflexivity.
Qed.

Lemma build_job_equipment_map_body_next self df dt limit st t st' t' :
  build_job_equipment_map_body self df dt limit st t = Some (Ok (Next st'), t') ->
  ms_page st' = (ms_page st + 1)%Z.
Proof.
  unfold build_job_equipment_map_body, joborder_list, bind, post, lift, ret.
  intros H. repeat case_match; simplify_eq; reflexivity.
Qed.

Lemma list_items_all_body_next self f limit st t st' t' :
  qfactory_client.list_items_all_body self f limit st t = Some (Ok (Next st'), t') ->
  qfactory_client.is_page st' = (qfactory_client.is_page st + 1)%Z.
Proof.
  unfold qfactory_client.list_items_all_body, qfactory_client.list_items_page,
    qfactory_client.post_json, bind, post, lift, ret.
  intros H. repeat case_match; simplify_eq; reflexivity.
Qed.

(** Every page loop has the shape [page = 1; while page <= max_pages: ...;
    page += 1]. *)
Lemma page_loop_bounded {S} (page : S -> Z) (max_pages : Z) (body : S -> M (ctl S)) :
  (forall s t s' t', body s t = Some (Ok (Next s'), t') -> page s' = (page s + 1)%Z) ->
  (forall s t, exists r rq, body s t = Some (r, (t ++ [rq])%list)) ->
  forall s t,
    page s = 1%Z ->
    exists r reqs,
      while (Z.to_nat max_pages) (fun st => (page st <=? max_pages)%Z) body s t
      = Some (r, (t ++ reqs)%list) /\
      List.length reqs <= Z.to_nat max_pages.
Proof.
  intros Hnext Hone s t Hpage.
  destruct (while_bounded
              (fun st => (page st <=? max_pages)%Z) body
              (fun st => pages_left max_pages (page st)))
    with (fuel := Z.to_nat max_pages) (s := s) (t := t)
    as (r & reqs & Hw & Hlen).
  - intros s0 Hc. apply Z.leb_le in Hc. unfold pages_left. lia.
  - intros s0 t0 s' t' Hc Hb. apply Z.leb_le in Hc.
    apply Hnext in Hb. unfold pages_left. lia.
  - exact Hone.
  - unfold pages_left. rewrite Hpage. lia.
  - exists r, reqs. split; [exact Hw|].
    unfold pages_left in Hlen. rewrite Hpage in Hlen. lia.
Qed.

(** C8. Whatever the service answers (full pages for ever, an
    inconsistent or absent total, failures), each of the three page loops
    returns, and has issued at most [max_pages] requests by then: the
    guard [page <= max_pages] fails after that many passes. *)
Theorem page_loops_terminate_within_max_pages :
  (forall self df dt ic inm jn oc pid cc limit max_pages t,
     exists r reqs,
       fetch_all_heads self df dt ic inm jn oc pid cc limit max_pages t
       = Some (r, (t ++ reqs)%list) /\
       List.length reqs <= Z.to_nat max_pages) /\
  (forall self df dt limit max_pages t,
     exists r reqs,
       build_job_equipment_map self df dt limit max_pages t
       = Some (r, (t ++ reqs)%list) /\
       List.length reqs <= Z.to_nat max_pages) /\
  (forall self f limit max_pages t,
     exists r reqs,
       qfactory_client.list_items_all self f limit max_pages t
       = Some (r, (t ++ reqs)%list) /\
       List.length reqs <= Z.to_nat max_pages).
Proof.
  split; [|split]; intros.
  - unfold fetch_all_heads.
    destruct (page_loop_bounded hs_page max_pages
                (fetch_all_heads_body self df dt ic inm jn oc pid cc limit))
      with (s := {| hs_all_rows := []; hs_page := 1 |}) (t := t)
      as (r & reqs & Hw & Hlen);
      [ intros; eapply fetch_all_heads_body_next; eassumption
      | intros; apply fetch_all_heads_body_one_request
      | reflexivity | ].
    unfold bind. rewrite Hw. destruct r; eauto.
  - unfold build_job_equipment_map.
    destruct (page_loop_bounded ms_page max_pages
                (build_job_equipment_map_body self df dt limit))
      with (s := {| ms_mp := ∅; ms_page := 1 |}) (t := t)
      as (r & reqs & Hw & Hlen);
      [ intros; eapply build_job_equipment_map_body_next; eassumption
      | intros; apply build_job_equipment_map_body_one_request
      | reflexivity | ].
    unfold bind. rewrite Hw. destruct r; eauto.
  - unfold qfactory_client.list_items_all.
    destruct (page_loop_bounded qfactory_client.is_page max_pages
                (qfactory_client.list_items_all_body self f limit))
      with (s := {| qfactory_client.is_all_rows := [];
                    qfactory_client.is_page := 1;
                    qfactory_client.is_total := None |}) (t := t)
      as (r & reqs & Hw & Hlen);
      [ intros; eapply list_items_all_body_next; eassumption
      | intros; apply list_items_all_body_one_request
      | reflexivity | ].
    unfold bind. rewrite Hw. destruct r; eauto.
Qed.

(** ** The first page *)

Lemma head_list_run self df dt ic inm jn oc pid cc page limit start :
  exists rq, forall t,
    head_list self df dt ic inm jn oc pid cc page limit start t
    = Some (reply (head_list self df dt ic inm jn oc pid cc page limit start),
            (t ++ [rq])%list).
Proof. unfold head_list, reply, post. eexists. intros t. reflexivity. Qed.

Lemma joborder_list_run self df dt ic inm jn wc wr page limit start :
  exists rq, forall t,
    joborder_list self df dt ic inm jn wc wr page limit start t
    = Some (reply (joborder_list self df dt ic inm jn wc wr page limit start),
            (t ++ [rq])%list).
Proof. unfold joborder_list, reply, post. eexists. intros t. reflexivity. Qed.

Lemma line_list_run self mid page limit node :
  exists rq, forall t,
    line_list self mid page limit node t
    = Some (reply (line_list self mid page limit node), (t ++ [rq])%list).
Proof. unfold line_list, reply, post. eexists. intros t. reflexivity. Qed.

Lemma list_items_page_run self f page limit :
  exists rq, forall t,
    qfactory_client.list_items_page self f page limit t
    = Some (reply (qfactory_client.list_items_page self f page limit),
            (t ++ [rq])%list).
Proof.
  unfold qfactory_client.list_items_page, qfactory_client.post_json, reply, post.
  eexists. intros t. reflexivity.
Qed.

Lemma to_nat_max_pages (max_pages : Z) :
  (1 <= max_pages)%Z -> exists n, Z.to_nat max_pages = Datatypes.S n.
Proof. intros H. exists (Z.to_nat (max_pages - 1)). lia. Qed.

(** ** One pass of a page loop, given the answer of the service *)

Lemma fetch_all_heads_body_run self df dt ic inm jn oc pid cc limit st :
  exists rq, forall t,
    fetch_all_heads_body self df dt ic inm jn oc pid cc limit st t
    = Some (heads_pass st (reply (head_list self df dt ic inm jn oc pid cc
                                    (hs_page st) limit 1)),
            (t ++ [rq])%list).
Proof.
  destruct (head_list_run self df dt ic inm jn oc pid cc (hs_page st) limit 1)
    as (rq & Hrun).
  exists rq. intros t.
  unfold fetch_all_heads_body, heads_pass, bind. rewrite Hrun.
  destruct (reply _) as [resp|e]; [|reflexivity].
  unfold lift, ret, res_bind.
  repeat case_match; simplify_eq; reflexivity.
Qed.

Lemma build_job_equipment_map_body_run self df dt limit st :
  exists rq, forall t,
    build_job_equipment_map_body self df dt limit st t
    = Some (map_pass st (reply (joborder_list self df dt "" "" "" "" "Y"
                                  (ms_page st) limit 1)),
            (t ++ [rq])%list).
Proof.
  destruct (joborder_list_run self df dt "" "" "" "" "Y" (ms_page st) limit 1)
    as (rq & Hrun).
  exists rq. intros t.
  unfold build_job_equipment_map_body, map_pass, bind. rewrite Hrun.
  destruct (reply _) as [resp|e]; [|reflexivity].
  unfold lift, ret, res_bind.
  repeat case_match; simplify_eq; reflexivity.
Qed.

Lemma list_items_all_body_run self f limit st :
  exists rq, forall t,
    qfactory_client.list_items_all_body self f limit st t
    = Some (items_pass limit st
              (reply (qfactory_client.list_items_page self f
                        (qfactory_client.is_page st) limit)),
            (t ++ [rq])%list).
Proof.
  destruct (list_items_page_run self f (qfactory_client.is_page st) limit)
    as (rq & Hrun).
  exists rq. intros t.
  unfold qfactory_client.list_items_all_body, items_pass, bind. rewrite Hrun.
  destruct (reply _) as [resp|e]; [|reflexivity].
  unfold lift, ret, res_bind.
  destruct (qfactory_client.is_total st) as [tot|];
    [|destruct (qfactory_client.extract_total resp) as [[tot|]|e]];
    try reflexivity;
    repeat (destruct (_ >=? _)%Z; try reflexivity);
    destruct (_ <? _)%Z; reflexivity.
Qed.

(** A loop that is entered and whose first pass breaks. *)
Lemma while_first_pass_breaks {S} (cond : S -> bool) (body : S -> M (ctl S))
    max_pages s s' t t' :
  (1 <= max_pages)%Z ->
  cond s = true ->
  body s t = Some (Ok (Break s'), t') ->
  while (Z.to_nat max_pages) cond body s t = Some (Ok s', t').
Proof.
  intros Hmax Hc Hb.
  destruct (to_nat_max_pages _ Hmax) as (n & ->).
  rewrite while_step by assumption.
  now rewrite (bind_ok _ _ _ _ _ Hb).
Qed.

(** When the rows of the first page already reach the total it reports,
    [fetch_all_heads] returns them after that one request. *)
Lemma fetch_all_heads_first_page_total
    self df dt ic inm jn oc pid cc limit max_pages resp rows items total :
  (1 <= max_pages)%Z ->
  reply (head_list self df dt ic inm jn oc pid cc 1 limit 1) = Ok resp ->
  _extract_list resp = Ok rows ->
  truthy rows = true ->
  py_iter rows = Ok items ->
  _extract_total resp = Ok total ->
  (total <= Z.of_nat (List.length items))%Z ->
  exists rq, forall t,
    fetch_all_heads self df dt ic inm jn oc pid cc limit max_pages t
    = Some (Ok items, (t ++ [rq])%list).
Proof.
  intros Hmax Hresp Hrows Htruthy Hitems Htotal Hle.
  destruct (fetch_all_heads_body_run self df dt ic inm jn oc pid cc limit
              {| hs_all_rows := []; hs_page := 1 |}) as (rq & Hrun).
  exists rq. intros t.
  unfold fetch_all_heads.
  erewrite bind_ok with (a := {| hs_all_rows := items; hs_page := 1 |});
    [reflexivity|].
  apply while_first_pass_breaks; [assumption | simpl; apply Z.leb_le; lia |].
  rewrite Hrun. simpl hs_page. rewrite Hresp.
  unfold heads_pass. simpl. rewrite Hrows. simpl. rewrite Htruthy. simpl.
  rewrite Hitems. simpl. rewrite Htotal. simpl.
  replace (Z.of_nat (List.length items) >=? total)%Z with true
    by (symmetry; apply Z.geb_le; lia).
  reflexivity.
Qed.

(** The same for [list_items_all], whose total is read from the envelope. *)
Lemma list_items_all_first_page_total self f limit max_pages resp total :
  (1 <= max_pages)%Z ->
  reply (qfactory_client.list_items_page self f 1 limit) = Ok resp ->
  qfactory_client.extract_total resp = Ok (Some total) ->
  (total <= Z.of_nat (List.length (qfactory_client.extract_rows resp)))%Z ->
  exists rq, forall t,
    qfactory_client.list_items_all self f limit max_pages t
    = Some (Ok (qfactory_client.extract_rows resp), (t ++ [rq])%list).
Proof.
  intros Hmax Hresp Htotal Hle.
  destruct (list_items_all_body_run self f limit
              {| qfactory_client.is_all_rows := [];
                 qfactory_client.is_page := 1;
                 qfactory_client.is_total := None |}) as (rq & Hrun).
  exists rq. intros t.
  unfold qfactory_client.list_items_all.
  erewrite bind_ok
    with (a := {| qfactory_client.is_all_rows := qfactory_client.extract_rows resp;
                  qfactory_client.is_page := 1;
                  qfactory_client.is_total := Some total |});
    [reflexivity|].
  apply while_first_pass_breaks; [assumption | simpl; apply Z.leb_le; lia |].
  rewrite Hrun. simpl qfactory_client.is_page. rewrite Hresp.
  unfold items_pass. simpl. rewrite Htotal. simpl.
  replace (Z.of_nat (List.length (qfactory_client.extract_rows resp)) >=? total)%Z
    with true by (symmetry; apply Z.geb_le; lia).
  reflexivity.
Qed.

(** C7. If the first page reports a total of 3 and carries 3 rows, the
    full-collection fetch returns those rows after exactly one page
    request ([max_pages] allowing a first page at all). *)
Theorem total_three_rows_three_one_request :
  (forall self df dt ic inm jn oc pid cc limit max_pages resp rows,
     (1 <= max_pages)%Z ->
     reply (head_list self df dt ic inm jn oc pid cc 1 limit 1) = Ok resp ->
     _extract_list resp = Ok (VList rows) ->
     List.length rows = 3 ->
     _extract_total resp = Ok 3%Z ->
     exists rq, forall t,
       fetch_all_heads self df dt ic inm jn oc pid cc limit max_pages t
       = Some (Ok rows, (t ++ [rq])%list)) /\
  (forall self f limit max_pages resp,
     (1 <= max_pages)%Z ->
     reply (qfactory_client.list_items_page self f 1 limit) = Ok resp ->
     qfactory_client.extract_total resp = Ok (Some 3%Z) ->
     List.length (qfactory_client.extract_rows resp) = 3 ->
     exists rq, forall t,
       qfactory_client.list_items_all self f limit max_pages t
       = Some (Ok (qfactory_client.extract_rows resp), (t ++ [rq])%list)).
Proof.
  split.
  - intros * Hmax Hresp Hrows Hlen Htotal.
    apply fetch_all_heads_first_page_total
      with (resp := resp) (rows := VList rows) (total := 3%Z);
      try assumption.
    + destruct rows; [discriminate | reflexivity].
    + reflexivity.
    + rewrite Hlen. lia.
  - intros * Hmax Hresp Htotal Hlen.
    apply list_items_all_first_page_total with (total := 3%Z);
      try assumption.
    rewrite Hlen. lia.
Qed.

(** C7 on a head list and an item list of three rows and total 3. *)
Lemma total_three_rows_three_one_request_witness :
  (exists rq, forall t,
     fetch_all_heads (qf3_client (serve_pages [envelope three_heads]))
       "2024-01-01" "2024-01-31" "" "" "" "" 0 "OPR" 500 999 t
     = Some (Ok three_heads, (t ++ [rq])%list)) /\
  (exists rq, forall t,
     qfactory_client.list_items_all (qfactory (serve_pages [three_items]))
       any_items 500 9999 t
     = Some (Ok (qfactory_client.extract_rows three_items), (t ++ [rq])%list)).
Proof.
  split.
  - apply (proj1 total_three_rows_three_one_request)
      with (resp := envelope three_heads);
      [lia | reflexivity | reflexivity | reflexivity | reflexivity].
  - apply (proj2 total_three_rows_three_one_request)
      with (resp := three_items);
      [lia | reflexivity | reflexivity | reflexivity].
Defined.

(** ** The total of a page *)

Lemma extract_total_of_rows resp d rest :
  _extract_list resp = Ok (VList (VDict d :: rest)) ->
  _extract_total resp
  = py_int (py_or (dict_get d "cnt" (VInt (Z.of_nat (List.length (VDict d :: rest)))))
                  (VInt (Z.of_nat (List.length (VDict d :: rest))))).
Proof. intros H. unfold _extract_total. rewrite H. reflexivity. Qed.

(** C10. [_extract_total] is 0 when the row list is empty; otherwise it is
    the [cnt] of the first row, and the number of rows of the page itself
    when that [cnt] is absent, null or zero. Hence a first page whose rows
    carry no [cnt] ends [fetch_all_heads] after that single request,
    whatever the service would answer for later pages. *)
Theorem extract_total_falls_back_to_page_length :
  (forall resp lst,
     _extract_list resp = Ok lst -> truthy lst = false ->
     _extract_total resp = Ok 0%Z) /\
  (forall resp d rest z,
     _extract_list resp = Ok (VList (VDict d :: rest)) ->
     dict_lookup d "cnt" = Some (VInt z) -> z <> 0%Z ->
     _extract_total resp = Ok z) /\
  (forall resp d rest,
     _extract_list resp = Ok (VList (VDict d :: rest)) ->
     dict_lookup d "cnt" = None \/
     dict_lookup d "cnt" = Some VNone \/
     dict_lookup d "cnt" = Some (VInt 0) ->
     _extract_total resp = Ok (Z.of_nat (List.length (VDict d :: rest)))) /\
  (forall self df dt ic inm jn oc pid cc limit max_pages resp d rest,
     (1 <= max_pages)%Z ->
     reply (head_list self df dt ic inm jn oc pid cc 1 limit 1) = Ok resp ->
     _extract_list resp = Ok (VList (VDict d :: rest)) ->
     dict_lookup d "cnt" = None ->
     exists rq, forall t,
       fetch_all_heads self df dt ic inm jn oc pid cc limit max_pages t
       = Some (Ok (VDict d :: rest), (t ++ [rq])%list)).
Proof.
  assert (Hfallback : forall resp d rest,
     _extract_list resp = Ok (VList (VDict d :: rest)) ->
     dict_lookup d "cnt" = None \/
     dict_lookup d "cnt" = Some VNone \/
     dict_lookup d "cnt" = Some (VInt 0) ->
     _extract_total resp = Ok (Z.of_nat (List.length (VDict d :: rest)))).
  { intros resp d rest Hl Hcnt.
    rewrite (extract_total_of_rows _ _ _ Hl). unfold dict_get.
    destruct Hcnt as [-> | [-> | ->]]; reflexivity. }
  split; [|split; [|split]].
  - intros resp lst Hl Hf. unfold _extract_total. rewrite Hl. simpl.
    now rewrite Hf.
  - intros resp d rest z Hl Hcnt Hz.
    rewrite (extract_total_of_rows _ _ _ Hl). unfold dict_get. rewrite Hcnt.
    unfold py_or. simpl truthy.
    destruct (z =? 0)%Z eqn:E; [apply Z.eqb_eq in E; contradiction | reflexivity].
  - exact Hfallback.
  - intros * Hmax Hresp Hl Hcnt.
    apply fetch_all_heads_first_page_total
      with (resp := resp) (rows := VList (VDict d :: rest))
           (total := Z.of_nat (List.length (VDict d :: rest)));
      try assumption; try reflexivity;
      first [lia | apply Hfallback; auto].
Qed.

(** C10 on an empty page, a page with [cnt] and a page without. *)
Lemma extract_total_falls_back_to_page_length_witness :
  _extract_total (envelope []) = Ok 0%Z /\
  _extract_total (envelope three_heads) = Ok 3%Z /\
  _extract_total (envelope [row_a; row_b]) = Ok 2%Z /\
  (exists rq, forall t,
     fetch_all_heads (qf3_client two_pages_without_cnt)
       "2024-01-01" "2024-01-31" "" "" "" "" 0 "OPR" 500 999 t
     = Some (Ok [row_a; row_b], (t ++ [rq])%list)).
Proof.
  destruct extract_total_falls_back_to_page_length as (H0 & Hcnt & Hfb & Hstop).
  split; [|split; [|split]].
  - apply (H0 (envelope []) (VList [])); reflexivity.
  - apply (Hcnt (envelope three_heads) _ _ 3%Z eq_refl); [reflexivity | lia].
  - apply (Hfb (envelope [row_a; row_b]) _ _ eq_refl). left. reflexivity.
  - apply Hstop with (resp := envelope [row_a; row_b]);
      [lia | reflexivity | reflexivity | reflexivity].
Defined.

(** ** The job index *)

Lemma res_fold_app {A B} (f : A -> B -> result A) (acc : A) (xs ys : list B) :
  res_fold f acc (xs ++ ys)%list
  = res_bind (res_fold f acc xs) (fun acc' => res_fold f acc' ys).
Proof.
  revert acc. induction xs as [|x xs IH]; intros acc; simpl; [reflexivity|].
  destruct (f acc x); simpl; [apply IH | reflexivity].
Qed.

Lemma index_row_keyed (mp : job_map) d k :
  truthy (dict_get d "jobName" VNone) = true ->
  hash_key (dict_get d "jobName" VNone) = Ok k ->
  index_row mp (VDict d) = Ok (<[k := equipment_of d]> mp).
Proof.
  intros Ht Hk. unfold index_row. simpl. rewrite Ht, Hk. reflexivity.
Qed.

Lemma index_row_skips (mp : job_map) d :
  truthy (dict_get d "jobName" VNone) = false ->
  index_row mp (VDict d) = Ok mp.
Proof. intros Ht. unfold index_row. simpl. now rewrite Ht. Qed.

Lemma index_row_other_key (mp mp' : job_map) r k :
  row_key r <> Some k ->
  index_row mp r = Ok mp' ->
  mp' !! k = mp !! k.
Proof.
  intros Hk Hrow. destruct r as [| | | |l|d]; try discriminate.
  unfold row_key in Hk.
  destruct (truthy (dict_get d "jobName" VNone)) eqn:Ht.
  - destruct (hash_key (dict_get d "jobName" VNone)) as [k'|e] eqn:Hh.
    + rewrite (index_row_keyed _ _ _ Ht Hh) in Hrow. injection Hrow as <-.
      apply lookup_insert_ne. congruence.
    + unfold index_row in Hrow. simpl in Hrow. rewrite Ht, Hh in Hrow.
      discriminate.
  - rewrite (index_row_skips _ _ Ht) in Hrow. congruence.
Qed.

Lemma index_rows_other_key rows : forall (mp mp' : job_map) k,
  (forall r, In r rows -> row_key r <> Some k) ->
  res_fold index_row mp rows = Ok mp' ->
  mp' !! k = mp !! k.
Proof.
  induction rows as [|r rows IH]; intros mp mp' k Hk Hfold; simpl in Hfold.
  - congruence.
  - destruct (index_row mp r) as [mp1|e] eqn:Hrow; [|discriminate].
    simpl in Hfold.
    rewrite (IH mp1 mp' k); [|intros; apply Hk; now right | assumption].
    eapply index_row_other_key; [|eassumption]. apply Hk. now left.
Qed.

Lemma index_rows_total rows : forall (mp : job_map),
  Forall indexable rows ->
  exists mp', res_fold index_row mp rows = Ok mp'.
Proof.
  induction rows as [|r rows IH]; intros mp Hall; simpl.
  - eauto.
  - inversion Hall as [|? ? (d & -> & Hhash) Hrest]; subst.
    destruct (truthy (dict_get d "jobName" VNone)) eqn:Ht.
    + destruct (Hhash eq_refl) as (k & Hk).
      rewrite (index_row_keyed _ _ _ Ht Hk). simpl. now apply IH.
    + rewrite (index_row_skips _ _ Ht). simpl. now apply IH.
Qed.

(** C5. The index builder leaves the index as it is at a record whose job
    name is absent or empty; a key no record carries keeps its old
    binding; and a key carried by several records ends up bound to the
    metadata of the last of them, exactly as that record has it. On rows
    that are JSON objects with hashable job names the builder does not
    fail. *)
Theorem index_skips_empty_keys_and_last_write_wins :
  (forall (mp : job_map) d,
     truthy (dict_get d "jobName" VNone) = false ->
     index_row mp (VDict d) = Ok mp) /\
  (forall (mp mp' : job_map) rows k,
     (forall r, In r rows -> row_key r <> Some k) ->
     res_fold index_row mp rows = Ok mp' ->
     mp' !! k = mp !! k) /\
  (forall (mp mp' : job_map) earlier d later k,
     row_key (VDict d) = Some k ->
     (forall r, In r later -> row_key r <> Some k) ->
     res_fold index_row mp (earlier ++ VDict d :: later)%list = Ok mp' ->
     mp' !! k = Some (equipment_of d)) /\
  (forall (mp : job_map) rows,
     Forall indexable rows ->
     exists mp', res_fold index_row mp rows = Ok mp').
Proof.
  split; [|split; [|split]].
  - intros mp d Ht. now apply index_row_skips.
  - intros mp mp' rows k Hk Hfold. eapply index_rows_other_key; eassumption.
  - intros mp mp' earlier d later k Hkey Hlater Hfold.
    rewrite res_fold_app in Hfold.
    destruct (res_fold index_row mp earlier) as [mp1|e]; [|discriminate].
    simpl in Hfold.
    unfold row_key in Hkey.
    destruct (truthy (dict_get d "jobName" VNone)) eqn:Ht; [|discriminate].
    destruct (hash_key (dict_get d "jobName" VNone)) as [k'|e] eqn:Hh;
      [|discriminate].
    injection Hkey as ->.
    rewrite (index_row_keyed _ _ _ Ht Hh) in Hfold. simpl in Hfold.
    rewrite (index_rows_other_key _ _ _ _ Hlater Hfold).
    apply lookup_insert_eq.
  - intros mp rows Hall. now apply index_rows_total.
Qed.

(** C5 on two job orders named J1 and a row without a job name. *)
Lemma index_skips_empty_keys_and_last_write_wins_witness :
  index_row ∅ nameless_row = Ok ∅ /\
  exists mp' : job_map,
    res_fold index_row ∅ duplicate_job_rows = Ok mp' /\
    mp' !! KStr "J1"
    = Some [("workcenterName", VStr "WC2"); ("machineName", VStr "M2");
            ("resourceName", VNone)] /\
    mp' !! KStr "J2" = None.
Proof.
  destruct index_skips_empty_keys_and_last_write_wins
    as (Hskip & Hother & Hlast & Htotal).
  split.
  - apply Hskip. reflexivity.
  - destruct (Htotal ∅ duplicate_job_rows) as (mp' & Hfold).
    { repeat constructor.
      - eexists. split; [reflexivity|]. intros _. eexists. reflexivity.
      - eexists. split; [reflexivity|]. intros _. eexists. reflexivity.
      - eexists. split; [reflexivity|]. intros H. vm_compute in H. discriminate. }
    exists mp'. split; [exact Hfold|]. split.
    + apply (Hlast ∅ mp' [job_row "J1" "WC1" "M1"]
               [("jobName", VStr "J1"); ("workcenterName", VStr "WC2");
                ("machineName", VStr "M2"); ("cnt", VInt 2)]
               [nameless_row] (KStr "J1")).
      * reflexivity.
      * intros r [<- | []]. vm_compute. congruence.
      * exact Hfold.
    + rewrite (Hother ∅ mp' duplicate_job_rows (KStr "J2"));
        [reflexivity | | exact Hfold].
      intros r [<- | [<- | [<- | []]]]; vm_compute; congruence.
Defined.

(** ** Stopping at the total *)

(** A pass of [fetch_all_heads] breaks as soon as the rows accumulated so
    far reach the total of the page just read. *)
Lemma heads_pass_stops_at_total st resp rows items total :
  _extract_list resp = Ok rows ->
  py_iter rows = Ok items ->
  _extract_total resp = Ok total ->
  (total <= Z.of_nat (List.length (hs_all_rows st ++ items)))%Z ->
  exists st', heads_pass st (Ok resp) = Ok (Break st').
Proof.
  intros Hrows Hitems Htotal Hle. unfold heads_pass. simpl.
  rewrite Hrows. simpl. destruct (truthy rows); simpl; [|eauto].
  rewrite Hitems. simpl. rewrite Htotal. simpl.
  replace (_ >=? _)%Z with true by (symmetry; apply Z.geb_le; lia).
  eauto.
Qed.

(** A pass of [list_items_all] breaks as soon as the rows accumulated so
    far reach the total, once one is known. *)
Lemma items_pass_stops_at_total limit st resp total :
  match qfactory_client.is_total st with
  | None => qfactory_client.extract_total resp
  | Some t => Ok (Some t)
  end = Ok (Some total) ->
  (total <= Z.of_nat (List.length (qfactory_client.is_all_rows st
                                    ++ qfactory_client.extract_rows resp)))%Z ->
  exists st', items_pass limit st (Ok resp) = Ok (Break st').
Proof.
  intros Htotal Hle. unfold items_pass. simpl. rewrite Htotal. simpl.
  replace (_ >=? _)%Z with true by (symmetry; apply Z.geb_le; lia).
  eauto.
Qed.

(** A pass of [build_job_equipment_map] compares the total with the
    number of keys of the index, not with the number of rows read: it goes
    on to the next page while the index has fewer keys than the total. *)
Lemma map_pass_continues_below_total_keys st resp rows items mp total :
  _extract_list resp = Ok rows ->
  truthy rows = true ->
  py_iter rows = Ok items ->
  res_fold index_row (ms_mp st) items = Ok mp ->
  _extract_total resp = Ok total ->
  (Z.of_nat (size mp) < total)%Z ->
  map_pass st (Ok resp)
  = Ok (Next {| ms_mp := mp; ms_page := (ms_page st + 1)%Z |}).
Proof.
  intros Hrows Ht Hitems Hfold Htotal Hlt. unfold map_pass. simpl.
  rewrite Hrows. simpl. rewrite Ht. simpl. rewrite Hitems. simpl.
  rewrite Hfold. simpl. rewrite Htotal. simpl.
  replace (_ >=? _)%Z with false; [reflexivity|].
  symmetry. rewrite Z.geb_leb. apply Z.leb_gt. lia.
Qed.

(** C2, at [build_job_equipment_map]. With two rows under one job name
    and a reported total of 2, the rows read on page 1 already reach the
    total, and yet the loop requests page 2: it compared the total with
    the one key of the index. *)
Theorem build_job_equipment_map_requests_page_after_total :
  let page1 := envelope [job_row "J1" "WC1" "M1"; job_row "J1" "WC2" "M2"] in
  reply (joborder_list (qf3_client one_job_twice)
           "2024-01-01" "2024-01-31" "" "" "" "" "Y" 1 500 1) = Ok page1 /\
  _extract_total page1 = Ok 2%Z /\
  rows_of page1 = Ok [job_row "J1" "WC1" "M1"; job_row "J1" "WC2" "M2"] /\
  exists mp t,
    build_job_equipment_map (qf3_client one_job_twice)
      "2024-01-01" "2024-01-31" 500 999 [] = Some (Ok mp, t) /\
    size mp = 1 /\
    map (fun rq => page_of (snd rq)) t = [1%Z; 2%Z].
Proof.
  cbv zeta. split; [reflexivity|]. split; [reflexivity|]. split; [reflexivity|].
  eexists _, _. split; [vm_compute; reflexivity|].
  split; reflexivity.
Qed.

(** ** Fetching every page *)

Section AllHeads.

Variable self : QF3Client.
Variables df dt ic inm jn oc : string.
Variable pid : Z.
Variable cc : string.
Variables limit max_pages : Z.

Lemma heads_loop_from_page (pages : list (list value)) :
  heads_pages_below_total self df dt ic inm jn oc pid cc limit pages ->
  heads_page_empty self df dt ic inm jn oc pid cc limit (Z.of_nat (List.length pages) + 1) ->
  (Z.of_nat (List.length pages) < max_pages)%Z ->
  forall rest done fuel,
    pages = (done ++ rest)%list ->
    List.length rest < fuel ->
    exists reqs page, forall t,
      while fuel (fun st => (hs_page st <=? max_pages)%Z)
        (fetch_all_heads_body self df dt ic inm jn oc pid cc limit)
        {| hs_all_rows := List.concat done; hs_page := Z.of_nat (List.length done) + 1 |} t
      = Some (Ok {| hs_all_rows := List.concat pages; hs_page := page |},
              (t ++ reqs)%list).
Proof.
  intros Hpages Hempty Hmax.
  induction rest as [|rows rest IH]; intros done fuel Hsplit Hfuel.
  - rewrite app_nil_r in Hsplit. subst done.
    destruct fuel as [|fuel]; [simpl in Hfuel; lia|].
    destruct (fetch_all_heads_body_run self df dt ic inm jn oc pid cc limit
                {| hs_all_rows := List.concat pages;
                   hs_page := Z.of_nat (List.length pages) + 1 |}) as (rq & Hrun).
    destruct Hempty as (resp & lst & Hresp & Hlst & Hfalsy).
    exists [rq], (Z.of_nat (List.length pages) + 1)%Z. intros t.
    apply while_break; [simpl; apply Z.leb_le; lia|].
    rewrite Hrun. simpl hs_page. fold (head_page self df dt ic inm jn oc pid cc limit (Z.of_nat (List.length pages) + 1)).
    rewrite Hresp. unfold heads_pass. simpl. rewrite Hlst. simpl.
    rewrite Hfalsy. reflexivity.
  - destruct fuel as [|fuel]; [simpl in Hfuel; lia|].
    assert (Hi : pages !! List.length done = Some rows).
    { rewrite Hsplit. rewrite lookup_app_r by lia.
      now rewrite Nat.sub_diag. }
    destruct (Hpages _ _ Hi) as (resp & total & Hresp & Hlst & Hne & Htotal & Hbelow).
    assert (Hlen : List.length pages = List.length done + Datatypes.S (List.length rest)).
    { rewrite Hsplit, length_app. reflexivity. }
    destruct (fetch_all_heads_body_run self df dt ic inm jn oc pid cc limit
                {| hs_all_rows := List.concat done;
                   hs_page := Z.of_nat (List.length done) + 1 |}) as (rq & Hrun).
    assert (Htake : take (List.length done + 1) pages = (done ++ [rows])%list).
    { rewrite Hsplit.
      replace (done ++ rows :: rest)%list with ((done ++ [rows]) ++ rest)%list
        by (rewrite <- app_assoc; reflexivity).
      apply take_app_length'. rewrite length_app. simpl. lia. }
    assert (Hpass :
      heads_pass {| hs_all_rows := List.concat done;
                    hs_page := Z.of_nat (List.length done) + 1 |} (Ok resp)
      = if (Z.of_nat (List.length (List.concat (done ++ [rows]))) >=? total)%Z
        then Ok (Break {| hs_all_rows := List.concat (done ++ [rows]);
                          hs_page := Z.of_nat (List.length done) + 1 |})
        else Ok (Next {| hs_all_rows := List.concat (done ++ [rows]);
                         hs_page := Z.of_nat (List.length done) + 1 + 1 |})).
    { unfold heads_pass. simpl. rewrite Hlst. simpl.
      destruct rows as [|r rows']; [congruence|]. simpl truthy. simpl negb.
      cbv iota. simpl res_bind. rewrite Htotal. simpl res_bind.
      rewrite List.concat_app. simpl List.concat. rewrite app_nil_r. reflexivity. }
    destruct (Z.of_nat (List.length (List.concat (done ++ [rows]))) >=? total)%Z eqn:Hge.
    + (* the total is reached: this is the last page *)
      assert (Hlast : rest = []).
      { destruct rest as [|rows2 rest2]; [reflexivity|]. exfalso.
        apply Z.geb_le in Hge. rewrite Htake in Hbelow.
        simpl in Hlen. lia. }
      subst rest.
      exists [rq], (Z.of_nat (List.length done) + 1)%Z. intros t.
      apply while_break; [simpl; apply Z.leb_le; lia|].
      rewrite Hrun. simpl hs_page.
      fold (head_page self df dt ic inm jn oc pid cc limit (Z.of_nat (List.length done) + 1)).
      rewrite Hresp, Hpass. rewrite Hsplit. reflexivity.
    + destruct (IH (done ++ [rows])%list fuel) as (reqs & page & Hw).
      { rewrite <- app_assoc. exact Hsplit. }
      { simpl in Hfuel. lia. }
      exists (rq :: reqs), page. intros t.
      erewrite while_next;
        [| simpl; apply Z.leb_le; lia
         | rewrite Hrun; simpl hs_page;
           fold (head_page self df dt ic inm jn oc pid cc limit (Z.of_nat (List.length done) + 1));
           rewrite Hresp, Hpass; reflexivity].
      replace (Z.of_nat (List.length done) + 1 + 1)%Z
        with (Z.of_nat (List.length (done ++ [rows])) + 1)%Z
        by (rewrite length_app; simpl; lia).
      rewrite Hw. rewrite <- app_assoc. reflexivity.
Qed.

End AllHeads.

(** ** White space at the ends of a string *)

Lemma append_cons c (a b : string) : String c a ++ b = String c (a ++ b).
Proof. reflexivity. Qed.

Lemma append_nil (b : string) : EmptyString ++ b = b.
Proof. reflexivity. Qed.

Lemma append_assoc (a b c : string) : (a ++ b) ++ c = a ++ (b ++ c).
Proof.
  induction a as [|x a IH]; [reflexivity|]. rewrite !append_cons. now rewrite IH.
Qed.

Lemma append_nil_r (a : string) : a ++ EmptyString = a.
Proof.
  induction a as [|x a IH]; [reflexivity|]. rewrite append_cons. now rewrite IH.
Qed.

Lemma length_append (a b : string) :
  String.length (a ++ b) = String.length a + String.length b.
Proof.
  induction a as [|c a IH]; [reflexivity|]. rewrite append_cons. simpl.
  now rewrite IH.
Qed.

Ltac bytes_to_nat :=
  unfold is_space, is_space2, is_space3, is_digit in *; cbv zeta in *;
  repeat match goal with
         | H : _ = true |- _ =>
             progress repeat first
               [ rewrite orb_true_iff in H | rewrite andb_true_iff in H
               | rewrite Nat.eqb_eq in H | rewrite Nat.leb_le in H ]
         | H : _ = false |- _ =>
             apply not_true_iff_false in H;
             repeat first
               [ rewrite orb_true_iff in H | rewrite andb_true_iff in H
               | rewrite Nat.eqb_eq in H | rewrite Nat.leb_le in H ]
         end.

Ltac bytes_lia :=
  bytes_to_nat;
  repeat match goal with |- _ /\ _ => split end;
  try match goal with |- _ = false => apply not_true_iff_false end;
  repeat first
    [ rewrite orb_true_iff | rewrite andb_true_iff
    | rewrite Nat.eqb_eq | rewrite Nat.leb_le ];
  lia.

Lemma is_space_not_longer c1 c2 c3 :
  is_space c1 = true -> is_space2 c1 c2 = false /\ is_space3 c1 c2 c3 = false.
Proof. intros H. bytes_lia. Qed.

Lemma is_space2_not_other c1 c2 c3 :
  is_space2 c1 c2 = true -> is_space c1 = false /\ is_space3 c1 c2 c3 = false.
Proof. intros H. bytes_lia. Qed.

Lemma is_space3_not_shorter c1 c2 c3 :
  is_space3 c1 c2 c3 = true -> is_space c1 = false /\ is_space2 c1 c2 = false.
Proof. intros H. bytes_lia. Qed.

Lemma no_space_starts c r :
  starts_no_space c ->
  is_space_char (String c r) = false /\ starts_space (String c r) = false.
Proof.
  intros (H1 & H2 & H3).
  assert (E2 : forall x, is_space2 c x = false) by (intros x; bytes_lia).
  assert (E3 : forall x y, is_space3 c x y = false) by (intros x y; bytes_lia).
  simpl. rewrite H1.
  destruct r as [|c2 [|c3 r]]; rewrite ?E2, ?E3; auto.
  destruct r; auto.
Qed.

Lemma is_space2_tail c1 c2 : is_space2 c1 c2 = true -> starts_no_space c2.
Proof. intros H. unfold starts_no_space. bytes_lia. Qed.

Lemma is_space3_tail c1 c2 c3 :
  is_space3 c1 c2 c3 = true -> starts_no_space c2 /\ starts_no_space c3.
Proof. intros H. unfold starts_no_space. bytes_lia. Qed.

Lemma digit_starts_no_space c : is_digit c = true -> starts_no_space c.
Proof. intros H. unfold starts_no_space. bytes_lia. Qed.

Lemma is_space_char_cases w :
  is_space_char w = true ->
  (exists c1, w = String c1 EmptyString /\ is_space c1 = true) \/
  (exists c1 c2, w = String c1 (String c2 EmptyString) /\ is_space2 c1 c2 = true) \/
  (exists c1 c2 c3,
      w = String c1 (String c2 (String c3 EmptyString)) /\
      is_space3 c1 c2 c3 = true).
Proof.
  destruct w as [|c1 [|c2 [|c3 [|c4 w]]]]; simpl; try discriminate; eauto 10.
Qed.

Lemma lstrip_space_char w z :
  is_space_char w = true -> lstrip (w ++ z) = lstrip z.
Proof.
  intros H.
  apply is_space_char_cases in H
    as [(c1 & -> & H) | [(c1 & c2 & -> & H) | (c1 & c2 & c3 & -> & H)]].
  - rewrite append_cons, append_nil. simpl. now rewrite H.
  - destruct (is_space2_not_other c1 c2 c2 H) as [H1 _].
    rewrite !append_cons, append_nil. simpl. now rewrite H1, H.
  - destruct (is_space3_not_shorter c1 c2 c3 H) as [H1 H2].
    rewrite !append_cons, append_nil. simpl. now rewrite H1, H2, H.
Qed.

Lemma starts_space_char w z :
  is_space_char w = true -> starts_space (w ++ z) = true.
Proof.
  intros H.
  apply is_space_char_cases in H
    as [(c1 & -> & H) | [(c1 & c2 & -> & H) | (c1 & c2 & c3 & -> & H)]];
    rewrite !append_cons, append_nil; simpl; rewrite H;
    rewrite ?orb_true_r; reflexivity.
Qed.

Lemma lstrip_fix s : starts_space s = false -> lstrip s = s.
Proof.
  destruct s as [|c1 s1]; [reflexivity|].
  cbn [starts_space lstrip]. destruct (is_space c1); [discriminate|]. cbn [orb].
  destruct s1 as [|c2 s2]; [reflexivity|].
  destruct (is_space2 c1 c2); [discriminate|]. cbn [orb].
  destruct s2 as [|c3 s3]; [reflexivity|].
  intros ->. reflexivity.
Qed.

Lemma starts_space_split s :
  starts_space s = true ->
  exists w z, s = w ++ z /\ is_space_char w = true.
Proof.
  destruct s as [|c1 s1]; [discriminate|]. simpl.
  destruct (is_space c1) eqn:H1.
  { intros _. exists (String c1 EmptyString), s1. auto. }
  destruct s1 as [|c2 s2]; [discriminate|]. simpl.
  destruct (is_space2 c1 c2) eqn:H2.
  { intros _. exists (String c1 (String c2 EmptyString)), s2. auto. }
  destruct s2 as [|c3 s3]; [discriminate|]. simpl.
  intros H3. exists (String c1 (String c2 (String c3 EmptyString))), s3. auto.
Qed.

Lemma space_char_length w : is_space_char w = true -> 0 < String.length w.
Proof. destruct w; [discriminate | simpl; lia]. Qed.

(** Induction along [lstrip]: a string either starts with no white space,
    or is a white-space character followed by a shorter string. *)
Lemma lstrip_ind (P : string -> Prop) :
  (forall s, starts_space s = false -> P s) ->
  (forall w z, is_space_char w = true -> P z -> P (w ++ z)) ->
  forall s, P s.
Proof.
  intros Hbase Hstep s.
  remember (String.length s) as n eqn:Hn.
  revert s Hn. induction n as [n IH] using lt_wf_ind. intros s ->.
  destruct (starts_space s) eqn:Hs; [|now apply Hbase].
  apply starts_space_split in Hs as (w & z & -> & Hw).
  apply Hstep; [exact Hw|].
  apply (IH (String.length z)); [|reflexivity].
  rewrite length_append. pose proof (space_char_length _ Hw). lia.
Qed.

Lemma lstrip_suffix s : exists a, s = a ++ lstrip s.
Proof.
  induction s as [s Hs | w z Hw (a & IH)] using lstrip_ind.
  - exists EmptyString. now rewrite lstrip_fix.
  - rewrite (lstrip_space_char _ _ Hw). exists (w ++ a).
    rewrite IH at 1. now rewrite append_assoc.
Qed.

Lemma lstrip_starts_no_space s : starts_space (lstrip s) = false.
Proof.
  induction s as [s Hs | w z Hw IH] using lstrip_ind.
  - now rewrite lstrip_fix.
  - now rewrite (lstrip_space_char _ _ Hw).
Qed.

Lemma lstrip_idempotent s : lstrip (lstrip s) = lstrip s.
Proof. apply lstrip_fix, lstrip_starts_no_space. Qed.

Lemma starts_space_app p b :
  starts_space p = true -> starts_space (p ++ b) = true.
Proof.
  intros H. apply starts_space_split in H as (w & z & -> & Hw).
  rewrite append_assoc. now apply starts_space_char.
Qed.

Lemma rstrip_cons c s :
  rstrip (String c s)
  = if is_space_char (String c (rstrip s)) then EmptyString
    else String c (rstrip s).
Proof. reflexivity. Qed.

Lemma rstrip_prefix s : exists b, s = rstrip s ++ b.
Proof.
  induction s as [|c s (b & IH)]; [now exists EmptyString|].
  rewrite rstrip_cons.
  destruct (is_space_char (String c (rstrip s))).
  - now exists (String c s).
  - exists b. rewrite append_cons. now rewrite <- IH.
Qed.

Lemma rstrip_idempotent s : rstrip (rstrip s) = rstrip s.
Proof.
  induction s as [|c s IH]; [reflexivity|].
  rewrite rstrip_cons.
  destruct (is_space_char (String c (rstrip s))) eqn:E; [reflexivity|].
  rewrite rstrip_cons, IH, E. reflexivity.
Qed.

Lemma rstrip_starts_no_space s :
  starts_space s = false -> starts_space (rstrip s) = false.
Proof.
  intros H. destruct (rstrip_prefix s) as (b & Hb).
  destruct (starts_space (rstrip s)) eqn:E; [|reflexivity].
  apply (starts_space_app _ b) in E. rewrite <- Hb in E. congruence.
Qed.

Lemma strip_strip s : strip (strip s) = strip s.
Proof.
  unfold strip.
  rewrite (lstrip_fix (rstrip (lstrip s)))
    by apply rstrip_starts_no_space, lstrip_starts_no_space.
  apply rstrip_idempotent.
Qed.

Lemma strip_lstrip s : strip (lstrip s) = strip s.
Proof. unfold strip. now rewrite lstrip_idempotent. Qed.

(** A white-space character in front of what [rstrip] leaves. *)
Lemma rstrip_space_char w z :
  is_space_char w = true ->
  rstrip (w ++ z)
  = match rstrip z with
    | EmptyString => EmptyString
    | r => w ++ r
    end.
Proof.
  intros H.
  apply is_space_char_cases in H
    as [(c1 & -> & H) | [(c1 & c2 & -> & H) | (c1 & c2 & c3 & -> & H)]];
    rewrite !append_cons, append_nil.
  - rewrite rstrip_cons. destruct (rstrip z) as [|c r]; simpl; [now rewrite H|].
    destruct (is_space_not_longer c1 c c H) as [E2 _]. rewrite E2.
    destruct r as [|c' r]; [reflexivity|].
    destruct (is_space_not_longer c1 c c' H) as [_ E3]. rewrite E3.
    now destruct r.
  - pose proof (is_space2_tail _ _ H) as Ht.
    rewrite rstrip_cons, (rstrip_cons c2).
    rewrite (proj1 (no_space_starts c2 (rstrip z) Ht)).
    destruct (rstrip z) as [|c r]; simpl; [now rewrite H|].
    destruct (is_space2_not_other c1 c2 c H) as [_ E3]. rewrite E3.
    now destruct r.
  - destruct (is_space3_tail _ _ _ H) as [Ht2 Ht3].
    rewrite rstrip_cons, (rstrip_cons c2), (rstrip_cons c3).
    rewrite (proj1 (no_space_starts c3 (rstrip z) Ht3)).
    rewrite (proj1 (no_space_starts c2 _ Ht2)).
    destruct (rstrip z) as [|c r]; simpl; [now rewrite H | reflexivity].
Qed.

Lemma lstrip_rstrip s : lstrip (rstrip s) = rstrip (lstrip s).
Proof.
  induction s as [s Hs | w z Hw IH] using lstrip_ind.
  - rewrite (lstrip_fix s Hs). apply lstrip_fix. now apply rstrip_starts_no_space.
  - rewrite (lstrip_space_char _ _ Hw), <- IH, (rstrip_space_char _ _ Hw).
    destruct (rstrip z) as [|c r] eqn:E; [reflexivity|].
    now rewrite (lstrip_space_char _ _ Hw).
Qed.

Lemma strip_rstrip s : strip (rstrip s) = strip s.
Proof.
  unfold strip. now rewrite lstrip_rstrip, rstrip_idempotent.
Qed.

Lemma strip_empty : strip EmptyString = EmptyString.
Proof. reflexivity. Qed.

(** ** White space, as the specification sees it *)

Lemma ascii_of_byte c n : nat_of_ascii c = n -> c = ascii_of_nat n.
Proof. intros <-. symmetry. apply ascii_nat_embedding. Qed.

Ltac pick_member := repeat first [left; reflexivity | right].

Lemma white_space_char_is_space_char w :
  white_space_char w -> is_space_char w = true.
Proof.
  intros (p & Hin & ->). simpl in Hin.
  repeat destruct Hin as [<- | Hin]; try reflexivity. contradiction.
Qed.

Lemma is_space_char_white_space_char w :
  is_space_char w = true -> white_space_char w.
Proof.
  intros H. exists (hd 0%N (decode w)).
  apply is_space_char_cases in H
    as [(c1 & -> & H) | [(c1 & c2 & -> & H) | (c1 & c2 & c3 & -> & H)]].
  - assert (Hn : nat_of_ascii c1 = 9 \/ nat_of_ascii c1 = 10 \/
                 nat_of_ascii c1 = 11 \/ nat_of_ascii c1 = 12 \/
                 nat_of_ascii c1 = 13 \/ nat_of_ascii c1 = 28 \/
                 nat_of_ascii c1 = 29 \/ nat_of_ascii c1 = 30 \/
                 nat_of_ascii c1 = 31 \/ nat_of_ascii c1 = 32)
      by (bytes_to_nat; lia).
    clear H.
    repeat destruct Hn as [Hn | Hn]; apply ascii_of_byte in Hn; subst c1;
      (split; [vm_compute; pick_member | reflexivity]).
  - assert (H1 : nat_of_ascii c1 = 194) by (bytes_to_nat; lia).
    assert (H2 : nat_of_ascii c2 = 133 \/ nat_of_ascii c2 = 160)
      by (bytes_to_nat; lia).
    clear H. apply ascii_of_byte in H1. subst c1.
    destruct H2 as [H2 | H2]; apply ascii_of_byte in H2; subst c2;
      (split; [vm_compute; pick_member | reflexivity]).
  - assert (Hn :
      (nat_of_ascii c1 = 225 /\ nat_of_ascii c2 = 154 /\ nat_of_ascii c3 = 128) \/
      (nat_of_ascii c1 = 226 /\ nat_of_ascii c2 = 128 /\
       (nat_of_ascii c3 = 128 \/ nat_of_ascii c3 = 129 \/ nat_of_ascii c3 = 130 \/
        nat_of_ascii c3 = 131 \/ nat_of_ascii c3 = 132 \/ nat_of_ascii c3 = 133 \/
        nat_of_ascii c3 = 134 \/ nat_of_ascii c3 = 135 \/ nat_of_ascii c3 = 136 \/
        nat_of_ascii c3 = 137 \/ nat_of_ascii c3 = 138 \/ nat_of_ascii c3 = 168 \/
        nat_of_ascii c3 = 169 \/ nat_of_ascii c3 = 175)) \/
      (nat_of_ascii c1 = 226 /\ nat_of_ascii c2 = 129 /\ nat_of_ascii c3 = 159) \/
      (nat_of_ascii c1 = 227 /\ nat_of_ascii c2 = 128 /\ nat_of_ascii c3 = 128))
      by (bytes_to_nat; lia).
    clear H.
    destruct Hn as [(H1 & H2 & H3) | [(H1 & H2 & H3) | [(H1 & H2 & H3) | (H1 & H2 & H3)]]];
      apply ascii_of_byte in H1; apply ascii_of_byte in H2; subst c1 c2;
      repeat destruct H3 as [H3 | H3]; apply ascii_of_byte in H3; subst c3;
      (split; [vm_compute; pick_member | reflexivity]).
Qed.

Lemma blank_app a b : blank a -> blank b -> blank (a ++ b).
Proof.
  induction 1 as [|w s Hw _ IH]; intros Hb; [exact Hb|].
  rewrite append_assoc. constructor; auto.
Qed.

Lemma blank_char w : white_space_char w -> blank w.
Proof.
  intros H. rewrite <- (append_nil_r w). constructor; [exact H | constructor].
Qed.

Lemma lstrip_blank s : blank s -> lstrip s = EmptyString.
Proof.
  induction 1 as [|w s Hw _ IH]; [reflexivity|].
  now rewrite (lstrip_space_char _ _ (white_space_char_is_space_char _ Hw)).
Qed.

Lemma strip_blank s : blank s -> strip s = EmptyString.
Proof. intros H. unfold strip. now rewrite lstrip_blank. Qed.

Lemma lstrip_blank_prefix s : exists a, blank a /\ s = a ++ lstrip s.
Proof.
  induction s as [s Hs | w z Hw (a & Ha & IH)] using lstrip_ind.
  - exists EmptyString. split; [constructor | now rewrite lstrip_fix].
  - rewrite (lstrip_space_char _ _ Hw). exists (w ++ a). split.
    + constructor; [now apply is_space_char_white_space_char | exact Ha].
    + rewrite IH at 1. now rewrite append_assoc.
Qed.

Lemma rstrip_blank_suffix s : exists b, blank b /\ s = rstrip s ++ b.
Proof.
  induction s as [|c s (b & Hb & IH)]; [exists EmptyString; split; [constructor | reflexivity]|].
  rewrite rstrip_cons.
  destruct (is_space_char (String c (rstrip s))) eqn:E.
  - exists (String c (rstrip s) ++ b). split.
    + constructor; [now apply is_space_char_white_space_char | exact Hb].
    + rewrite append_cons, append_nil. now rewrite <- IH.
  - exists b. split; [exact Hb|]. rewrite append_cons. now rewrite <- IH.
Qed.

Lemma rstrip_no_space_last s : forall w x,
  is_space_char w = true -> rstrip s <> x ++ w.
Proof.
  induction s as [|c s IH]; intros w x Hw E.
  - destruct x; [|discriminate E]. simpl in E. rewrite append_nil in E.
    subst w. discriminate Hw.
  - rewrite rstrip_cons in E.
    destruct (is_space_char (String c (rstrip s))) eqn:Ec.
    + destruct x; [|discriminate E]. rewrite append_nil in E.
      subst w. discriminate Hw.
    + destruct x as [|c' x].
      * rewrite append_nil in E. subst w. congruence.
      * rewrite append_cons in E. injection E as _ E. exact (IH _ _ Hw E).
Qed.

Lemma strip_trimmed s : trimmed (strip s).
Proof.
  intros w Hw x. apply white_space_char_is_space_char in Hw. split; intros E.
  - pose proof (rstrip_starts_no_space _ (lstrip_starts_no_space s)) as Hs.
    fold (strip s) in Hs. rewrite E, (starts_space_char _ _ Hw) in Hs.
    discriminate Hs.
  - exact (rstrip_no_space_last _ _ _ Hw E).
Qed.

(** [strip] takes a blank string off either end and leaves a trimmed
    one. *)
Lemma strip_spec s :
  exists a b, blank a /\ blank b /\ s = a ++ strip s ++ b /\ trimmed (strip s).
Proof.
  destruct (lstrip_blank_prefix s) as (a & Ha & Hs).
  destruct (rstrip_blank_suffix (lstrip s)) as (b & Hb & Hl).
  exists a, b. split; [exact Ha|]. split; [exact Hb|].
  split; [|apply strip_trimmed].
  unfold strip. now rewrite <- Hl.
Qed.

Lemma strip_empty_blank s : strip s = EmptyString <-> blank s.
Proof.
  split; [|apply strip_blank].
  intros H. destruct (strip_spec s) as (a & b & Ha & Hb & Hs & _).
  rewrite H, append_nil in Hs. rewrite Hs. now apply blank_app.
Qed.

(** ** Letter case of ASCII text *)








(** ** [extract_total] never raises *)

Lemma rstrip_digits s : all_digits s = true -> rstrip s = s.
Proof.
  induction s as [|c s IH]; intros H; [reflexivity|].
  simpl in H. apply andb_prop in H as [Hc Hs].
  rewrite rstrip_cons, (IH Hs).
  now rewrite (proj1 (no_space_starts c s (digit_starts_no_space _ Hc))).
Qed.

Lemma strip_digits s : all_digits s = true -> strip s = s.
Proof.
  intros H. unfold strip.
  rewrite lstrip_fix; [now apply rstrip_digits|].
  destruct s as [|c s]; [reflexivity|].
  simpl in H. apply andb_prop in H as [Hc _].
  exact (proj2 (no_space_starts c s (digit_starts_no_space _ Hc))).
Qed.

Lemma parse_digits_all_digits s : forall acc prev,
  all_digits s = true ->
  s <> EmptyString \/ prev = true ->
  exists z, parse_digits s acc prev = Some z.
Proof.
  induction s as [|c s IH]; intros acc prev H Hne.
  - destruct Hne as [Hne | ->]; [congruence | simpl; eauto].
  - simpl in H. apply andb_prop in H as [Hc Hs].
    simpl. rewrite Hc. apply IH; auto.
Qed.

Lemma int_of_str_digits s :
  isdigit s = true -> exists z, int_of_str s = Ok z.
Proof.
  unfold isdigit. intros H. apply andb_prop in H as [Hne Hall].
  unfold int_of_str. rewrite (strip_digits _ Hall).
  destruct s as [|c s]; [discriminate Hne|].
  destruct (parse_digits_all_digits (String c s) 0%Z false Hall) as (z & Hz);
    [left; discriminate|].
  simpl in Hall. apply andb_prop in Hall as [Hc _].
  destruct c as [[] [] [] [] [] [] [] []]; try discriminate Hc;
    cbv zeta; cbv iota; rewrite Hz; eauto.
Qed.

Lemma total_at_keys_ok d keys :
  exists o, qfactory_client.total_at_keys d keys = Ok o.
Proof.
  induction keys as [|k keys IH]; simpl; [eauto|].
  destruct (dict_get d k VNone); eauto.
  destruct (isdigit s) eqn:Hd; [|assumption].
  destruct (int_of_str_digits _ Hd) as (z & ->). simpl. eauto.
Qed.

Lemma extract_total_ok resp :
  exists o, qfactory_client.extract_total resp = Ok o.
Proof.
  unfold qfactory_client.extract_total. destruct resp; eauto.
  destruct (total_at_keys_ok d ["total"; "count"; "recordsTotal"; "totalCount"])
    as (o & ->).
  simpl. destruct o; eauto.
  repeat case_match; eauto.
Qed.

Section AllItems.

Variable self : qfactory_client.QFactoryClient.
Variable f : qfactory_client.item_filters.
Variables limit max_pages : Z.

Lemma first_total_snoc done r :
  match first_total done with
  | None => qfactory_client.extract_total r
  | Some t => Ok (Some t)
  end = Ok (first_total (done ++ [r])%list).
Proof.
  induction done as [|r0 done IH]; simpl.
  - destruct (extract_total_ok r) as ([t|] & ->); reflexivity.
  - destruct (qfactory_client.extract_total r0) as [[t|]|e]; auto.
Qed.

Lemma rows_upto_snoc done r :
  rows_upto (done ++ [r])%list
  = (rows_upto done ++ qfactory_client.extract_rows r)%list.
Proof.
  unfold rows_upto. rewrite map_app, List.concat_app. simpl.
  now rewrite app_nil_r.
Qed.

Lemma items_loop_from_page (resps : list value) :
  items_pages_full_below_total self f limit resps ->
  items_page_empty self f limit (Z.of_nat (List.length resps) + 1) ->
  (Z.of_nat (List.length resps) < max_pages)%Z ->
  (1 <= limit)%Z ->
  forall rest done fuel,
    resps = (done ++ rest)%list ->
    List.length rest < fuel ->
    exists reqs st',
      qfactory_client.is_all_rows st' = rows_upto resps /\
      forall t,
        while fuel (fun st => (qfactory_client.is_page st <=? max_pages)%Z)
          (qfactory_client.list_items_all_body self f limit)
          {| qfactory_client.is_all_rows := rows_upto done;
             qfactory_client.is_page := Z.of_nat (List.length done) + 1;
             qfactory_client.is_total := first_total done |} t
        = Some (Ok st', (t ++ reqs)%list).
Proof.
  intros Hpages Hempty Hmax Hlimit.
  induction rest as [|r rest IH]; intros done fuel Hsplit Hfuel;
    (destruct fuel as [|fuel]; [simpl in Hfuel; lia|]);
    destruct (list_items_all_body_run self f limit
                {| qfactory_client.is_all_rows := rows_upto done;
                   qfactory_client.is_page := Z.of_nat (List.length done) + 1;
                   qfactory_client.is_total := first_total done |}) as (rq & Hrun);
    simpl qfactory_client.is_page in Hrun;
    fold (items_page self f limit (Z.of_nat (List.length done) + 1)) in Hrun.
  - rewrite app_nil_r in Hsplit. subst done.
    destruct Hempty as (resp & Hresp & Hrows).
    rewrite Hresp in Hrun. unfold items_pass in Hrun. simpl in Hrun.
    rewrite first_total_snoc in Hrun. simpl in Hrun.
    rewrite Hrows, app_nil_r in Hrun. simpl List.length in Hrun.
    change (Z.of_nat 0) with 0%Z in Hrun.
    replace (0 <? limit)%Z with true in Hrun by (symmetry; apply Z.ltb_lt; lia).
    exists [rq],
      {| qfactory_client.is_all_rows := rows_upto resps;
         qfactory_client.is_page := Z.of_nat (List.length resps) + 1;
         qfactory_client.is_total := first_total (resps ++ [resp]) |}.
    split; [reflexivity|].
    intros t. apply while_break; [simpl; apply Z.leb_le; lia|].
    rewrite Hrun.
    repeat match goal with |- context [if ?c then _ else _] => destruct c end;
      reflexivity.
  - assert (Hi : resps !! List.length done = Some r).
    { rewrite Hsplit. rewrite lookup_app_r by lia. now rewrite Nat.sub_diag. }
    destruct (Hpages _ _ Hi) as (Hresp & Hfull).
    assert (Hlen : List.length resps = List.length done + Datatypes.S (List.length rest)).
    { rewrite Hsplit, length_app. reflexivity. }
    assert (Htake : take (List.length done + 1) resps = (done ++ [r])%list).
    { rewrite Hsplit.
      replace (done ++ r :: rest)%list with ((done ++ [r]) ++ rest)%list
        by (rewrite <- app_assoc; reflexivity).
      apply take_app_length'. rewrite length_app. simpl. lia. }
    rewrite Htake in Hfull.
    rewrite Hresp in Hrun. unfold items_pass in Hrun. simpl in Hrun.
    rewrite first_total_snoc in Hrun. simpl in Hrun.
    rewrite <- rows_upto_snoc in Hrun.
    assert (Hlast : rest = [] -> rows_upto (done ++ [r]) = rows_upto resps).
    { intros ->. now rewrite Hsplit. }
    assert (Hstop :
      (match first_total (done ++ [r]) with
       | Some t => (Z.of_nat (List.length (rows_upto (done ++ [r]))) >=? t)%Z
       | None => false
       end = true \/
       (Z.of_nat (List.length (qfactory_client.extract_rows r)) <? limit)%Z = true) ->
      rest = []).
    { intros Hs. destruct rest as [|r2 rest2]; [reflexivity|]. exfalso.
      destruct Hfull as (Hge & Hbelow); [simpl in Hlen; lia|].
      destruct Hs as [Hs|Hs].
      - destruct (first_total (done ++ [r])); [|discriminate].
        apply Z.geb_le in Hs. lia.
      - apply Z.ltb_lt in Hs. lia. }
    destruct (match first_total (done ++ [r]) with
              | Some t => (Z.of_nat (List.length (rows_upto (done ++ [r]))) >=? t)%Z
              | None => false
              end) eqn:Hreached.
    { eexists [rq], _. split; [|intros t; apply while_break;
        [simpl; apply Z.leb_le; lia | rewrite Hrun; reflexivity]].
      simpl. apply Hlast, Hstop. now left. }
    destruct (Z.of_nat (List.length (qfactory_client.extract_rows r)) <? limit)%Z
      eqn:Hshort.
    { eexists [rq], _. split; [|intros t; apply while_break;
        [simpl; apply Z.leb_le; lia | rewrite Hrun; reflexivity]].
      simpl. apply Hlast, Hstop. now right. }
    destruct (IH (done ++ [r])%list fuel) as (reqs & st' & Hst' & Hw).
    { rewrite <- app_assoc. exact Hsplit. }
    { simpl in Hfuel. lia. }
    exists (rq :: reqs), st'. split; [exact Hst'|]. intros t.
    erewrite while_next;
      [| simpl; apply Z.leb_le; lia | rewrite Hrun; reflexivity].
    replace (Z.of_nat (List.length done) + 1 + 1)%Z
      with (Z.of_nat (List.length (done ++ [r])) + 1)%Z
      by (rewrite length_app; simpl; lia).
    rewrite Hw. rewrite <- app_assoc. reflexivity.
Qed.

End AllItems.

(** C1, as the code has it. When pages 1..n of the service carry rows,
    page n+1 is empty and n is below [max_pages], and no page before the
    n-th ends the loop early (for [fetch_all_heads]: the rows accumulated
    through it stay below the total it reports; for [list_items_all],
    with [limit >= 1]: it has at least [limit] rows and the accumulated
    rows stay below the total once one is known), the fetch returns, and
    returns the rows of pages 1..n in page order. *)
Theorem fetch_all_returns_pages_before_first_empty_page :
  (forall self df dt ic inm jn oc pid cc limit max_pages (pages : list (list value)),
     heads_pages_below_total self df dt ic inm jn oc pid cc limit pages ->
     heads_page_empty self df dt ic inm jn oc pid cc limit
       (Z.of_nat (List.length pages) + 1) ->
     (Z.of_nat (List.length pages) < max_pages)%Z ->
     exists reqs, forall t,
       fetch_all_heads self df dt ic inm jn oc pid cc limit max_pages t
       = Some (Ok (List.concat pages), (t ++ reqs)%list)) /\
  (forall self f limit max_pages (resps : list value),
     items_pages_full_below_total self f limit resps ->
     items_page_empty self f limit (Z.of_nat (List.length resps) + 1) ->
     (Z.of_nat (List.length resps) < max_pages)%Z ->
     (1 <= limit)%Z ->
     exists reqs, forall t,
       qfactory_client.list_items_all self f limit max_pages t
       = Some (Ok (rows_upto resps), (t ++ reqs)%list)).
Proof.
  split.
  - intros * Hpages Hempty Hmax.
    destruct (heads_loop_from_page self df dt ic inm jn oc pid cc limit max_pages
                pages Hpages Hempty Hmax pages [] (Z.to_nat max_pages))
      as (reqs & page & Hw); [reflexivity | lia |].
    exists reqs. intros t. unfold fetch_all_heads.
    erewrite bind_ok; [|apply Hw]. reflexivity.
  - intros * Hpages Hempty Hmax Hlimit.
    destruct (items_loop_from_page self f limit max_pages
                resps Hpages Hempty Hmax Hlimit resps [] (Z.to_nat max_pages))
      as (reqs & st' & Hst' & Hw); [reflexivity | lia |].
    exists reqs. intros t. unfold qfactory_client.list_items_all.
    erewrite bind_ok; [|apply Hw]. unfold ret. now rewrite Hst'.
Qed.

(** C1, as the code has it, on three rows spread over two pages. *)
Lemma fetch_all_returns_pages_before_first_empty_page_witness :
  (exists reqs, forall t,
     fetch_all_heads (qf3_client heads_on_two_pages)
       "2024-01-01" "2024-01-31" "" "" "" "" 0 "OPR" 500 999 t
     = Some (Ok [head_row 1 "J1" "Widget-A" 3; head_row 2 "J2" "Widget-B" 3;
                 head_row 3 "J3" "Widget-C" 3], (t ++ reqs)%list)) /\
  (exists reqs, forall t,
     qfactory_client.list_items_all (qfactory items_on_two_pages) any_items 2 9999 t
     = Some (Ok [VDict [("itemCode", VStr "A")]; VDict [("itemCode", VStr "B")];
                 VDict [("itemCode", VStr "C")]], (t ++ reqs)%list)).
Proof.
  split.
  - apply (proj1 fetch_all_returns_pages_before_first_empty_page
             (qf3_client heads_on_two_pages)
             "2024-01-01" "2024-01-31" "" "" "" "" 0%Z "OPR" 500%Z 999%Z
             [ [head_row 1 "J1" "Widget-A" 3; head_row 2 "J2" "Widget-B" 3];
               [head_row 3 "J3" "Widget-C" 3] ]).
    + intros [|[|i]] rows Hi; simpl in Hi; try discriminate Hi;
        injection Hi as <-.
      * exists (envelope [head_row 1 "J1" "Widget-A" 3; head_row 2 "J2" "Widget-B" 3]),
          3%Z.
        split; [reflexivity|]. split; [reflexivity|]. split; [discriminate|].
        split; [reflexivity|]. intros _. simpl. lia.
      * exists (envelope [head_row 3 "J3" "Widget-C" 3]), 3%Z.
        split; [reflexivity|]. split; [reflexivity|]. split; [discriminate|].
        split; [reflexivity|]. simpl. lia.
    + exists (envelope []), (VList []).
      split; [reflexivity|]. split; reflexivity.
    + simpl. lia.
  - apply (proj2 fetch_all_returns_pages_before_first_empty_page
             (qfactory items_on_two_pages) any_items 2%Z 9999%Z
             [items_page_1; items_page_2]).
    + intros [|[|i]] resp Hi; simpl in Hi; try discriminate Hi;
        injection Hi as <-.
      * split; [reflexivity|]. intros _. split; [simpl; lia | simpl; lia].
      * split; [reflexivity|]. simpl. lia.
    + exists (VDict [("total", VInt 3); ("rows", VList [])]).
      split; reflexivity.
    + simpl. lia.
    + lia.
Defined.

(** C1 as it is stated fails: the service below has rows on pages 1 and
    2 and an empty page 3, and [fetch_all_heads] returns page 1 only,
    because page 1 reports a total that its two rows already reach. *)
Lemma fetch_all_heads_stops_at_reported_total :
  ~ fetch_all_heads_returns_every_page.
Proof.
  intros Hclaim.
  destruct (Hclaim (qf3_client total_two_rows_three)
              "2024-01-01" "2024-01-31" "" "" "" "" 0%Z "OPR" 500%Z 999%Z
              [ [head_row 1 "J1" "Widget-A" 2; head_row 2 "J2" "Widget-B" 2];
                [head_row 3 "J3" "Widget-C" 2] ]) as (t' & Hrun).
  - intros [|[|i]] rows Hi; simpl in Hi; try discriminate Hi;
      injection Hi as <-.
    + exists (envelope [head_row 1 "J1" "Widget-A" 2; head_row 2 "J2" "Widget-B" 2]).
      split; [reflexivity|]. split; [reflexivity | discriminate].
    + exists (envelope [head_row 3 "J3" "Widget-C" 2]).
      split; [reflexivity|]. split; [reflexivity | discriminate].
  - exists (envelope []), (VList []).
    split; [reflexivity|]. split; reflexivity.
  - vm_compute in Hrun. discriminate Hrun.
Qed.

(** ** Enrichment *)

Lemma dict_lookup_set_eq d k v : dict_lookup (dict_set d k v) k = Some v.
Proof.
  induction d as [|[k' v'] d IH]; simpl.
  - now rewrite String.eqb_refl.
  - destruct (String.eqb k' k) eqn:E; simpl.
    + now rewrite String.eqb_refl.
    + now rewrite E.
Qed.

Lemma dict_lookup_set_ne d k v k' :
  k <> k' -> dict_lookup (dict_set d k v) k' = dict_lookup d k'.
Proof.
  intros Hne. induction d as [|[k0 v0] d IH]; simpl.
  - destruct (String.eqb k k') eqn:E; [apply String.eqb_eq in E; contradiction|].
    reflexivity.
  - destruct (String.eqb k0 k) eqn:E; simpl.
    + apply String.eqb_eq in E. subst k0.
      destruct (String.eqb k k') eqn:E'; [apply String.eqb_eq in E'; contradiction|].
      reflexivity.
    + destruct (String.eqb k0 k'); [reflexivity | exact IH].
Qed.

Lemma res_map_Forall2 {A B} (f : A -> result B) xs : forall ys,
  res_map f xs = Ok ys -> Forall2 (fun x y => f x = Ok y) xs ys.
Proof.
  induction xs as [|x xs IH]; intros ys H; simpl in H.
  - injection H as <-. constructor.
  - destruct (f x) as [y|e] eqn:Hx; [|discriminate]. simpl in H.
    destruct (res_map f xs) as [ys'|e]; [|discriminate]. simpl in H.
    injection H as <-. constructor; auto.
Qed.

Lemma res_map_total {A B} (f : A -> result B) xs :
  Forall (fun x => exists y, f x = Ok y) xs -> exists ys, res_map f xs = Ok ys.
Proof.
  induction 1 as [|x xs (y & Hy) _ (ys & Hys)]; simpl; [eauto|].
  rewrite Hy, Hys. simpl. eauto.
Qed.

Lemma attach_equipment_eq (job_mp : job_map) d :
  attach_equipment job_mp (VDict d)
  = let? eq :=
      (if truthy (dict_get d "jobName" VNone)
       then let? k := hash_key (dict_get d "jobName" VNone) in
            Ok (default [] (job_mp !! k))
       else Ok []) in
    let? display := py_join " / " (display_parts eq) in
    Ok (with_equipment d eq display).
Proof.
  unfold attach_equipment. simpl py_dict. cbv beta iota. simpl res_bind at 1.
  match goal with |- res_bind ?e _ = _ => destruct e as [eq|e0] end;
    [|reflexivity].
  simpl res_bind at 1 3.
  unfold display_parts, with_equipment, dict_get.
  repeat first
    [ rewrite dict_lookup_set_eq
    | rewrite dict_lookup_set_ne by discriminate ].
  reflexivity.
Qed.

Lemma with_equipment_other d eq display k :
  ~ In k ("equipmentDisplay" :: metadata_fields) ->
  dict_lookup (with_equipment d eq display) k = dict_lookup d k.
Proof.
  intros Hk. unfold with_equipment.
  rewrite !dict_lookup_set_ne; [reflexivity | ..];
    intros <-; apply Hk; simpl; tauto.
Qed.

Lemma with_equipment_field d eq display k :
  In k metadata_fields ->
  dict_lookup (with_equipment d eq display) k = Some (dict_get eq k VNone).
Proof.
  unfold with_equipment.
  intros [<- | [<- | [<- | []]]];
    repeat first
      [ rewrite dict_lookup_set_eq
      | rewrite dict_lookup_set_ne by discriminate ];
    reflexivity.
Qed.

Lemma with_equipment_display d eq display :
  dict_lookup (with_equipment d eq display) "equipmentDisplay" = Some (VStr display).
Proof. unfold with_equipment. apply dict_lookup_set_eq. Qed.

Lemma attach_equipment_enriched (job_mp : job_map) h o :
  attach_equipment job_mp h = Ok o -> enriched job_mp h o.
Proof.
  destruct h as [| | | | |d]; try discriminate.
  rewrite attach_equipment_eq. intros H.
  exists d. split; [reflexivity|].
  unfold equipment_for.
  destruct (truthy (dict_get d "jobName" VNone)).
  - destruct (hash_key (dict_get d "jobName" VNone)) as [k|e]; [|discriminate].
    simpl in H.
    destruct (job_mp !! k) as [eq|] eqn:Hk; simpl in H.
    + destruct (py_join " / " (display_parts eq)) as [display|e]; [|discriminate].
      injection H as <-.
      split; [intros; now apply with_equipment_other|].
      split; [eexists; apply with_equipment_display|].
      intros; now apply with_equipment_field.
    + injection H as <-.
      split; [intros; now apply with_equipment_other|].
      split; [eexists; apply with_equipment_display|].
      split; [intros; now apply with_equipment_field
             | apply with_equipment_display].
  - simpl in H. injection H as <-.
    split; [intros; now apply with_equipment_other|].
    split; [eexists; apply with_equipment_display|].
    split; [intros; now apply with_equipment_field
           | apply with_equipment_display].
Qed.

Lemma py_join_texts sep xs :
  Forall (fun v => exists s, v = VStr s) xs -> exists s, py_join sep xs = Ok s.
Proof.
  induction 1 as [|v xs (s & ->) Hxs (r & Hr)]; simpl; [eauto|].
  destruct xs; [eauto|]. rewrite Hr. simpl. eauto.
Qed.

Lemma display_parts_texts eq :
  (forall k, In k metadata_fields -> blank_or_text (dict_get eq k VNone)) ->
  Forall (fun v => exists s, v = VStr s) (display_parts eq).
Proof.
  intros Hbt. unfold display_parts.
  apply List.Forall_forall. intros v Hv.
  apply filter_In in Hv as [Hin Htruthy].
  assert (Hor : forall k, In k metadata_fields ->
            v = py_or (dict_get eq k VNone) (VStr "") -> exists s, v = VStr s).
  { intros k Hk ->. unfold py_or in *.
    destruct (Hbt k Hk) as [Hf | (s & Hs)].
    - rewrite Hf. eauto.
    - rewrite Hs. destruct (truthy (VStr s)); eauto. }
  destruct Hin as [<- | [<- | [<- | []]]];
    [ apply (Hor "workcenterName") | apply (Hor "machineName")
    | apply (Hor "resourceName") ]; simpl; auto.
Qed.

Lemma attach_equipment_total (job_mp : job_map) h :
  enrichable job_mp h -> exists o, attach_equipment job_mp h = Ok o.
Proof.
  intros (d & -> & Hhash & Htext).
  rewrite attach_equipment_eq. unfold equipment_for in Htext.
  destruct (truthy (dict_get d "jobName" VNone)).
  - destruct (Hhash eq_refl) as (k & Hk). rewrite Hk in *. simpl.
    destruct (job_mp !! k) as [eq|]; simpl.
    + destruct (py_join_texts " / " (display_parts eq)) as (s & ->);
        [apply display_parts_texts; now apply Htext|].
      simpl. eauto.
    + eauto.
  - simpl. eauto.
Qed.

(** C3, as the code has it. Enrichment returns one record per input
    record, in the same order; each is the input record with the three
    metadata fields and the display string set, never missing. The
    metadata fields hold what the index entry holds; when the job name has
    no entry they are null and the display string is empty. On JSON
    objects with hashable job names and textual index entries it does not
    fail. *)
Theorem enrichment_keeps_every_record_in_order :
  (forall heads (job_mp : job_map) out,
     attach_equipment_to_heads heads job_mp = Ok out ->
     Forall2 (enriched job_mp) heads out) /\
  (forall heads (job_mp : job_map),
     Forall (enrichable job_mp) heads ->
     exists out, attach_equipment_to_heads heads job_mp = Ok out).
Proof.
  split.
  - intros heads job_mp out H. unfold attach_equipment_to_heads in H.
    apply res_map_Forall2 in H.
    eapply Forall2_impl; [exact H|].
    intros h o Ho. now apply attach_equipment_enriched.
  - intros heads job_mp Hall. unfold attach_equipment_to_heads.
    apply res_map_total.
    eapply Forall_impl; [exact Hall|].
    intros h Hh. now apply attach_equipment_total.
Qed.

Lemma widget_heads_enrichable : Forall (enrichable wc1_index) widget_heads.
Proof.
  repeat constructor.
  - eexists. split; [reflexivity|]. split; [intros _; eexists; reflexivity|].
    intros eq Heq. vm_compute in Heq. injection Heq as <-.
    intros k [<- | [<- | [<- | []]]];
      [right; eexists; reflexivity | left; reflexivity | left; reflexivity].
  - eexists. split; [reflexivity|]. split; [intros _; eexists; reflexivity|].
    intros eq Heq. vm_compute in Heq. discriminate Heq.
Qed.

(** C3, as the code has it, on the heads of the end-to-end scenario. *)
Lemma enrichment_keeps_every_record_in_order_witness :
  exists out,
    attach_equipment_to_heads widget_heads wc1_index = Ok out /\
    Forall2 (enriched wc1_index) widget_heads out.
Proof.
  destruct (proj2 enrichment_keeps_every_record_in_order
              widget_heads wc1_index widget_heads_enrichable) as (out & Hout).
  exists out. split; [exact Hout|].
  exact (proj1 enrichment_keeps_every_record_in_order _ _ _ Hout).
Defined.

(** C3 as it is stated fails: a head whose job J2 is not in the index
    gets [workcenterName] set to null. *)
Lemma unmatched_metadata_is_null :
  ~ unmatched_metadata_is_never_null.
Proof.
  intros Hclaim.
  specialize (Hclaim [VDict [("jobName", VStr "J2")]] ∅
                [[("jobName", VStr "J2"); ("workcenterName", VNone);
                  ("machineName", VNone); ("resourceName", VNone);
                  ("equipmentDisplay", VStr "")]] eq_refl).
  inversion Hclaim as [|h o hs os Hhead _]; subst.
  destruct (Hhead _ eq_refl eq_refl "workcenterName") as (v & Hv & Hnull);
    [simpl; auto|].
  simpl in Hv. injection Hv as <-. contradiction.
Qed.

(** ** Strings: [strip], [split], [in] *)

Lemma split_cons sep c s :
  split sep (String c s)
  = if Ascii.eqb c sep then EmptyString :: split sep s
    else match split sep s with
         | p :: ps => String c p :: ps
         | [] => [String c EmptyString]
         end.
Proof. reflexivity. Qed.

Lemma split_nonempty sep s : split sep s <> [].
Proof.
  destruct s as [|c s]; simpl; [discriminate|].
  destruct (Ascii.eqb c sep); [discriminate|].
  destruct (split sep s); discriminate.
Qed.

Lemma split_single_empty sep s : split sep s = [EmptyString] -> s = EmptyString.
Proof.
  destruct s as [|c s]; [reflexivity|]. simpl.
  destruct (Ascii.eqb c sep).
  - intros H. injection H as H. now apply split_nonempty in H.
  - destruct (split sep s); discriminate.
Qed.

Lemma map_strip_map_last_rstrip l :
  map strip (map_last rstrip l) = map strip l.
Proof.
  induction l as [|x l IH]; [reflexivity|].
  destruct l as [|y l]; simpl in *.
  - now rewrite strip_rstrip.
  - now rewrite IH.
Qed.

Lemma split_single sep s p : split sep s = [p] -> p = s.
Proof.
  revert p. induction s as [|c s IH]; intros p; simpl.
  - intros H. now injection H as <-.
  - destruct (Ascii.eqb c sep).
    + intros H. injection H as _ H. now apply split_nonempty in H.
    + destruct (split sep s) as [|p' ps'] eqn:Hs; [now apply split_nonempty in Hs|].
      intros H. injection H as <- ->. now rewrite (IH p' eq_refl).
Qed.

Lemma split_no_sep sep s : has_char sep s = false -> split sep s = [s].
Proof.
  induction s as [|c s IH]; [reflexivity|]. simpl.
  intros H. apply orb_false_elim in H as [Hc Hs].
  now rewrite Hc, (IH Hs).
Qed.

Section SplitStrip.

(** A separator that is an ASCII character and no white space: it is no
    byte of a white-space character. *)
Variable sep : ascii.
Hypothesis sep_not_space : is_space sep = false.
Hypothesis sep_ascii : (nat_of_ascii sep <? 128)%nat = true.

Lemma sep_not_in_space_char w :
  is_space_char w = true -> has_char sep w = false.
Proof.
  intros H. apply Nat.ltb_lt in sep_ascii.
  assert (Hne : forall c, nat_of_ascii c <> nat_of_ascii sep -> Ascii.eqb c sep = false).
  { intros c Hc. apply Ascii.eqb_neq. congruence. }
  apply is_space_char_cases in H
    as [(c1 & -> & H) | [(c1 & c2 & -> & H) | (c1 & c2 & c3 & -> & H)]]; simpl.
  - destruct (Ascii.eqb c1 sep) eqn:E; [|reflexivity].
    apply Ascii.eqb_eq in E. subst c1. congruence.
  - rewrite !Hne; [reflexivity | |]; bytes_lia.
  - rewrite !Hne; [reflexivity | | |]; bytes_lia.
Qed.

Lemma split_app_no_sep w z :
  has_char sep w = false ->
  split sep (w ++ z)
  = match split sep z with
    | p :: ps => (w ++ p) :: ps
    | [] => [w]
    end.
Proof.
  induction w as [|c w IH]; simpl has_char; intros H.
  - rewrite append_nil.
    destruct (split sep z) as [|p ps] eqn:Hz; [now apply split_nonempty in Hz|].
    now rewrite append_nil.
  - apply orb_false_elim in H as [Hc Hw].
    rewrite append_cons, split_cons, Hc, (IH Hw).
    destruct (split sep z) as [|p ps] eqn:Hz; [now apply split_nonempty in Hz|].
    now rewrite append_cons.
Qed.

Lemma split_lstrip s :
  map strip (split sep (lstrip s)) = map strip (split sep s).
Proof.
  induction s as [s Hs | w z Hw IH] using lstrip_ind.
  - now rewrite lstrip_fix.
  - rewrite (lstrip_space_char _ _ Hw), IH.
    rewrite (split_app_no_sep _ _ (sep_not_in_space_char _ Hw)).
    destruct (split sep z) as [|p ps] eqn:Hz; [now apply split_nonempty in Hz|].
    simpl. f_equal. unfold strip. now rewrite (lstrip_space_char _ _ Hw).
Qed.

Lemma split_rstrip s :
  split sep (rstrip s) = map_last rstrip (split sep s).
Proof.
  induction s as [|c s IH]; [reflexivity|].
  rewrite rstrip_cons.
  destruct (is_space_char (String c (rstrip s))) eqn:E.
  - (* only white space from [c] on *)
    pose proof (sep_not_in_space_char _ E) as Hno. simpl in Hno.
    apply orb_false_elim in Hno as [Hc Hr].
    rewrite (split_no_sep _ _ Hr) in IH.
    rewrite split_cons, Hc.
    destruct (split sep s) as [|p ps] eqn:Hs; [now apply split_nonempty in Hs|].
    destruct ps as [|p2 ps].
    + apply split_single in Hs. subst p.
      change (map_last rstrip [String c s]) with [rstrip (String c s)].
      now rewrite rstrip_cons, E.
    + simpl in IH. destruct ps; discriminate IH.
  - rewrite !split_cons. destruct (Ascii.eqb c sep) eqn:Hc.
    + rewrite IH.
      destruct (split sep s) as [|p ps] eqn:Hs; [now apply split_nonempty in Hs|].
      reflexivity.
    + rewrite IH.
      destruct (split sep s) as [|p ps] eqn:Hs; [now apply split_nonempty in Hs|].
      destruct ps as [|p2 ps].
      * apply split_single in Hs. subst p.
        change (map_last rstrip [s]) with [rstrip s].
        change (map_last rstrip [String c s]) with [rstrip (String c s)].
        now rewrite rstrip_cons, E.
      * reflexivity.
Qed.

Lemma split_strip s :
  map strip (split sep (strip s)) = map strip (split sep s).
Proof.
  unfold strip. rewrite split_rstrip, map_strip_map_last_rstrip.
  apply split_lstrip.
Qed.

End SplitStrip.


Lemma contains_nil t : contains t EmptyString = String.prefix t EmptyString.
Proof. simpl. apply orb_false_r. Qed.

Lemma contains_cons t c s :
  contains t (String c s) = String.prefix t (String c s) || contains t s.
Proof. reflexivity. Qed.


(** ** The AND-token filter *)

Lemma all_tokens_in_forallb tokens name_l :
  all_tokens_in tokens name_l
  = forallb (fun t => contains (lower t) name_l) tokens.
Proof.
  induction tokens as [|t tokens IH]; simpl; [reflexivity|].
  destruct (contains (lower t) name_l); simpl; [exact IH | reflexivity].
Qed.

Lemma falsy_str s : truthy (VStr s) = false -> s = EmptyString.
Proof. destruct s; [reflexivity | discriminate]. Qed.

Lemma item_name_read h :
  item_name_readable h ->
  py_str (py_or (dict_get h "itemName" VNone) (VStr "")) = Ok (item_name_text h).
Proof.
  unfold item_name_readable, item_name_text, py_or.
  intros [Hf | (s & Hs)].
  - rewrite Hf. destruct (dict_get h "itemName" VNone); try reflexivity.
    now rewrite (falsy_str _ Hf).
  - rewrite Hs. destruct (truthy (VStr s)) eqn:Ht; [reflexivity|].
    now rewrite (falsy_str _ Ht).
Qed.

Lemma filter_head_passes tokens out h :
  item_name_readable h ->
  filter_head tokens out h
  = Ok (if passes tokens h then (out ++ [h])%list else out).
Proof.
  intros Hr. unfold filter_head, passes.
  rewrite (item_name_read _ Hr). simpl res_bind.
  rewrite all_tokens_in_forallb.
  destruct (forallb _ tokens); reflexivity.
Qed.

Lemma filter_heads_fold tokens heads : forall out,
  Forall item_name_readable heads ->
  res_fold (filter_head tokens) out heads
  = Ok (out ++ List.filter (passes tokens) heads)%list.
Proof.
  induction heads as [|h heads IH]; intros out Hall; simpl.
  - now rewrite app_nil_r.
  - inversion Hall as [|? ? Hh Hrest]; subst.
    rewrite (filter_head_passes _ _ _ Hh). simpl.
    rewrite (IH _ Hrest).
    destruct (passes tokens h); [now rewrite <- app_assoc | reflexivity].
Qed.

Lemma parse_and_tokens_eq q :
  _parse_and_tokens q = List.filter nonempty (map strip (split "%" q)).
Proof.
  unfold _parse_and_tokens.
  rewrite <- (split_strip "%" eq_refl eq_refl q).
  simpl truthy. destruct (strip q) as [|c s] eqn:Hq; reflexivity.
Qed.




(** The examples of the specification. *)
Example filter_ar_nnb :
  _filter_heads_by_item_name [head_ar_nnb; head_ar] "AR%NNB" = Ok [head_ar_nnb] /\
  _filter_heads_by_item_name [head_ar_nnb; head_ar] "" = Ok [head_ar_nnb; head_ar] /\
  _filter_heads_by_item_name [head_ar_nnb; head_ar] "%%" = Ok [head_ar_nnb; head_ar].
Proof. repeat split; reflexivity. Qed.

(** ** The export sheet *)

Ltac same_state := repeat first [reflexivity | lia | progress f_equal].

Lemma append_results_fold item_code item_name wc items : forall st,
  res_fold (append_result item_code item_name wc) st items
  = let? rows := res_map (result_row item_code item_name wc) items in
    Ok {| ss_ws :=
            {| ws_title := ws_title (ss_ws st);
               ws_rows := (ws_rows (ss_ws st) ++ rows)%list;
               ws_styled := ws_styled (ss_ws st) |};
          ss_row_num := (ss_row_num st + Z.of_nat (List.length rows))%Z |}.
Proof.
  induction items as [|r items IH]; intros [[title rows0 styled] row_num]; simpl.
  - rewrite app_nil_r, Z.add_0_r. reflexivity.
  - unfold append_result at 1.
    destruct (result_row item_code item_name wc r) as [row|e]; [|reflexivity].
    simpl. rewrite IH. simpl.
    destruct (res_map (result_row item_code item_name wc) items) as [rows|e];
      [|reflexivity].
    simpl. rewrite <- app_assoc. simpl. same_state.
Qed.

Lemma truthy_iter_nonempty v items :
  truthy v = true -> py_iter v = Ok items -> items <> [].
Proof.
  destruct v as [| | |s|l|d]; simpl; try discriminate.
  - destruct s; [discriminate|]. intros _ H. injection H as <-. discriminate.
  - destruct l; [discriminate|]. intros _ H. injection H as <-. discriminate.
  - destruct d; [discriminate|]. intros _ H. injection H as <-. discriminate.
Qed.

Lemma bind_lift {A B} (r : result A) (k : A -> M B) t :
  bind (lift r) k t
  = match r with Ok a => k a t | Raise e => Some (Raise e, t) end.
Proof. destruct r; reflexivity. Qed.

Lemma append_head_group client st h :
  exists reqs, forall t,
    append_head client st h t
    = Some (match group_rows client h with
            | Ok g => Ok (with_group st g)
            | Raise e => Raise e
            end, (t ++ reqs)%list).
Proof.
  unfold append_head, group_rows, details_of.
  destruct (_workcenter_from_head h) as [wc|e];
    [|exists []; intros t; rewrite bind_lift, app_nil_r; reflexivity].
  destruct (dict_getitem h "mfgInspectionId") as [v|e];
    [|exists []; intros t; rewrite !bind_lift, app_nil_r; reflexivity].
  simpl res_bind.
  destruct (py_int v) as [mid|e] eqn:Hmid;
    [|exists []; intros t; rewrite !bind_lift, app_nil_r; reflexivity].
  simpl res_bind.
  destruct (line_list_run client mid 1 500 "root") as (rq & Hrun).
  exists [rq]. intros t.
  rewrite !bind_lift. unfold bind at 1. rewrite Hrun.
  destruct (reply (line_list client mid 1 500 "root")) as [resp|e];
    [|reflexivity].
  rewrite bind_lift. simpl res_bind.
  destruct (_extract_list resp) as [rows_l|e]; [|reflexivity].
  simpl res_bind.
  destruct (truthy rows_l) eqn:Htruthy; cbn [negb].
  - rewrite bind_lift.
    destruct (py_iter rows_l) as [items|e] eqn:Hiter; [|reflexivity].
    rewrite append_results_fold.
    pose proof (truthy_iter_nonempty _ _ Htruthy Hiter) as Hne.
    destruct items as [|r items]; [congruence|].
    cbn [res_bind].
    destruct (res_map (result_row (dict_get h "itemCode" VNone)
                         (dict_get h "itemName" VNone) wc) (r :: items))
      as [rows|e]; [|reflexivity].
    unfold lift, with_group. destruct st as [[title rows0 styled] row_num].
    simpl. rewrite <- app_assoc. simpl. same_state.
  - unfold ret, with_group, ws_append, ws_style_row.
    destruct st as [[title rows0 styled] row_num]. simpl.
    rewrite <- app_assoc. simpl. same_state.
Qed.

Lemma for_each_groups client heads : forall st,
  exists reqs, forall t,
    for_each (append_head client) st heads t
    = Some (match res_map (group_rows client) heads with
            | Ok gs => Ok (fold_left with_group gs st)
            | Raise e => Raise e
            end, (t ++ reqs)%list).
Proof.
  induction heads as [|h heads IH]; intros st.
  - exists []. intros t. rewrite app_nil_r. reflexivity.
  - destruct (append_head_group client st h) as (reqs1 & Hhead).
    simpl for_each. simpl res_map.
    destruct (group_rows client h) as [g|e].
    + destruct (IH (with_group st g)) as (reqs2 & Hrest).
      exists (reqs1 ++ reqs2)%list. intros t.
      unfold bind. rewrite Hhead, Hrest. rewrite <- app_assoc.
      simpl res_bind.
      destruct (res_map (group_rows client) heads); reflexivity.
    + exists reqs1. intros t. unfold bind. now rewrite Hhead.
Qed.

Lemma fold_with_group gs : forall st,
  fold_left with_group gs st
  = {| ss_ws :=
         {| ws_title := ws_title (ss_ws st);
            ws_rows := (ws_rows (ss_ws st) ++ List.concat gs)%list;
            ws_styled := (ws_styled (ss_ws st)
                          ++ group_offsets (ss_row_num st) gs)%list |};
       ss_row_num := (ss_row_num st + Z.of_nat (List.length (List.concat gs)))%Z |}.
Proof.
  induction gs as [|g gs IH]; intros [[title rows styled] row_num]; simpl.
  - rewrite !app_nil_r, Z.add_0_r. reflexivity.
  - rewrite IH. simpl. rewrite <- !app_assoc. simpl.
    rewrite length_app. same_state.
Qed.

Lemma res_map_length {A B} (f : A -> result B) xs ys :
  res_map f xs = Ok ys -> List.length ys = List.length xs.
Proof.
  intros H. apply res_map_Forall2 in H.
  symmetry. eapply Forall2_length. exact H.
Qed.

Lemma group_rows_is_group client h g :
  group_rows client h = Ok g -> is_group client h g.
Proof.
  unfold group_rows, is_group.
  destruct (_workcenter_from_head h) as [wc|e]; [|discriminate].
  simpl res_bind at 1.
  destruct (details_of client h) as [items|e]; [|discriminate].
  simpl res_bind at 1.
  destruct items as [|r items].
  - intros H. injection H as <-. eexists wc, [], _. auto.
  - destruct (res_map _ (r :: items)) as [rows|e] eqn:Hrows; [|discriminate].
    intros H. injection H as <-. exists wc, (r :: items), rows. auto.
Qed.

Lemma is_group_length client h g :
  is_group client h g ->
  List.length g = 1 + Nat.max (detail_count client h) 1.
Proof.
  intros (wc & items & body & _ & Hitems & -> & Hbody).
  unfold detail_count. rewrite Hitems. simpl. f_equal.
  destruct items as [|r items].
  - subst body. reflexivity.
  - apply res_map_length in Hbody. rewrite Hbody. simpl. lia.
Qed.

Lemma groups_length client heads gs :
  Forall2 (is_group client) heads gs ->
  List.length (List.concat gs)
  = List.length heads
    + sum_list (map (fun h => Nat.max (detail_count client h) 1) heads).
Proof.
  induction 1 as [|h g heads gs Hg _ IH]; [reflexivity|].
  simpl. rewrite length_app, IH, (is_group_length _ _ _ Hg). lia.
Qed.

Lemma group_offsets_at_item_rows client heads gs :
  Forall2 (is_group client) heads gs ->
  forall prefix,
    Forall (fun p => snd p = item_style /\
                     item_row_at (prefix ++ List.concat gs)%list (fst p))
           (group_offsets (Z.of_nat (List.length prefix) + 1) gs).
Proof.
  induction 1 as [|h g heads gs Hg _ IH]; intros prefix; simpl; [constructor|].
  constructor.
  - split; [reflexivity|]. simpl fst.
    destruct Hg as (wc & items & body & _ & _ & -> & _).
    exists (item_row (dict_get h "itemCode" VNone) (dict_get h "itemName" VNone) wc).
    split; [|reflexivity].
    replace (Z.to_nat (Z.of_nat (List.length prefix) + 1 - 1))
      with (List.length prefix + 0) by lia.
    rewrite lookup_app_r by lia.
    replace (List.length prefix + 0 - List.length prefix) with 0 by lia.
    reflexivity.
  - specialize (IH (prefix ++ g)%list).
    rewrite <- app_assoc in IH.
    replace (Z.of_nat (List.length prefix) + 1 + Z.of_nat (List.length g))%Z
      with (Z.of_nat (List.length (prefix ++ g)) + 1)%Z
      by (rewrite length_app; lia).
    exact IH.
Qed.

(** C6. When the group of every head can be built, the export returns a
    sheet whose rows are the column header followed by the groups of the
    heads in order, with nothing between them: for N heads with d_i
    inspection results that is N + sum (max d_i 1) data rows. Each group
    is the item row of its head followed by one row per inspection result
    in the order of the answer, or by the one placeholder row when there
    are none; the rows styled as item rows are the first rows of the
    groups. *)
Theorem export_sheet_has_one_group_per_head :
  forall client heads2 gs,
    res_map (group_rows client) heads2 = Ok gs ->
    exists reqs ws,
      (forall t,
         _excel_one_sheet_item_then_results heads2 client t
         = Some (Ok ws, (t ++ reqs)%list)) /\
      ws_rows ws = columns :: List.concat gs /\
      Forall2 (is_group client) heads2 gs /\
      List.length (List.concat gs)
      = List.length heads2
        + sum_list (map (fun h => Nat.max (detail_count client h) 1) heads2) /\
      ws_styled ws = (1%Z, header_style) :: group_offsets 2 gs /\
      Forall (fun p => snd p = item_style /\ item_row_at (ws_rows ws) (fst p))
             (group_offsets 2 gs).
Proof.
  intros client heads2 gs Hgs.
  assert (Hgroups : Forall2 (is_group client) heads2 gs).
  { apply res_map_Forall2 in Hgs.
    eapply Forall2_impl; [exact Hgs|].
    intros h g Hg. now apply group_rows_is_group. }
  destruct (for_each_groups client heads2
              {| ss_ws := ws_style_row
                            (ws_append {| ws_title := "품목_검사결과";
                                          ws_rows := []; ws_styled := [] |}
                                       columns) 1 header_style;
                 ss_row_num := 2 |}) as (reqs & Hrun).
  rewrite Hgs, fold_with_group in Hrun.
  eexists reqs, _. split.
  { intros t. unfold _excel_one_sheet_item_then_results.
    erewrite bind_ok; [|apply Hrun]. reflexivity. }
  split; [reflexivity|].
  split; [exact Hgroups|].
  split; [now apply groups_length with (client := client)|].
  split; [reflexivity|].
  exact (group_offsets_at_item_rows client heads2 gs Hgroups [columns]).
Qed.

(** C6 on two heads, the first with two inspection results and the
    second with none: 2 + (2 + 1) data rows. *)
Lemma export_sheet_has_one_group_per_head_witness :
  exists gs reqs ws,
    res_map (group_rows (qf3_client lines_of_inspection_1)) [head_ar_nnb; head_ar]
    = Ok gs /\
    (forall t,
       _excel_one_sheet_item_then_results [head_ar_nnb; head_ar]
         (qf3_client lines_of_inspection_1) t
       = Some (Ok ws, (t ++ reqs)%list)) /\
    ws_rows ws = columns :: List.concat gs /\
    List.length (List.concat gs) = 2 + (2 + 1).
Proof.
  destruct (res_map (group_rows (qf3_client lines_of_inspection_1))
              [head_ar_nnb; head_ar]) as [gs|e] eqn:Hgs;
    [|vm_compute in Hgs; discriminate Hgs].
  destruct (export_sheet_has_one_group_per_head _ _ _ Hgs)
    as (reqs & ws & Hrun & Hrows & _ & Hlen & _).
  exists gs, reqs, ws.
  split; [reflexivity|]. split; [exact Hrun|]. split; [exact Hrows|].
  exact Hlen.
Defined.

(** ** The export button *)

Lemma res_bind_raise {A B} (r : result A) (k : A -> result B) e :
  res_bind r k = Raise e ->
  r = Raise e \/ exists a, r = Ok a /\ k a = Raise e.
Proof.
  destruct r as [a|e']; simpl; intros H; [right; eauto | left; congruence].
Qed.

Lemma res_map_raise {A B} (f : A -> result B) xs e :
  res_map f xs = Raise e -> exists x, In x xs /\ f x = Raise e.
Proof.
  induction xs as [|x xs IH]; simpl; [discriminate|].
  intros H. apply res_bind_raise in H as [H | (y & Hy & H)].
  - exists x. auto.
  - apply res_bind_raise in H as [H | (ys & Hys & H)]; [|discriminate].
    destruct (IH H) as (x' & Hin & Hx'). exists x'. auto.
Qed.

Lemma py_str_raise v e : py_str v = Raise e -> raised_below e.
Proof. destruct v; simpl; intros H; inversion H; exact I. Qed.

Lemma py_get_raise o k dflt e : py_get o k dflt = Raise e -> raised_below e.
Proof. destruct o; simpl; intros H; inversion H; exact I. Qed.

Lemma py_iter_raise v e : py_iter v = Raise e -> raised_below e.
Proof. destruct v; simpl; intros H; inversion H; exact I. Qed.

Lemma py_int_raise v e : py_int v = Raise e -> raised_below e.
Proof.
  destruct v; simpl; intros H; try (inversion H; exact I).
  unfold int_of_str in H.
  match type of H with match ?p with _ => _ end = _ => destruct p end;
    inversion H; exact I.
Qed.

Lemma workcenter_from_head_raise h e :
  _workcenter_from_head h = Raise e -> raised_below e.
Proof.
  unfold _workcenter_from_head. intros H.
  apply res_bind_raise in H as [H | (wc & _ & H)]; [now apply py_str_raise in H|].
  destruct (truthy (VStr (strip wc))); [discriminate|].
  apply res_bind_raise in H as [H | (ed & _ & H)]; [now apply py_str_raise in H|].
  destruct (truthy (VStr (strip ed))); [discriminate|].
  apply res_bind_raise in H as [H | (cb & _ & H)]; [now apply py_str_raise in H|].
  discriminate.
Qed.

Lemma extract_list_raise resp e : _extract_list resp = Raise e -> raised_below e.
Proof.
  unfold _extract_list. intros H.
  apply res_bind_raise in H as [H | (data & _ & H)]; [now apply py_get_raise in H|].
  apply res_bind_raise in H as [H | (lst & _ & H)]; [now apply py_get_raise in H|].
  discriminate.
Qed.

Lemma reply_line_list_raise client mid page limit node e :
  reply (line_list client mid page limit node) = Raise e -> raised_below e.
Proof.
  unfold reply, line_list, post.
  destruct (sess client _ _); intros H; inversion H; exact I.
Qed.

Lemma details_of_raise client h e :
  details_of client h = Raise e -> raised_below e.
Proof.
  unfold details_of. intros H.
  apply res_bind_raise in H as [H | (v & _ & H)].
  { unfold dict_getitem in H. destruct (dict_lookup _ _); inversion H; exact I. }
  apply res_bind_raise in H as [H | (mid & _ & H)]; [now apply py_int_raise in H|].
  apply res_bind_raise in H as [H | (resp & _ & H)];
    [now apply reply_line_list_raise in H|].
  apply res_bind_raise in H as [H | (rows_l & _ & H)];
    [now apply extract_list_raise in H|].
  destruct (truthy rows_l); [now apply py_iter_raise in H | discriminate].
Qed.

Lemma result_row_raise item_code item_name wc r e :
  result_row item_code item_name wc r = Raise e -> raised_below e.
Proof.
  unfold result_row. intros H.
  repeat (apply res_bind_raise in H as [H | (? & _ & H)];
          [now apply py_get_raise in H|]).
  discriminate.
Qed.

Lemma group_rows_raise client h e :
  group_rows client h = Raise e -> raised_below e.
Proof.
  unfold group_rows. intros H.
  apply res_bind_raise in H as [H | (wc & _ & H)];
    [now apply workcenter_from_head_raise in H|].
  apply res_bind_raise in H as [H | (items & _ & H)];
    [now apply details_of_raise in H|].
  destruct items as [|r items]; [discriminate|].
  apply res_bind_raise in H as [H | (rows & _ & H)]; [|discriminate].
  apply res_map_raise in H as (x & _ & H). now apply result_row_raise in H.
Qed.

Lemma excel_sheet_raise heads2 client t r t' :
  _excel_one_sheet_item_then_results heads2 client t = Some (r, t') ->
  forall e, r = Raise e -> raised_below e.
Proof.
  unfold _excel_one_sheet_item_then_results.
  match goal with |- context [for_each _ ?st _] =>
    destruct (for_each_groups client heads2 st) as (reqs & Hrun) end.
  unfold bind. rewrite Hrun.
  destruct (res_map (group_rows client) heads2) as [gs|e0] eqn:Hgs.
  - intros H e ->. discriminate H.
  - intros H e ->. injection H as -> _.
    apply res_map_raise in Hgs as (h & _ & Hh). now apply group_rows_raise in Hh.
Qed.

Lemma export_sheet_runs heads2 client t :
  exists r t', _excel_one_sheet_item_then_results heads2 client t = Some (r, t').
Proof.
  unfold _excel_one_sheet_item_then_results.
  match goal with |- context [for_each _ ?st _] =>
    destruct (for_each_groups client heads2 st) as (reqs & Hrun) end.
  unfold bind. rewrite Hrun.
  destruct (res_map (group_rows client) heads2); eauto.
Qed.

(** C9. Once the index and the heads are fetched and the heads enriched
    and filtered, the export raises "nothing to export" when no head is
    left, without asking for any inspection result and without building
    a sheet; when heads are left it builds the sheet from them, and
    whatever that returns or raises is not that error. *)
Theorem export_of_no_rows_raises_nothing_to_export :
  forall client df dt rf rt jn oc ic q t job_mp t1 heads t2 heads2 heads3,
    build_job_equipment_map client rf rt 500 999 t = Some (Ok job_mp, t1) ->
    fetch_all_heads client df dt ic "" jn oc 0 "OPR" 500 999 t1
    = Some (Ok heads, t2) ->
    attach_equipment_to_heads heads job_mp = Ok heads2 ->
    _filter_heads_by_item_name heads2 q = Ok heads3 ->
    (heads3 = [] ->
     excel_download client df dt rf rt jn oc ic q t
     = Some (Raise nothing_to_export, t2)) /\
    (heads3 <> [] ->
     excel_download client df dt rf rt jn oc ic q t
     = _excel_one_sheet_item_then_results heads3 client t2 /\
     exists r t3,
       excel_download client df dt rf rt jn oc ic q t = Some (r, t3) /\
       r <> Raise nothing_to_export).
Proof.
  intros * Hmap Hheads Hattach Hfilter.
  assert (Hrun :
    excel_download client df dt rf rt jn oc ic q t
    = match heads3 with
      | [] => raise nothing_to_export
      | _ => _excel_one_sheet_item_then_results heads3 client
      end t2).
  { unfold excel_download.
    rewrite (bind_ok _ _ _ _ _ Hmap), (bind_ok _ _ _ _ _ Hheads).
    rewrite bind_lift, Hattach, bind_lift, Hfilter. reflexivity. }
  split.
  - intros ->. exact Hrun.
  - intros Hne. destruct heads3 as [|h heads3]; [congruence|].
    split; [exact Hrun|].
    rewrite Hrun.
    destruct (export_sheet_runs (h :: heads3) client t2) as (r & t3 & Hsheet).
    exists r, t3. split; [exact Hsheet|].
    intros ->.
    exact (excel_sheet_raise _ _ _ _ _ Hsheet _ eq_refl).
Qed.

(** C9 on the end-to-end scenario, with a query that matches no head
    and with one that matches both. *)
Lemma export_of_no_rows_raises_nothing_to_export_witness :
  (exists t2,
     excel_download (qf3_client scenario_service)
       "2024-01-01" "2024-01-31" "2023-12-25" "2024-02-07" "" "" "" "Gadget" []
     = Some (Raise nothing_to_export, t2)) /\
  (exists r t3,
     excel_download (qf3_client scenario_service)
       "2024-01-01" "2024-01-31" "2023-12-25" "2024-02-07" "" "" "" "Widget" []
     = Some (r, t3) /\
     r <> Raise nothing_to_export).
Proof.
  split.
  - edestruct (export_of_no_rows_raises_nothing_to_export
                 (qf3_client scenario_service)
                 "2024-01-01" "2024-01-31" "2023-12-25" "2024-02-07"
                 "" "" "" "Gadget" []) as [Hnone _];
      [ vm_compute; reflexivity | vm_compute; reflexivity
      | vm_compute; reflexivity | vm_compute; reflexivity | ].
    eexists. apply Hnone. reflexivity.
  - edestruct (export_of_no_rows_raises_nothing_to_export
                 (qf3_client scenario_service)
                 "2024-01-01" "2024-01-31" "2023-12-25" "2024-02-07"
                 "" "" "" "Widget" []) as [_ Hsome];
      [ vm_compute; reflexivity | vm_compute; reflexivity
      | vm_compute; reflexivity | vm_compute; reflexivity | ].
    apply Hsome. discriminate.
Defined.

(** The sheet of the end-to-end scenario: two item rows, J1 at WC1 and J2
    without a work centre, each followed by the placeholder row. *)
Example export_of_the_scenario :
  exists ws t,
    excel_download (qf3_client scenario_service)
      "2024-01-01" "2024-01-31" "2023-12-25" "2024-02-07" "" "" "" "Widget" []
    = Some (Ok ws, t) /\
    ws_rows ws
    = [ columns;
        item_row VNone (VStr "Widget-A") "WC1";
        no_result_row VNone (VStr "Widget-A") "WC1";
        item_row VNone (VStr "Widget-B") "";
        no_result_row VNone (VStr "Widget-B") "" ] /\
    List.length t = 4.
Proof.
  eexists _, _. split; [vm_compute; reflexivity|]. split; reflexivity.
Qed.

(* ===================================================================== *)
(** * Further properties of the page loops                                *)
(* ===================================================================== *)

Lemma head_list_sends self df dt ic inm jn oc pid cc page limit start :
  exists rq,
    page_of (snd rq) = page /\ start_of (snd rq) = start /\
    forall t,
      head_list self df dt ic inm jn oc pid cc page limit start t
      = Some (reply (head_list self df dt ic inm jn oc pid cc page limit start),
              (t ++ [rq])%list).
Proof.
  unfold head_list, reply, post. eexists.
  split; [|split]; [| |intros t; reflexivity]; reflexivity.
Qed.

Lemma joborder_list_sends self df dt ic inm jn wc wr page limit start :
  exists rq,
    page_of (snd rq) = page /\ start_of (snd rq) = start /\
    forall t,
      joborder_list self df dt ic inm jn wc wr page limit start t
      = Some (reply (joborder_list self df dt ic inm jn wc wr page limit start),
              (t ++ [rq])%list).
Proof.
  unfold joborder_list, reply, post. eexists.
  split; [|split]; [| |intros t; reflexivity]; reflexivity.
Qed.

Lemma list_items_page_sends self f page limit :
  exists rq,
    page_of (snd rq) = page /\
    start_of (snd rq) = ((page - 1) * limit + 1)%Z /\
    forall t,
      qfactory_client.list_items_page self f page limit t
      = Some (reply (qfactory_client.list_items_page self f page limit),
              (t ++ [rq])%list).
Proof.
  unfold qfactory_client.list_items_page, qfactory_client.post_json, reply, post.
  eexists. split; [|split]; [| |intros t; reflexivity]; reflexivity.
Qed.

Lemma fetch_all_heads_body_sends self df dt ic inm jn oc pid cc limit st :
  exists rq,
    page_of (snd rq) = hs_page st /\
    forall t,
      fetch_all_heads_body self df dt ic inm jn oc pid cc limit st t
      = Some (heads_pass st (head_page self df dt ic inm jn oc pid cc limit
                               (hs_page st)),
              (t ++ [rq])%list).
Proof.
  destruct (head_list_sends self df dt ic inm jn oc pid cc (hs_page st) limit 1)
    as (rq & Hpage & _ & Hrun).
  exists rq. split; [exact Hpage|]. intros t.
  unfold fetch_all_heads_body, heads_pass, head_page, bind. rewrite Hrun.
  destruct (reply _) as [resp|e]; [|reflexivity].
  unfold lift, ret, res_bind.
  repeat case_match; simplify_eq; reflexivity.
Qed.

Lemma build_job_equipment_map_body_sends self df dt limit st :
  exists rq,
    page_of (snd rq) = ms_page st /\
    forall t,
      build_job_equipment_map_body self df dt limit st t
      = Some (map_pass st (job_page self df dt limit (ms_page st)),
              (t ++ [rq])%list).
Proof.
  destruct (joborder_list_sends self df dt "" "" "" "" "Y" (ms_page st) limit 1)
    as (rq & Hpage & _ & Hrun).
  exists rq. split; [exact Hpage|]. intros t.
  unfold build_job_equipment_map_body, map_pass, job_page, bind. rewrite Hrun.
  destruct (reply _) as [resp|e]; [|reflexivity].
  unfold lift, ret, res_bind.
  repeat case_match; simplify_eq; reflexivity.
Qed.

Lemma list_items_all_body_sends self f limit st :
  exists rq,
    page_of (snd rq) = qfactory_client.is_page st /\
    start_of (snd rq) = ((qfactory_client.is_page st - 1) * limit + 1)%Z /\
    forall t,
      qfactory_client.list_items_all_body self f limit st t
      = Some (items_pass limit st
                (items_page self f limit (qfactory_client.is_page st)),
              (t ++ [rq])%list).
Proof.
  destruct (list_items_page_sends self f (qfactory_client.is_page st) limit)
    as (rq & Hpage & Hstart & Hrun).
  exists rq. split; [exact Hpage|]. split; [exact Hstart|]. intros t.
  unfold qfactory_client.list_items_all_body, items_pass, items_page, bind.
  rewrite Hrun.
  destruct (reply _) as [resp|e]; [|reflexivity].
  unfold lift, ret, res_bind.
  destruct (qfactory_client.is_total st) as [tot|];
    [|destruct (qfactory_client.extract_total resp) as [[tot|]|e]];
    try reflexivity;
    repeat (destruct (_ >=? _)%Z; try reflexivity);
    destruct (_ <? _)%Z; reflexivity.
Qed.

(** What a pass of [fetch_all_heads] that does not raise has done. *)
Lemma heads_pass_ok st r c :
  heads_pass st r = Ok c ->
  exists resp items,
    r = Ok resp /\ rows_of resp = Ok items /\
    (c = Break st /\ items = [] \/
     c = Break {| hs_all_rows := (hs_all_rows st ++ items)%list;
                  hs_page := hs_page st |} \/
     c = Next {| hs_all_rows := (hs_all_rows st ++ items)%list;
                 hs_page := (hs_page st + 1)%Z |}).
Proof.
  unfold heads_pass, rows_of. destruct r as [resp|e]; [|discriminate].
  simpl. destruct (_extract_list resp) as [rows|e] eqn:Hl; [|discriminate].
  simpl. destruct (truthy rows) eqn:Ht; simpl.
  - destruct (py_iter rows) as [items|e] eqn:Hi; [|discriminate]. simpl.
    destruct (_extract_total resp) as [total|e]; [|discriminate]. simpl.
    destruct (_ >=? _)%Z; intros H; injection H as <-;
      exists resp, items; rewrite Hl; simpl; rewrite Ht, Hi; auto.
  - intros H. injection H as <-.
    exists resp, []. rewrite Hl. simpl. rewrite Ht. auto.
Qed.

Lemma pages_from_snoc n : forall p,
  pages_from p (Datatypes.S n) = (pages_from p n ++ [p + Z.of_nat n])%list%Z.
Proof.
  induction n as [|n IH]; intros p.
  - simpl. now rewrite Z.add_0_r.
  - change (pages_from p (Datatypes.S (Datatypes.S n)))
      with (p :: pages_from (p + 1)%Z (Datatypes.S n)).
    rewrite IH. simpl. do 3 f_equal. lia.
Qed.

Lemma heads_loop_pages self df dt ic inm jn oc pid cc limit max_pages fuel :
  forall st t st' t',
    while fuel (fun st => (hs_page st <=? max_pages)%Z)
      (fetch_all_heads_body self df dt ic inm jn oc pid cc limit) st t
    = Some (Ok st', t') ->
    exists pages reqs,
      t' = (t ++ reqs)%list /\
      pages_asked reqs = pages_from (hs_page st) (List.length reqs) /\
      List.length pages = List.length reqs /\
      (forall i items,
         pages !! i = Some items ->
         res_bind (head_page self df dt ic inm jn oc pid cc limit
                     (hs_page st + Z.of_nat i)) rows_of = Ok items) /\
      hs_all_rows st' = (hs_all_rows st ++ List.concat pages)%list /\
      (Z.of_nat (List.length reqs) <= Z.max 0 (max_pages + 1 - hs_page st))%Z.
Proof.
  induction fuel as [|fuel IH]; intros st t st' t' H.
  - simpl in H. destruct (hs_page st <=? max_pages)%Z; [discriminate|].
    injection H as <- <-. exists [], []. rewrite !app_nil_r.
    repeat split; try reflexivity; [intros i items Hi; discriminate Hi | simpl; lia].
  - destruct (hs_page st <=? max_pages)%Z eqn:Hc.
    2:{ rewrite while_stop in H by exact Hc. injection H as <- <-.
        exists [], []. rewrite !app_nil_r.
        repeat split; try reflexivity;
          [intros i items Hi; discriminate Hi | simpl; lia]. }
    apply Z.leb_le in Hc.
    rewrite while_step in H by (apply Z.leb_le; exact Hc).
    destruct (fetch_all_heads_body_sends self df dt ic inm jn oc pid cc limit st)
      as (rq & Hpage & Hrun).
    unfold bind in H. rewrite Hrun in H.
    destruct (heads_pass st _) as [c|e] eqn:Hpass; [|discriminate].
    destruct (heads_pass_ok _ _ _ Hpass) as (resp & items & Hresp & Hrows & Hc').
    assert (Hfirst : forall i its, [items] !! i = Some its ->
              res_bind (head_page self df dt ic inm jn oc pid cc limit
                          (hs_page st + Z.of_nat i)) rows_of = Ok its).
    { intros [|i] its Hi; [|discriminate Hi]. injection Hi as <-.
      rewrite Z.add_0_r, Hresp. exact Hrows. }
    destruct Hc' as [[-> ->] | [-> | ->]].
    + injection H as <- <-. exists [[]], [rq].
      split; [reflexivity|]. split; [unfold pages_asked; simpl; now rewrite Hpage|].
      split; [reflexivity|]. split; [exact Hfirst|].
      split; [simpl; now rewrite app_nil_r | simpl; lia].
    + injection H as <- <-. exists [items], [rq].
      split; [reflexivity|]. split; [unfold pages_asked; simpl; now rewrite Hpage|].
      split; [reflexivity|]. split; [exact Hfirst|].
      split; [simpl; now rewrite app_nil_r | simpl; lia].
    + destruct (IH _ _ _ _ H) as (pages & reqs & -> & Hasked & Hlen & Hpages & Hall & Hn).
      simpl in Hasked, Hpages, Hall, Hn.
      exists (items :: pages), (rq :: reqs).
      split; [now rewrite <- app_assoc|].
      split; [unfold pages_asked in *; simpl; now rewrite Hpage, Hasked|].
      split; [simpl; now rewrite Hlen|].
      split.
      * intros [|i] its Hi.
        -- apply (Hfirst 0). exact Hi.
        -- simpl in Hi. rewrite <- (Hpages _ _ Hi). do 2 f_equal. lia.
      * split; [rewrite Hall; simpl; now rewrite <- app_assoc|].
        simpl List.length. lia.
Qed.

Lemma bind_ret_ok {A B} (m : M A) (f : A -> B) t b t' :
  bind m (fun a => ret (f a)) t = Some (Ok b, t') ->
  exists a, m t = Some (Ok a, t') /\ b = f a.
Proof.
  unfold bind, ret. destruct (m t) as [[[a|e] t0]|]; try discriminate.
  intros H. injection H as <- <-. eauto.
Qed.

(** X1. When [fetch_all_heads] returns, it has asked for pages 1, 2, ...
    in order, at most [max_pages] of them, each of them was answered, and
    the result is the rows those pages carried, page after page: no row
    is added, dropped, repeated or moved. *)
Theorem fetch_all_heads_returns_the_rows_of_the_pages_asked :
  forall self df dt ic inm jn oc pid cc limit max_pages t rows t',
    fetch_all_heads self df dt ic inm jn oc pid cc limit max_pages t
    = Some (Ok rows, t') ->
    exists pages reqs,
      t' = (t ++ reqs)%list /\
      pages_asked reqs = pages_from 1 (List.length reqs) /\
      (Z.of_nat (List.length reqs) <= Z.max 0 max_pages)%Z /\
      List.length pages = List.length reqs /\
      (forall i items,
         pages !! i = Some items ->
         res_bind (head_page self df dt ic inm jn oc pid cc limit
                     (1 + Z.of_nat i)) rows_of = Ok items) /\
      rows = List.concat pages.
Proof.
  intros * H. unfold fetch_all_heads in H.
  apply bind_ret_ok in H as (st' & Hw & ->).
  apply heads_loop_pages in Hw
    as (pages & reqs & Ht & Hasked & Hlen & Hpages & Hall & Hn).
  simpl in *. exists pages, reqs.
  repeat split; try assumption. lia.
Qed.

(** X1 on three heads spread over two pages. *)
Lemma fetch_all_heads_returns_the_rows_of_the_pages_asked_witness :
  exists rows t',
    fetch_all_heads (qf3_client heads_on_two_pages)
      "2024-01-01" "2024-01-31" "" "" "" "" 0 "OPR" 500 999 []
    = Some (Ok rows, t') /\
    exists pages reqs,
      t' = ([] ++ reqs)%list /\
      pages_asked reqs = pages_from 1 (List.length reqs) /\
      (Z.of_nat (List.length reqs) <= Z.max 0 999)%Z /\
      List.length pages = List.length reqs /\
      (forall i items,
         pages !! i = Some items ->
         res_bind (head_page (qf3_client heads_on_two_pages)
                     "2024-01-01" "2024-01-31" "" "" "" "" 0 "OPR" 500
                     (1 + Z.of_nat i)) rows_of = Ok items) /\
      rows = List.concat pages.
Proof.
  eexists _, _. split; [vm_compute; reflexivity|].
  apply (fetch_all_heads_returns_the_rows_of_the_pages_asked
           (qf3_client heads_on_two_pages)
           "2024-01-01" "2024-01-31" "" "" "" "" 0%Z "OPR" 500%Z 999%Z []).
  vm_compute. reflexivity.
Defined.

(** What a pass of [build_job_equipment_map] that does not raise has
    done. *)
Lemma map_pass_ok st r c :
  map_pass st r = Ok c ->
  exists resp items mp,
    r = Ok resp /\ rows_of resp = Ok items /\
    res_fold index_row (ms_mp st) items = Ok mp /\
    (c = Break st /\ items = [] \/
     c = Break {| ms_mp := mp; ms_page := ms_page st |} \/
     c = Next {| ms_mp := mp; ms_page := (ms_page st + 1)%Z |}).
Proof.
  unfold map_pass, rows_of. destruct r as [resp|e]; [|discriminate].
  simpl. destruct (_extract_list resp) as [rows|e] eqn:Hl; [|discriminate].
  simpl. destruct (truthy rows) eqn:Ht; simpl.
  - destruct (py_iter rows) as [items|e] eqn:Hi; [|discriminate]. simpl.
    destruct (res_fold index_row (ms_mp st) items) as [mp|e] eqn:Hf;
      [|discriminate]. simpl.
    destruct (_extract_total resp) as [total|e]; [|discriminate]. simpl.
    destruct (_ >=? _)%Z; intros H; injection H as <-;
      exists resp, items, mp; rewrite Hl; simpl; rewrite Ht, Hi; auto 10.
  - intros H. injection H as <-.
    exists resp, [], (ms_mp st). rewrite Hl. simpl. rewrite Ht. auto 10.
Qed.

Lemma index_row_size (mp mp' : job_map) r :
  index_row mp r = Ok mp' -> size mp' <= Datatypes.S (size mp).
Proof.
  unfold index_row. intros H.
  destruct (py_get r "jobName" VNone) as [jn|e]; [|discriminate]. simpl in H.
  destruct (truthy jn); simpl in H; [|injection H as <-; lia].
  destruct (py_get r "workcenterName" VNone) as [wc|e]; [|discriminate].
  destruct (py_get r "machineName" VNone) as [mc|e]; [|discriminate].
  destruct (py_get r "resourceName" VNone) as [rs|e]; [|discriminate].
  simpl in H. destruct (hash_key jn) as [k|e]; [|discriminate]. simpl in H.
  injection H as <-. rewrite map_size_insert.
  destruct (mp !! k); unfold id; lia.
Qed.

Lemma index_rows_size rows : forall (mp mp' : job_map),
  res_fold index_row mp rows = Ok mp' ->
  size mp' <= size mp + List.length rows.
Proof.
  induction rows as [|r rows IH]; intros mp mp' H; simpl in H.
  - injection H as <-. lia.
  - destruct (index_row mp r) as [mp1|e] eqn:Hr; [|discriminate]. simpl in H.
    apply IH in H. apply index_row_size in Hr. simpl. lia.
Qed.

Lemma map_loop_pages self df dt limit max_pages fuel :
  forall st t st' t',
    while fuel (fun st => (ms_page st <=? max_pages)%Z)
      (build_job_equipment_map_body self df dt limit) st t
    = Some (Ok st', t') ->
    exists pages reqs,
      t' = (t ++ reqs)%list /\
      pages_asked reqs = pages_from (ms_page st) (List.length reqs) /\
      List.length pages = List.length reqs /\
      (forall i items,
         pages !! i = Some items ->
         res_bind (job_page self df dt limit (ms_page st + Z.of_nat i)) rows_of
         = Ok items) /\
      res_fold index_row (ms_mp st) (List.concat pages) = Ok (ms_mp st') /\
      (Z.of_nat (List.length reqs) <= Z.max 0 (max_pages + 1 - ms_page st))%Z.
Proof.
  induction fuel as [|fuel IH]; intros st t st' t' H.
  - simpl in H. destruct (ms_page st <=? max_pages)%Z; [discriminate|].
    injection H as <- <-. exists [], []. rewrite !app_nil_r.
    repeat split; try reflexivity; [intros i items Hi; discriminate Hi | simpl; lia].
  - destruct (ms_page st <=? max_pages)%Z eqn:Hc.
    2:{ rewrite while_stop in H by exact Hc. injection H as <- <-.
        exists [], []. rewrite !app_nil_r.
        repeat split; try reflexivity;
          [intros i items Hi; discriminate Hi | simpl; lia]. }
    apply Z.leb_le in Hc.
    rewrite while_step in H by (apply Z.leb_le; exact Hc).
    destruct (build_job_equipment_map_body_sends self df dt limit st)
      as (rq & Hpage & Hrun).
    unfold bind in H. rewrite Hrun in H.
    destruct (map_pass st _) as [c|e] eqn:Hpass; [|discriminate].
    destruct (map_pass_ok _ _ _ Hpass)
      as (resp & items & mp & Hresp & Hrows & Hfold & Hc').
    assert (Hfirst : forall i its, [items] !! i = Some its ->
              res_bind (job_page self df dt limit (ms_page st + Z.of_nat i)) rows_of
              = Ok its).
    { intros [|i] its Hi; [|discriminate Hi]. injection Hi as <-.
      rewrite Z.add_0_r, Hresp. exact Hrows. }
    destruct Hc' as [[-> ->] | [-> | ->]].
    + injection H as <- <-. exists [[]], [rq].
      split; [reflexivity|]. split; [unfold pages_asked; simpl; now rewrite Hpage|].
      split; [reflexivity|]. split; [exact Hfirst|].
      split; [reflexivity | simpl; lia].
    + injection H as <- <-. exists [items], [rq].
      split; [reflexivity|]. split; [unfold pages_asked; simpl; now rewrite Hpage|].
      split; [reflexivity|]. split; [exact Hfirst|].
      split; [simpl; now rewrite app_nil_r | simpl; lia].
    + destruct (IH _ _ _ _ H) as (pages & reqs & -> & Hasked & Hlen & Hpages & Hall & Hn).
      simpl in Hasked, Hpages, Hall, Hn.
      exists (items :: pages), (rq :: reqs).
      split; [now rewrite <- app_assoc|].
      split; [unfold pages_asked in *; simpl; now rewrite Hpage, Hasked|].
      split; [simpl; now rewrite Hlen|].
      split.
      * intros [|i] its Hi.
        -- apply (Hfirst 0). exact Hi.
        -- simpl in Hi. rewrite <- (Hpages _ _ Hi). do 2 f_equal. lia.
      * split; [simpl; rewrite res_fold_app, Hfold; exact Hall|].
        simpl List.length. lia.
Qed.

(** X2. When [build_job_equipment_map] returns, it has asked for pages 1,
    2, ... in order, at most [max_pages] of them, and its index is the
    one the row loop builds from the rows of those pages, page after
    page, starting empty; the index has no more entries than rows were
    read. *)
Theorem build_job_equipment_map_indexes_the_pages_asked :
  forall self df dt limit max_pages t (mp : job_map) t',
    build_job_equipment_map self df dt limit max_pages t = Some (Ok mp, t') ->
    exists pages reqs,
      t' = (t ++ reqs)%list /\
      pages_asked reqs = pages_from 1 (List.length reqs) /\
      (Z.of_nat (List.length reqs) <= Z.max 0 max_pages)%Z /\
      List.length pages = List.length reqs /\
      (forall i items,
         pages !! i = Some items ->
         res_bind (job_page self df dt limit (1 + Z.of_nat i)) rows_of = Ok items) /\
      res_fold index_row ∅ (List.concat pages) = Ok mp /\
      size mp <= List.length (List.concat pages).
Proof.
  intros * H. unfold build_job_equipment_map in H.
  apply bind_ret_ok in H as (st' & Hw & ->).
  apply map_loop_pages in Hw
    as (pages & reqs & Ht & Hasked & Hlen & Hpages & Hall & Hn).
  simpl in *. exists pages, reqs.
  repeat split; try assumption; [lia|].
  apply index_rows_size in Hall. rewrite map_size_empty in Hall. lia.
Qed.

(** X2 on two job orders that share a job name. *)
Lemma build_job_equipment_map_indexes_the_pages_asked_witness :
  exists (mp : job_map) t',
    build_job_equipment_map (qf3_client one_job_twice)
      "2024-01-01" "2024-01-31" 500 999 [] = Some (Ok mp, t') /\
    exists pages reqs,
      t' = ([] ++ reqs)%list /\
      pages_asked reqs = pages_from 1 (List.length reqs) /\
      (Z.of_nat (List.length reqs) <= Z.max 0 999)%Z /\
      List.length pages = List.length reqs /\
      (forall i items,
         pages !! i = Some items ->
         res_bind (job_page (qf3_client one_job_twice)
                     "2024-01-01" "2024-01-31" 500 (1 + Z.of_nat i)) rows_of
         = Ok items) /\
      res_fold index_row ∅ (List.concat pages) = Ok mp /\
      size mp <= List.length (List.concat pages).
Proof.
  eexists _, _. split; [vm_compute; reflexivity|].
  apply (build_job_equipment_map_indexes_the_pages_asked
           (qf3_client one_job_twice) "2024-01-01" "2024-01-31" 500%Z 999%Z []).
  vm_compute. reflexivity.
Defined.

(** What a pass of [list_items_all] that does not raise has done. *)
Lemma items_pass_ok limit st r c :
  items_pass limit st r = Ok c ->
  exists resp total,
    r = Ok resp /\
    (c = Break {| qfactory_client.is_all_rows :=
                    (qfactory_client.is_all_rows st
                     ++ qfactory_client.extract_rows resp)%list;
                  qfactory_client.is_page := qfactory_client.is_page st;
                  qfactory_client.is_total := total |} \/
     c = Next {| qfactory_client.is_all_rows :=
                   (qfactory_client.is_all_rows st
                    ++ qfactory_client.extract_rows resp)%list;
                 qfactory_client.is_page := (qfactory_client.is_page st + 1)%Z;
                 qfactory_client.is_total := total |}).
Proof.
  unfold items_pass. destruct r as [resp|e]; [|discriminate]. simpl.
  match goal with |- res_bind ?x _ = _ -> _ => destruct x as [total|e] end;
    [|discriminate].
  simpl.
  repeat match goal with |- context [if ?b then _ else _] => destruct b end;
    intros H; injection H as <-; eauto.
Qed.

Lemma items_loop_pages self f limit max_pages fuel :
  forall st t st' t',
    while fuel (fun st => (qfactory_client.is_page st <=? max_pages)%Z)
      (qfactory_client.list_items_all_body self f limit) st t
    = Some (Ok st', t') ->
    exists resps reqs,
      t' = (t ++ reqs)%list /\
      pages_asked reqs
      = pages_from (qfactory_client.is_page st) (List.length reqs) /\
      starts_asked reqs
      = map (fun p => ((p - 1) * limit + 1)%Z)
            (pages_from (qfactory_client.is_page st) (List.length reqs)) /\
      List.length resps = List.length reqs /\
      (forall i resp,
         resps !! i = Some resp ->
         items_page self f limit (qfactory_client.is_page st + Z.of_nat i)
         = Ok resp) /\
      qfactory_client.is_all_rows st'
      = (qfactory_client.is_all_rows st ++ rows_upto resps)%list /\
      (Z.of_nat (List.length reqs)
       <= Z.max 0 (max_pages + 1 - qfactory_client.is_page st))%Z.
Proof.
  induction fuel as [|fuel IH]; intros st t st' t' H.
  - simpl in H. destruct (qfactory_client.is_page st <=? max_pages)%Z;
      [discriminate|].
    injection H as <- <-. exists [], []. rewrite !app_nil_r.
    repeat split; try reflexivity; [intros i resp Hi; discriminate Hi | simpl; lia].
  - destruct (qfactory_client.is_page st <=? max_pages)%Z eqn:Hc.
    2:{ rewrite while_stop in H by exact Hc. injection H as <- <-.
        exists [], []. rewrite !app_nil_r.
        repeat split; try reflexivity;
          [intros i resp Hi; discriminate Hi | simpl; lia]. }
    apply Z.leb_le in Hc.
    rewrite while_step in H by (apply Z.leb_le; exact Hc).
    destruct (list_items_all_body_sends self f limit st)
      as (rq & Hpage & Hstart & Hrun).
    unfold bind in H. rewrite Hrun in H.
    destruct (items_pass limit st _) as [c|e] eqn:Hpass; [|discriminate].
    destruct (items_pass_ok _ _ _ _ Hpass) as (resp & total & Hresp & Hc').
    assert (Hfirst : forall i r, [resp] !! i = Some r ->
              items_page self f limit (qfactory_client.is_page st + Z.of_nat i)
              = Ok r).
    { intros [|i] r Hi; [|discriminate Hi]. injection Hi as <-.
      now rewrite Z.add_0_r. }
    destruct Hc' as [-> | ->].
    + injection H as <- <-. exists [resp], [rq].
      split; [reflexivity|].
      split; [unfold pages_asked; simpl; now rewrite Hpage|].
      split; [unfold starts_asked; simpl; now rewrite Hstart|].
      split; [reflexivity|]. split; [exact Hfirst|].
      split; [unfold rows_upto; simpl; now rewrite app_nil_r | simpl; lia].
    + destruct (IH _ _ _ _ H)
        as (resps & reqs & -> & Hasked & Hstarts & Hlen & Hpages & Hall & Hn).
      simpl in Hasked, Hstarts, Hpages, Hall, Hn.
      exists (resp :: resps), (rq :: reqs).
      split; [now rewrite <- app_assoc|].
      split; [unfold pages_asked in *; simpl; now rewrite Hpage, Hasked|].
      split; [unfold starts_asked in *; simpl; now rewrite Hstart, Hstarts|].
      split; [simpl; now rewrite Hlen|].
      split.
      * intros [|i] r Hi.
        -- apply (Hfirst 0). exact Hi.
        -- simpl in Hi. rewrite <- (Hpages _ _ Hi). f_equal. lia.
      * split; [rewrite Hall; unfold rows_upto; simpl; now rewrite <- app_assoc|].
        simpl List.length. lia.
Qed.

(** X3. When [list_items_all] returns, it has asked for pages 1, 2, ...
    in order, at most [max_pages] of them, page [p] with the [start]
    offset [(p - 1) * limit + 1], each of them was answered, and the
    result is the rows of those answers, page after page. *)
Theorem list_items_all_returns_the_rows_of_the_pages_asked :
  forall self f limit max_pages t rows t',
    qfactory_client.list_items_all self f limit max_pages t = Some (Ok rows, t') ->
    exists resps reqs,
      t' = (t ++ reqs)%list /\
      pages_asked reqs = pages_from 1 (List.length reqs) /\
      starts_asked reqs
      = map (fun p => ((p - 1) * limit + 1)%Z) (pages_from 1 (List.length reqs)) /\
      (Z.of_nat (List.length reqs) <= Z.max 0 max_pages)%Z /\
      List.length resps = List.length reqs /\
      (forall i resp,
         resps !! i = Some resp ->
         items_page self f limit (1 + Z.of_nat i) = Ok resp) /\
      rows = rows_upto resps.
Proof.
  intros * H. unfold qfactory_client.list_items_all in H.
  apply bind_ret_ok in H as (st' & Hw & ->).
  apply items_loop_pages in Hw
    as (resps & reqs & Ht & Hasked & Hstarts & Hlen & Hpages & Hall & Hn).
  simpl in *. exists resps, reqs.
  repeat split; try assumption. lia.
Qed.

(** X3 on three items spread over two pages of two. *)
Lemma list_items_all_returns_the_rows_of_the_pages_asked_witness :
  exists rows t',
    qfactory_client.list_items_all (qfactory items_on_two_pages) any_items 2 9999 []
    = Some (Ok rows, t') /\
    exists resps reqs,
      t' = ([] ++ reqs)%list /\
      pages_asked reqs = pages_from 1 (List.length reqs) /\
      starts_asked reqs
      = map (fun p => ((p - 1) * 2 + 1)%Z) (pages_from 1 (List.length reqs)) /\
      (Z.of_nat (List.length reqs) <= Z.max 0 9999)%Z /\
      List.length resps = List.length reqs /\
      (forall i resp,
         resps !! i = Some resp ->
         items_page (qfactory items_on_two_pages) any_items 2 (1 + Z.of_nat i)
         = Ok resp) /\
      rows = rows_upto resps.
Proof.
  eexists _, _. split; [vm_compute; reflexivity|].
  apply (list_items_all_returns_the_rows_of_the_pages_asked
           (qfactory items_on_two_pages) any_items 2%Z 9999%Z []).
  vm_compute. reflexivity.
Defined.

(** X4. With [max_pages] below 1 no loop is entered: nothing is
    requested, and the result is empty. *)
Theorem no_page_is_requested_when_max_pages_is_below_one :
  forall max_pages,
    (max_pages < 1)%Z ->
    (forall self df dt ic inm jn oc pid cc limit t,
       fetch_all_heads self df dt ic inm jn oc pid cc limit max_pages t
       = Some (Ok [], t)) /\
    (forall self df dt limit t,
       build_job_equipment_map self df dt limit max_pages t = Some (Ok ∅, t)) /\
    (forall self f limit t,
       qfactory_client.list_items_all self f limit max_pages t = Some (Ok [], t)).
Proof.
  intros max_pages Hmax.
  split; [|split]; intros.
  - unfold fetch_all_heads, bind.
    rewrite while_stop by (simpl; apply Z.leb_gt; lia). reflexivity.
  - unfold build_job_equipment_map, bind.
    rewrite while_stop by (simpl; apply Z.leb_gt; lia). reflexivity.
  - unfold qfactory_client.list_items_all, bind.
    rewrite while_stop by (simpl; apply Z.leb_gt; lia). reflexivity.
Qed.

(** X4 with [max_pages = 0] and a service that has rows. *)
Lemma no_page_is_requested_when_max_pages_is_below_one_witness :
  fetch_all_heads (qf3_client heads_on_two_pages)
    "2024-01-01" "2024-01-31" "" "" "" "" 0 "OPR" 500 0 [] = Some (Ok [], []) /\
  build_job_equipment_map (qf3_client one_job_twice)
    "2024-01-01" "2024-01-31" 500 0 [] = Some (Ok ∅, []) /\
  qfactory_client.list_items_all (qfactory items_on_two_pages) any_items 2 0 []
  = Some (Ok [], []).
Proof.
  destruct (no_page_is_requested_when_max_pages_is_below_one 0%Z)
    as (Hh & Hm & Hi); [lia|].
  split; [apply Hh | split; [apply Hm | apply Hi]].
Defined.

(** ** The entries of the index *)

Lemma hash_key_truthy v k :
  truthy v = true -> hash_key v = Ok k -> truthy_key k = true.
Proof.
  destruct v as [|b|z|s|l|d]; simpl; intros Ht Hk; try discriminate;
    injection Hk as <-; simpl; try assumption.
  now rewrite Ht.
Qed.

Lemma index_row_well_formed (mp mp' : job_map) r :
  well_formed_index mp -> index_row mp r = Ok mp' -> well_formed_index mp'.
Proof.
  intros Hwf H. destruct r as [| | | |l|d]; try discriminate.
  destruct (truthy (dict_get d "jobName" VNone)) eqn:Ht.
  - destruct (hash_key (dict_get d "jobName" VNone)) as [k|e] eqn:Hk.
    + rewrite (index_row_keyed _ _ _ Ht Hk) in H. injection H as <-.
      intros k' e' Hl. destruct (decide (k = k')) as [<- | Hne].
      * rewrite lookup_insert_eq in Hl. injection Hl as <-.
        split; [exact (hash_key_truthy _ _ Ht Hk) | reflexivity].
      * rewrite lookup_insert_ne in Hl by exact Hne. exact (Hwf _ _ Hl).
    + unfold index_row in H. simpl in H. rewrite Ht, Hk in H. discriminate.
  - rewrite (index_row_skips _ _ Ht) in H. now injection H as <-.
Qed.

Lemma index_rows_well_formed rows : forall (mp mp' : job_map),
  well_formed_index mp -> res_fold index_row mp rows = Ok mp' ->
  well_formed_index mp'.
Proof.
  induction rows as [|r rows IH]; intros mp mp' Hwf H; simpl in H.
  - now injection H as <-.
  - destruct (index_row mp r) as [mp1|e] eqn:Hr; [|discriminate].
    simpl in H. eapply IH; [|exact H]. eapply index_row_well_formed; eauto.
Qed.

(** X5. Whatever the service answers, every entry of the index that
    [build_job_equipment_map] returns sits under a truthy job name (never
    under [None], zero or the empty string) and holds exactly the fields
    [workcenterName], [machineName] and [resourceName], in this order. *)
Theorem build_job_equipment_map_entries_are_well_formed :
  forall self df dt limit max_pages t (mp : job_map) t',
    build_job_equipment_map self df dt limit max_pages t = Some (Ok mp, t') ->
    forall k e,
      mp !! k = Some e -> truthy_key k = true /\ map fst e = metadata_fields.
Proof.
  intros * H. unfold build_job_equipment_map in H.
  apply bind_ret_ok in H as (st' & Hw & ->).
  apply map_loop_pages in Hw as (pages & reqs & _ & _ & _ & _ & Hfold & _).
  simpl in Hfold.
  apply (index_rows_well_formed _ _ _ ltac:(intros k e Hl; now rewrite lookup_empty in Hl) Hfold).
Qed.

(** X5 on two job orders that share a job name. *)
Lemma build_job_equipment_map_entries_are_well_formed_witness :
  exists mp t',
    build_job_equipment_map (qf3_client one_job_twice)
      "2024-01-01" "2024-01-31" 500 999 [] = Some (Ok mp, t') /\
    mp !! KStr "J1"
    = Some [("workcenterName", VStr "WC2"); ("machineName", VStr "M2");
            ("resourceName", VNone)] /\
    forall k e,
      mp !! k = Some e -> truthy_key k = true /\ map fst e = metadata_fields.
Proof.
  eexists _, _. split; [vm_compute; reflexivity|].
  split; [vm_compute; reflexivity|].
  eapply (build_job_equipment_map_entries_are_well_formed
            (qf3_client one_job_twice) "2024-01-01" "2024-01-31" 500%Z 999%Z []).
  vm_compute. reflexivity.
Defined.

(** ** Enriching twice *)

Lemma dict_set_same d k v : dict_lookup d k = Some v -> dict_set d k v = d.
Proof.
  induction d as [|[k' v'] d IH]; simpl; [discriminate|].
  destruct (String.eqb k' k) eqn:E.
  - apply String.eqb_eq in E. subst k'. intros H. now injection H as ->.
  - intros H. now rewrite IH.
Qed.

Lemma with_equipment_again d eq display :
  with_equipment (with_equipment d eq display) eq display
  = with_equipment d eq display.
Proof.
  set (o := with_equipment d eq display).
  unfold with_equipment at 1.
  rewrite (dict_set_same o "workcenterName")
    by (apply with_equipment_field; simpl; tauto).
  rewrite (dict_set_same o "machineName")
    by (apply with_equipment_field; simpl; tauto).
  rewrite (dict_set_same o "resourceName")
    by (apply with_equipment_field; simpl; tauto).
  apply dict_set_same, with_equipment_display.
Qed.

Lemma attach_equipment_again (job_mp : job_map) h o :
  attach_equipment job_mp h = Ok o -> attach_equipment job_mp (VDict o) = Ok o.
Proof.
  destruct h as [| | | | |d]; try discriminate.
  rewrite !attach_equipment_eq. intros H.
  assert (Hjn : forall eq display,
            dict_get (with_equipment d eq display) "jobName" VNone
            = dict_get d "jobName" VNone).
  { intros eq display. unfold dict_get. rewrite with_equipment_other; [reflexivity|].
    simpl. intros [E | [E | [E | [E | []]]]]; discriminate E. }
  destruct (truthy (dict_get d "jobName" VNone)) eqn:Ht.
  - destruct (hash_key (dict_get d "jobName" VNone)) as [k|e] eqn:Hk;
      [|discriminate].
    simpl in H.
    destruct (py_join " / " (display_parts (default [] (job_mp !! k))))
      as [display|e] eqn:Hj; [|discriminate].
    simpl in H. injection H as <-.
    rewrite Hjn, Ht, Hk. simpl. rewrite Hj. simpl.
    now rewrite with_equipment_again.
  - simpl in H. injection H as <-.
    rewrite Hjn, Ht. simpl. now rewrite with_equipment_again.
Qed.

(** X6. Enrichment is idempotent: enriching the records that
    [attach_equipment_to_heads] returned, with the same index, returns
    them unchanged. *)
Theorem attach_equipment_to_heads_is_idempotent :
  forall heads (job_mp : job_map) out,
    attach_equipment_to_heads heads job_mp = Ok out ->
    attach_equipment_to_heads (map VDict out) job_mp = Ok out.
Proof.
  unfold attach_equipment_to_heads.
  induction heads as [|h heads IH]; intros job_mp out H; simpl in H.
  - now injection H as <-.
  - destruct (attach_equipment job_mp h) as [o|e] eqn:Ho; [|discriminate].
    simpl in H.
    destruct (res_map (attach_equipment job_mp) heads) as [os|e] eqn:Hos;
      [|discriminate].
    simpl in H. injection H as <-.
    cbn [map res_map].
    rewrite (attach_equipment_again _ _ _ Ho). cbn [res_bind].
    rewrite (IH _ _ Hos). reflexivity.
Qed.

(** X6 on a matched and an unmatched head. *)
Lemma attach_equipment_to_heads_is_idempotent_witness :
  exists out,
    attach_equipment_to_heads widget_heads wc1_index = Ok out /\
    attach_equipment_to_heads (map VDict out) wc1_index = Ok out.
Proof.
  eexists. split; [vm_compute; reflexivity|].
  apply (attach_equipment_to_heads_is_idempotent widget_heads wc1_index).
  vm_compute. reflexivity.
Defined.

(** ** When the filter raises *)

Lemma item_name_readable_dec h :
  item_name_readable h \/ ~ item_name_readable h.
Proof.
  unfold item_name_readable, blank_or_text.
  destruct (dict_get h "itemName" VNone) as [|b|z|s|l|d] eqn:E;
    try (left; right; eexists; reflexivity);
    try (left; left; reflexivity);
    destruct (truthy _) eqn:Ht;
    try (left; left; reflexivity);
    right; intros [Hf | (s' & Hs)]; discriminate.
Qed.

Lemma filter_head_unreadable tokens out h :
  ~ item_name_readable h -> filter_head tokens out h = Raise AttributeError.
Proof.
  unfold item_name_readable, blank_or_text, filter_head, py_or.
  intros Hn.
  destruct (dict_get h "itemName" VNone) as [|b|z|s|l|d];
    try (exfalso; apply Hn; right; eexists; reflexivity);
    destruct (truthy _) eqn:Ht;
    try (exfalso; apply Hn; left; reflexivity);
    reflexivity.
Qed.

Lemma filter_head_raises tokens out h e :
  filter_head tokens out h = Raise e -> e = AttributeError.
Proof.
  unfold filter_head.
  destruct (py_or (dict_get h "itemName" VNone) (VStr "")); simpl;
    try (intros H; now injection H as <-).
  destruct (all_tokens_in _ _); discriminate.
Qed.

Lemma filter_is_sublist {A} (p : A -> bool) l : sublist (List.filter p l) l.
Proof.
  induction l as [|x l IH]; simpl; [constructor|].
  destruct (p x); now constructor.
Qed.

Lemma filter_fold_cases tokens heads : forall out,
  (Forall item_name_readable heads /\
   res_fold (filter_head tokens) out heads
   = Ok (out ++ List.filter (passes tokens) heads)%list) \/
  (Exists (fun h => ~ item_name_readable h) heads /\
   res_fold (filter_head tokens) out heads = Raise AttributeError).
Proof.
  induction heads as [|h heads IH]; intros out.
  - left. split; [constructor | simpl; now rewrite app_nil_r].
  - destruct (item_name_readable_dec h) as [Hr | Hn].
    + simpl. rewrite (filter_head_passes _ _ _ Hr). simpl.
      destruct (IH (if passes tokens h then (out ++ [h])%list else out))
        as [[Hall Hfold] | [Hex Hfold]].
      * left. split; [now constructor|]. rewrite Hfold.
        destruct (passes tokens h); [now rewrite <- app_assoc | reflexivity].
      * right. split; [now apply Exists_cons_tl | exact Hfold].
    + right. split; [now apply Exists_cons_hd|].
      simpl. now rewrite (filter_head_unreadable _ _ _ Hn).
Qed.

(** X7. With at least one token in the query, the filter either reads
    every item name and returns a sublist of the records (order kept,
    nothing added), or meets a record whose item name is neither text nor
    blank (a number, a list) and raises [AttributeError]; it raises
    nothing else. *)
Theorem filter_returns_a_sublist_or_raises_attribute_error :
  forall heads q,
    _parse_and_tokens q <> [] ->
    (Forall item_name_readable heads /\
     exists out, _filter_heads_by_item_name heads q = Ok out /\ sublist out heads) \/
    (Exists (fun h => ~ item_name_readable h) heads /\
     _filter_heads_by_item_name heads q = Raise AttributeError).
Proof.
  intros heads q Hq. unfold _filter_heads_by_item_name.
  destruct (_parse_and_tokens q) as [|t ts] eqn:Ht; [contradiction|].
  destruct (filter_fold_cases (t :: ts) heads []) as [[Hall Hfold] | [Hex Hfold]].
  - left. split; [exact Hall|]. rewrite Hfold. eexists. split; [reflexivity|].
    apply filter_is_sublist.
  - right. split; assumption.
Qed.

(** X7 on a record whose item name is a number. *)
Lemma filter_returns_a_sublist_or_raises_attribute_error_witness :
  _parse_and_tokens "AR%NNB" <> [] /\
  ((Forall item_name_readable [head_ar_nnb; [("itemName", VInt 7)]] /\
    exists out,
      _filter_heads_by_item_name [head_ar_nnb; [("itemName", VInt 7)]] "AR%NNB"
      = Ok out /\
      sublist out [head_ar_nnb; [("itemName", VInt 7)]]) \/
   (Exists (fun h => ~ item_name_readable h)
      [head_ar_nnb; [("itemName", VInt 7)]] /\
    _filter_heads_by_item_name [head_ar_nnb; [("itemName", VInt 7)]] "AR%NNB"
    = Raise AttributeError)).
Proof.
  assert (H : _parse_and_tokens "AR%NNB" <> []) by (vm_compute; discriminate).
  split; [exact H|].
  apply (filter_returns_a_sublist_or_raises_attribute_error
           [head_ar_nnb; [("itemName", VInt 7)]] "AR%NNB" H).
Defined.

(** ** Queries with the same tokens *)






(** ** Filtering twice *)

Lemma split_append sep a b :
  split sep (a ++ String sep b) = (split sep a ++ split sep b)%list.
Proof.
  induction a as [|c a IH].
  - rewrite append_nil. simpl. now rewrite Ascii.eqb_refl.
  - rewrite append_cons. simpl. rewrite IH.
    destruct (Ascii.eqb c sep); [reflexivity|].
    destruct (split sep a) as [|p ps] eqn:Hs; [now apply split_nonempty in Hs|].
    reflexivity.
Qed.

Lemma parse_and_tokens_append q1 q2 :
  _parse_and_tokens (q1 ++ "%" ++ q2)
  = (_parse_and_tokens q1 ++ _parse_and_tokens q2)%list.
Proof.
  rewrite !parse_and_tokens_eq.
  change ("%" ++ q2) with (String "%" q2).
  now rewrite split_append, map_app, List.filter_app.
Qed.

Lemma passes_app ts1 ts2 h :
  passes (ts1 ++ ts2) h = passes ts1 h && passes ts2 h.
Proof. unfold passes. apply forallb_app. Qed.

Lemma filter_passes_app ts1 ts2 heads :
  List.filter (passes (ts1 ++ ts2)) heads
  = List.filter (passes ts2) (List.filter (passes ts1) heads).
Proof.
  induction heads as [|h heads IH]; simpl; [reflexivity|].
  rewrite passes_app. destruct (passes ts1 h); simpl.
  - destruct (passes ts2 h); now rewrite IH.
  - exact IH.
Qed.

Lemma Forall_filter_readable (p : pydict -> bool) heads :
  Forall item_name_readable heads ->
  Forall item_name_readable (List.filter p heads).
Proof.
  rewrite !List.Forall_forall. intros H h Hin.
  apply filter_In in Hin as [Hin _]. now apply H.
Qed.

(** X9. Filtering by one query and then by another is filtering once by
    the two queries joined with [%]: same records, same exception. *)
Theorem filtering_twice_is_filtering_by_the_joined_query :
  forall heads q1 q2,
    (let? kept := _filter_heads_by_item_name heads q1 in
     _filter_heads_by_item_name kept q2)
    = _filter_heads_by_item_name heads (q1 ++ "%" ++ q2).
Proof.
  intros heads q1 q2. unfold _filter_heads_by_item_name.
  rewrite parse_and_tokens_append.
  destruct (_parse_and_tokens q1) as [|t1 ts1] eqn:H1.
  - reflexivity.
  - cbn [app].
    destruct (filter_fold_cases (t1 :: ts1) heads []) as [[Hall Hf1] | [Hex Hf1]].
    + rewrite Hf1. cbn [res_bind app].
      destruct (_parse_and_tokens q2) as [|t2 ts2] eqn:H2.
      * rewrite app_nil_r. now rewrite Hf1.
      * rewrite (filter_heads_fold _ _ [] (Forall_filter_readable _ _ Hall)).
        change (t1 :: (ts1 ++ t2 :: ts2))%list with ((t1 :: ts1) ++ t2 :: ts2)%list.
        rewrite (filter_heads_fold _ _ [] Hall).
        now rewrite filter_passes_app.
    + rewrite Hf1. cbn [res_bind].
      change (t1 :: (ts1 ++ _parse_and_tokens q2))%list
        with ((t1 :: ts1) ++ _parse_and_tokens q2)%list.
      destruct (filter_fold_cases ((t1 :: ts1) ++ _parse_and_tokens q2) heads [])
        as [[Hall Hf] | [_ Hf]].
      * exfalso. apply List.Exists_exists in Hex as (h & Hin & Hn).
        apply Hn. rewrite List.Forall_forall in Hall. now apply Hall.
      * symmetry. exact Hf.
Qed.

(** ** The tokens of a query *)

Lemma contains_char c s : contains (String c EmptyString) s = has_char c s.
Proof.
  induction s as [|c' s IH].
  - rewrite contains_nil. reflexivity.
  - rewrite contains_cons, IH. simpl.
    destruct (ascii_dec c c') as [<- | Hne].
    + rewrite Ascii.eqb_refl. now destruct s.
    + assert (E : Ascii.eqb c' c = false) by (apply Ascii.eqb_neq; congruence).
      now rewrite E.
Qed.

Lemma has_char_app c a b :
  has_char c (a ++ b) = has_char c a || has_char c b.
Proof.
  induction a as [|x a IH]; [reflexivity|].
  rewrite append_cons. simpl. now rewrite IH, orb_assoc.
Qed.

Lemma has_char_lstrip c s : has_char c s = false -> has_char c (lstrip s) = false.
Proof.
  destruct (lstrip_suffix s) as (a & Ha). intros H.
  rewrite Ha, has_char_app in H. now apply orb_false_elim in H as [_ H].
Qed.

Lemma has_char_rstrip c s : has_char c s = false -> has_char c (rstrip s) = false.
Proof.
  destruct (rstrip_prefix s) as (b & Hb). intros H.
  rewrite Hb, has_char_app in H. now apply orb_false_elim in H as [H _].
Qed.

Lemma has_char_strip c s : has_char c s = false -> has_char c (strip s) = false.
Proof. intros H. unfold strip. now apply has_char_rstrip, has_char_lstrip. Qed.

Lemma split_pieces sep s : Forall (fun p => has_char sep p = false) (split sep s).
Proof.
  induction s as [|c s IH]; [repeat constructor|].
  rewrite split_cons. destruct (Ascii.eqb c sep) eqn:E.
  - constructor; [reflexivity | exact IH].
  - destruct (split sep s) as [|p ps]; [repeat constructor; simpl; now rewrite E|].
    inversion IH as [|? ? Hp Hps]; subst.
    constructor; [simpl; now rewrite E, Hp | exact Hps].
Qed.

Lemma parse_and_tokens_are_tokens q : Forall token (_parse_and_tokens q).
Proof.
  rewrite parse_and_tokens_eq. apply List.Forall_forall. intros t Ht.
  apply filter_In in Ht as [Hin Hne].
  apply in_map_iff in Hin as (p & <- & Hp).
  pose proof (split_pieces "%" q) as Hall.
  rewrite List.Forall_forall in Hall. specialize (Hall _ Hp).
  split; [|split].
  - intros E. unfold nonempty in Hne. now rewrite E in Hne.
  - apply strip_strip.
  - rewrite contains_char. now apply has_char_strip.
Qed.

Lemma parse_and_tokens_of_token t : token t -> _parse_and_tokens t = [t].
Proof.
  intros (Hne & Hs & Hc). rewrite contains_char in Hc.
  rewrite parse_and_tokens_eq, (split_no_sep _ _ Hc). simpl. rewrite Hs.
  unfold nonempty. destruct t; [contradiction | reflexivity].
Qed.

Lemma parse_and_tokens_of_joined ts :
  Forall token ts -> _parse_and_tokens (String.concat "%" ts) = ts.
Proof.
  induction 1 as [|t ts Ht Hts IH]; [reflexivity|].
  destruct ts as [|t' ts].
  - simpl. now apply parse_and_tokens_of_token.
  - change (String.concat "%" (t :: t' :: ts))
      with (t ++ "%" ++ String.concat "%" (t' :: ts)).
    rewrite parse_and_tokens_append, IH, (parse_and_tokens_of_token _ Ht).
    reflexivity.
Qed.

(** X10. Every token of a query is non-empty, trimmed and free of [%];
    and the tokens are a normal form of the query: joining them with [%]
    and parsing again gives the same tokens. *)
Theorem tokens_are_trimmed_and_parse_back_from_their_join :
  forall q,
    Forall token (_parse_and_tokens q) /\
    _parse_and_tokens (String.concat "%" (_parse_and_tokens q))
    = _parse_and_tokens q.
Proof.
  intros q. split; [apply parse_and_tokens_are_tokens|].
  apply parse_and_tokens_of_joined, parse_and_tokens_are_tokens.
Qed.

(** ** The work centre of a head *)

Lemma py_str_or_raises v e :
  py_str (py_or v (VStr "")) = Raise e -> e = AttributeError.
Proof.
  unfold py_or. destruct (truthy v); [|discriminate].
  destruct v; simpl; intros H; try discriminate; now injection H as <-.
Qed.

(** X11. The work centre [_workcenter_from_head] returns has no white
    space at either end; the only exception it raises is
    [AttributeError], for a field that is neither text nor blank. *)
Theorem workcenter_from_head_is_trimmed :
  forall h,
    (forall wc, _workcenter_from_head h = Ok wc -> strip wc = wc) /\
    (forall e, _workcenter_from_head h = Raise e -> e = AttributeError).
Proof.
  intros h. unfold _workcenter_from_head.
  destruct (py_str (py_or (dict_get h "workcenterName" VNone) (VStr "")))
    as [wc|e0] eqn:Hwc; simpl.
  2:{ split; [discriminate|]. intros e H. injection H as <-.
      exact (py_str_or_raises _ _ Hwc). }
  destruct (negb (String.eqb (strip wc) "")).
  { split; [|discriminate]. intros ? H. injection H as <-. apply strip_strip. }
  destruct (py_str (py_or (dict_get h "equipmentDisplay" VNone) (VStr "")))
    as [ed|e0] eqn:Hed; simpl.
  2:{ split; [discriminate|]. intros e H. injection H as <-.
      exact (py_str_or_raises _ _ Hed). }
  destruct (negb (String.eqb (strip ed) "")).
  { split; [|discriminate]. intros ? H. injection H as <-. apply strip_strip. }
  destruct (py_str (py_or (dict_get h "createdBy" VNone) (VStr "")))
    as [cb|e0] eqn:Hcb; simpl.
  2:{ split; [discriminate|]. intros e H. injection H as <-.
      exact (py_str_or_raises _ _ Hcb). }
  split; [|discriminate]. intros ? H. injection H as <-. apply strip_strip.
Qed.

(** X12. For a head without an index entry, enrichment leaves the work
    centre and the display blank, so that the work centre the export
    shows is the head's [createdBy], trimmed (empty when it is missing). *)
Theorem unmatched_head_shows_created_by :
  forall (job_mp : job_map) d o,
    attach_equipment job_mp (VDict d) = Ok o ->
    equipment_for job_mp d = None ->
    _workcenter_from_head o
    = let? cb := py_str (py_or (dict_get d "createdBy" VNone) (VStr "")) in
      Ok (strip cb).
Proof.
  intros job_mp d o H Hnone. rewrite attach_equipment_eq in H.
  assert (Ho : o = with_equipment d [] "").
  { unfold equipment_for in Hnone.
    destruct (truthy (dict_get d "jobName" VNone)).
    - destruct (hash_key (dict_get d "jobName" VNone)) as [k|e]; [|discriminate].
      cbn [res_bind] in H.
      destruct (job_mp !! k) as [eq|] eqn:Hk; [discriminate Hnone|].
      simpl in H. now injection H as <-.
    - simpl in H. now injection H as <-. }
  subst o. unfold _workcenter_from_head, dict_get.
  rewrite (with_equipment_field d [] "" "workcenterName") by (simpl; tauto).
  rewrite with_equipment_display.
  rewrite (with_equipment_other d [] "" "createdBy")
    by (simpl; intros [E | [E | [E | [E | []]]]]; discriminate E).
  reflexivity.
Qed.

(** X12 on a head of job J9, which the index does not know. *)
Lemma unmatched_head_shows_created_by_witness :
  exists o,
    attach_equipment wc1_index (VDict [("jobName", VStr "J9"); ("createdBy", VStr " kim ")])
    = Ok o /\
    equipment_for wc1_index [("jobName", VStr "J9"); ("createdBy", VStr " kim ")] = None /\
    _workcenter_from_head o = Ok "kim".
Proof.
  eexists. split; [vm_compute; reflexivity|].
  split; [vm_compute; reflexivity|].
  apply (unmatched_head_shows_created_by wc1_index
           [("jobName", VStr "J9"); ("createdBy", VStr " kim ")]);
    vm_compute; reflexivity.
Defined.

(** ** The requests and the rows of the export *)

Lemma requests_of_line_list client mid page limit node rq :
  (forall t, line_list client mid page limit node t
             = Some (reply (line_list client mid page limit node), (t ++ [rq])%list)) ->
  requests_of (line_list client mid page limit node) = [rq].
Proof. intros H. unfold requests_of. now rewrite H. Qed.

Lemma append_head_asks client st h t :
  exists r,
    append_head client st h t = Some (r, (t ++ head_requests client h)%list).
Proof.
  unfold append_head, head_requests, inspection_id.
  destruct (_workcenter_from_head h) as [wc|e];
    [|rewrite bind_lift, app_nil_r; eauto].
  rewrite bind_lift.
  destruct (let? v := dict_getitem h "mfgInspectionId" in py_int v) as [mid|e];
    [|rewrite bind_lift, app_nil_r; eauto].
  rewrite bind_lift.
  destruct (line_list_run client mid 1 500 "root") as (rq & Hrun).
  rewrite (requests_of_line_list _ _ _ _ _ _ Hrun).
  unfold bind at 1. rewrite Hrun.
  destruct (reply (line_list client mid 1 500 "root")) as [resp|e]; [|eauto].
  rewrite bind_lift.
  destruct (_extract_list resp) as [rows_l|e]; [|eauto].
  destruct (negb (truthy rows_l)); [unfold ret; eauto|].
  rewrite bind_lift.
  destruct (py_iter rows_l) as [items|e]; [|eauto].
  unfold lift. eauto.
Qed.

Lemma append_head_run client st h t :
  append_head client st h t
  = Some (match group_rows client h with
          | Ok g => Ok (with_group st g)
          | Raise e => Raise e
          end, (t ++ head_requests client h)%list).
Proof.
  destruct (append_head_group client st h) as (reqs & Hg).
  destruct (append_head_asks client st h t) as (r & Ha).
  rewrite Hg in Ha. injection Ha as _ Ha. apply app_inv_head in Ha.
  now rewrite Hg, Ha.
Qed.

Lemma for_each_run client heads : forall st t,
  for_each (append_head client) st heads t
  = Some (match res_map (group_rows client) heads with
          | Ok gs => Ok (fold_left with_group gs st)
          | Raise e => Raise e
          end, (t ++ sheet_requests client heads)%list).
Proof.
  induction heads as [|h heads IH]; intros st t.
  - simpl. now rewrite app_nil_r.
  - simpl for_each. unfold bind. rewrite append_head_run.
    simpl res_map. simpl sheet_requests.
    destruct (group_rows client h) as [g|e]; simpl res_bind.
    + rewrite IH, <- app_assoc.
      destruct (res_map (group_rows client) heads); reflexivity.
    + now rewrite app_nil_r.
Qed.

Lemma excel_sheet_run heads2 client t :
  _excel_one_sheet_item_then_results heads2 client t
  = Some (match res_map (group_rows client) heads2 with
          | Ok gs =>
              Ok {| ws_title := "품목_검사결과";
                    ws_rows := columns :: List.concat gs;
                    ws_styled := (1%Z, header_style) :: group_offsets 2 gs |}
          | Raise e => Raise e
          end, (t ++ sheet_requests client heads2)%list).
Proof.
  unfold _excel_one_sheet_item_then_results, bind. rewrite for_each_run.
  destruct (res_map (group_rows client) heads2) as [gs|e]; [|reflexivity].
  rewrite fold_with_group. reflexivity.
Qed.

Lemma group_rows_reads client h g :
  group_rows client h = Ok g ->
  exists wc mid, _workcenter_from_head h = Ok wc /\ inspection_id h = Ok mid.
Proof.
  unfold group_rows, details_of, inspection_id.
  destruct (_workcenter_from_head h) as [wc|e]; [|discriminate].
  simpl res_bind at 1.
  destruct (dict_getitem h "mfgInspectionId") as [v|e]; [|discriminate].
  simpl. destruct (py_int v) as [mid|e]; [|discriminate]. eauto.
Qed.

Lemma sheet_requests_of_groups client heads : forall gs,
  res_map (group_rows client) heads = Ok gs ->
  exists mids,
    res_map inspection_id heads = Ok mids /\
    Forall2 (fun mid rq => requests_of (line_list client mid 1 500 "root") = [rq])
            mids (sheet_requests client heads).
Proof.
  induction heads as [|h heads IH]; intros gs H; simpl in H.
  - exists []. split; [reflexivity | constructor].
  - destruct (group_rows client h) as [g|e] eqn:Hg; [|discriminate].
    simpl in H.
    destruct (res_map (group_rows client) heads) as [gs'|e] eqn:Hgs;
      [|discriminate].
    destruct (IH _ eq_refl) as (mids & Hmids & Hreqs).
    destruct (group_rows_reads _ _ _ Hg) as (wc & mid & Hwc & Hmid).
    exists (mid :: mids). simpl res_map. rewrite Hmid, Hmids.
    split; [reflexivity|].
    simpl sheet_requests. rewrite Hg. unfold head_requests. rewrite Hwc, Hmid.
    destruct (line_list_run client mid 1 500 "root") as (rq & Hrun).
    rewrite (requests_of_line_list _ _ _ _ _ _ Hrun).
    constructor; [now apply requests_of_line_list | exact Hreqs].
Qed.

(** X13. When the export returns a sheet, it has asked for the
    inspection results of every head, once each and in the order of the
    heads: the requests are those of [line_list] for the inspection ids
    [int(h["mfgInspectionId"])], page 1, limit 500, node "root". *)
Theorem export_asks_for_the_results_of_every_head_in_order :
  forall heads2 client t ws t',
    _excel_one_sheet_item_then_results heads2 client t = Some (Ok ws, t') ->
    exists mids reqs,
      t' = (t ++ reqs)%list /\
      res_map inspection_id heads2 = Ok mids /\
      Forall2 (fun mid rq => requests_of (line_list client mid 1 500 "root") = [rq])
              mids reqs.
Proof.
  intros heads2 client t ws t' H. rewrite excel_sheet_run in H.
  destruct (res_map (group_rows client) heads2) as [gs|e] eqn:Hgs;
    [|discriminate].
  injection H as _ <-.
  destruct (sheet_requests_of_groups _ _ _ Hgs) as (mids & Hmids & Hreqs).
  exists mids, (sheet_requests client heads2). auto.
Qed.

(** X13 on two heads with the inspection ids 1 and 2. *)
Lemma export_asks_for_the_results_of_every_head_in_order_witness :
  exists ws t' mids reqs,
    _excel_one_sheet_item_then_results [head_ar_nnb; head_ar]
      (qf3_client lines_of_inspection_1) [] = Some (Ok ws, t') /\
    t' = ([] ++ reqs)%list /\
    mids = [1%Z; 2%Z] /\
    Forall2 (fun mid rq =>
               requests_of (line_list (qf3_client lines_of_inspection_1) mid 1 500 "root")
               = [rq]) mids reqs.
Proof.
  destruct (_excel_one_sheet_item_then_results [head_ar_nnb; head_ar]
              (qf3_client lines_of_inspection_1) [])
    as [[[ws|e] t']|] eqn:Hrun;
    [|vm_compute in Hrun; discriminate Hrun..].
  destruct (export_asks_for_the_results_of_every_head_in_order _ _ _ _ _ Hrun)
    as (mids & reqs & Ht & Hmids & Hreqs).
  exists ws, t', mids, reqs.
  split; [reflexivity|]. split; [exact Ht|].
  split; [vm_compute in Hmids; now injection Hmids as <- | exact Hreqs].
Defined.

Lemma res_map_app {A B} (f : A -> result B) xs ys :
  res_map f (xs ++ ys)%list
  = let? us := res_map f xs in let? vs := res_map f ys in Ok (us ++ vs)%list.
Proof.
  induction xs as [|x xs IH]; simpl.
  - now destruct (res_map f ys).
  - destruct (f x) as [y|e]; simpl; [|reflexivity]. rewrite IH.
    destruct (res_map f xs) as [us|e]; simpl; [|reflexivity].
    now destruct (res_map f ys).
Qed.

Lemma sheet_requests_app client pre : forall gs rest,
  res_map (group_rows client) pre = Ok gs ->
  sheet_requests client (pre ++ rest)
  = (sheet_requests client pre ++ sheet_requests client rest)%list.
Proof.
  induction pre as [|h pre IH]; intros gs rest H; [reflexivity|].
  simpl in H. destruct (group_rows client h) as [g|e] eqn:Hg; [|discriminate].
  simpl in H.
  destruct (res_map (group_rows client) pre) as [gs'|e]; [|discriminate].
  simpl. rewrite Hg, (IH _ rest eq_refl). now rewrite <- app_assoc.
Qed.

Lemma workcenter_from_head_attribute_error h e :
  _workcenter_from_head h = Raise e -> e = AttributeError.
Proof.
  unfold _workcenter_from_head.
  destruct (py_str (py_or (dict_get h "workcenterName" VNone) (VStr "")))
    as [wc|e0] eqn:Hwc; simpl;
    [|intros H; injection H as <-; exact (py_str_or_raises _ _ Hwc)].
  destruct (negb (String.eqb (strip wc) "")); [discriminate|].
  destruct (py_str (py_or (dict_get h "equipmentDisplay" VNone) (VStr "")))
    as [ed|e0] eqn:Hed; simpl;
    [|intros H; injection H as <-; exact (py_str_or_raises _ _ Hed)].
  destruct (negb (String.eqb (strip ed) "")); [discriminate|].
  destruct (py_str (py_or (dict_get h "createdBy" VNone) (VStr "")))
    as [cb|e0] eqn:Hcb; simpl;
    [discriminate | intros H; injection H as <-; exact (py_str_or_raises _ _ Hcb)].
Qed.

(** X14. A head without [mfgInspectionId] aborts the export: with a
    [KeyError] when its work centre can be read, and with the
    [AttributeError] of [_workcenter_from_head], which runs first, when
    it cannot. Either way, when the groups of the heads before it can be
    built, their inspection results have been asked for, one request
    each, and nothing is asked for that head or those after it; no sheet
    is returned. *)
Theorem export_stops_at_a_head_without_inspection_id :
  forall client before h after gs t,
    res_map (group_rows client) before = Ok gs ->
    dict_lookup h "mfgInspectionId" = None ->
    exists e reqs,
      _excel_one_sheet_item_then_results (before ++ h :: after) client t
      = Some (Raise e, (t ++ reqs)%list) /\
      List.length reqs = List.length before /\
      match _workcenter_from_head h with
      | Ok _ => e = KeyError
      | Raise _ => e = AttributeError
      end.
Proof.
  intros client before h after gs t Hgs Hid.
  assert (Hh : exists e,
             group_rows client h = Raise e /\
             head_requests client h = [] /\
             match _workcenter_from_head h with
             | Ok _ => e = KeyError
             | Raise _ => e = AttributeError
             end).
  { unfold group_rows, details_of, head_requests, inspection_id, dict_getitem.
    rewrite Hid.
    destruct (_workcenter_from_head h) as [wc|e0] eqn:Hwc.
    - exists KeyError. auto.
    - exists e0. split; [reflexivity|]. split; [reflexivity|].
      exact (workcenter_from_head_attribute_error _ _ Hwc). }
  destruct Hh as (e & Hh & Hq & He).
  exists e, (sheet_requests client before). split; [|split; [|exact He]].
  - rewrite excel_sheet_run, res_map_app, Hgs.
    rewrite (sheet_requests_app _ _ _ _ Hgs).
    simpl res_map. simpl sheet_requests. rewrite Hh, Hq. simpl.
    now rewrite app_nil_r.
  - destruct (sheet_requests_of_groups _ _ _ Hgs) as (mids & Hmids & Hreqs).
    apply Forall2_length in Hreqs. apply res_map_length in Hmids. lia.
Qed.

(** X14 on a head without an inspection id between two heads with one:
    once with a work centre that can be read, once with the number 5 as
    its work centre. *)
Lemma export_stops_at_a_head_without_inspection_id_witness :
  (exists reqs,
     _excel_one_sheet_item_then_results
       ([head_ar_nnb] ++ [("itemName", VStr "AR-200")] :: [head_ar])
       (qf3_client lines_of_inspection_1) []
     = Some (Raise KeyError, ([] ++ reqs)%list) /\
     List.length reqs = 1) /\
  (exists reqs,
     _excel_one_sheet_item_then_results
       ([head_ar_nnb] ++ [("workcenterName", VInt 5)] :: [head_ar])
       (qf3_client lines_of_inspection_1) []
     = Some (Raise AttributeError, ([] ++ reqs)%list) /\
     List.length reqs = 1).
Proof.
  destruct (res_map (group_rows (qf3_client lines_of_inspection_1)) [head_ar_nnb])
    as [gs|e] eqn:Hgs; [|vm_compute in Hgs; discriminate Hgs].
  split.
  - destruct (export_stops_at_a_head_without_inspection_id
                (qf3_client lines_of_inspection_1) [head_ar_nnb]
                [("itemName", VStr "AR-200")] [head_ar] gs [] Hgs eq_refl)
      as (e & reqs & Hrun & Hlen & He).
    simpl in He. subst e. exists reqs. auto.
  - destruct (export_stops_at_a_head_without_inspection_id
                (qf3_client lines_of_inspection_1) [head_ar_nnb]
                [("workcenterName", VInt 5)] [head_ar] gs [] Hgs eq_refl)
      as (e & reqs & Hrun & Hlen & He).
    simpl in He. subst e. exists reqs. auto.
Defined.

(** ** The width of the sheet *)

Lemma result_row_width item_code item_name wc r row :
  result_row item_code item_name wc r = Ok row ->
  List.length row = List.length columns.
Proof.
  unfold result_row. destruct r; try discriminate. simpl.
  intros H. now injection H as <-.
Qed.

Lemma group_rows_width client h g :
  group_rows client h = Ok g ->
  Forall (fun row => List.length row = List.length columns /\
                     exists kind, head row = Some (VStr kind) /\
                                  (kind = "품목" \/ kind = "검사")) g.
Proof.
  intros H. apply group_rows_is_group in H
    as (wc & items & body & _ & _ & -> & Hbody).
  constructor; [split; [reflexivity | eexists; split; [reflexivity | now left]]|].
  destruct items as [|r items].
  - subst body. repeat constructor. eexists. split; [reflexivity | now right].
  - apply res_map_Forall2 in Hbody.
    induction Hbody as [|x row xs rows Hrow _ IH]; constructor; [|exact IH].
    split; [exact (result_row_width _ _ _ _ _ Hrow)|].
    unfold result_row in Hrow. destruct x; try discriminate. simpl in Hrow.
    injection Hrow as <-. eexists. split; [reflexivity | now right].
Qed.

(** X15. Every sheet the export returns is rectangular: below the header
    row, each row has as many cells as the header (eleven), and its first
    cell is the text "품목" or "검사". *)
Theorem export_sheet_rows_have_the_width_of_the_header :
  forall heads2 client t ws t',
    _excel_one_sheet_item_then_results heads2 client t = Some (Ok ws, t') ->
    exists rows,
      ws_rows ws = columns :: rows /\
      Forall (fun row => List.length row = List.length columns /\
                         exists kind, head row = Some (VStr kind) /\
                                      (kind = "품목" \/ kind = "검사")) rows.
Proof.
  intros heads2 client t ws t' H. rewrite excel_sheet_run in H.
  destruct (res_map (group_rows client) heads2) as [gs|e] eqn:Hgs;
    [|discriminate].
  injection H as <- _. exists (List.concat gs). split; [reflexivity|].
  apply res_map_Forall2 in Hgs.
  induction Hgs as [|h g hs gs' Hg _ IH]; [constructor|].
  simpl. apply Forall_app. split; [exact (group_rows_width _ _ _ Hg) | exact IH].
Qed.

(** X15 on two heads, the first with two inspection results. *)
Lemma export_sheet_rows_have_the_width_of_the_header_witness :
  exists ws t' rows,
    _excel_one_sheet_item_then_results [head_ar_nnb; head_ar]
      (qf3_client lines_of_inspection_1) [] = Some (Ok ws, t') /\
    ws_rows ws = columns :: rows /\
    List.length rows = 5 /\
    Forall (fun row => List.length row = List.length columns /\
                       exists kind, head row = Some (VStr kind) /\
                                    (kind = "품목" \/ kind = "검사")) rows.
Proof.
  destruct (_excel_one_sheet_item_then_results [head_ar_nnb; head_ar]
              (qf3_client lines_of_inspection_1) [])
    as [[[ws|e] t']|] eqn:Hrun;
    [|vm_compute in Hrun; discriminate Hrun..].
  destruct (export_sheet_rows_have_the_width_of_the_header _ _ _ _ _ Hrun)
    as (rows & Hrows & Hall).
  exists ws, t', rows.
  split; [reflexivity|]. split; [exact Hrows|]. split; [|exact Hall].
  vm_compute in Hrun. injection Hrun as <- _. simpl in Hrows.
  injection Hrows as <-. reflexivity.
Defined.

(** ** The two ways of reading the rows of an answer *)

(** X16. The two clients agree on the usual envelope: whenever
    [_extract_list] finds a non-empty list of rows in an answer,
    [extract_rows] returns the same rows. *)
Theorem extract_rows_agrees_with_extract_list :
  forall resp l,
    _extract_list resp = Ok (VList l) ->
    l <> [] ->
    qfactory_client.extract_rows resp = l.
Proof.
  intros resp l H Hne. unfold _extract_list, py_or in H.
  destruct (truthy resp) eqn:Hresp.
  2:{ simpl in H. injection H as <-. contradiction. }
  destruct resp as [| | | | |d]; try discriminate H.
  simpl in H. unfold dict_get in H.
  destruct (dict_lookup d "data") as [data|] eqn:Hdata.
  2:{ simpl in H. injection H as <-. contradiction. }
  destruct data as [| | | | |dd]; try discriminate H.
  simpl in H. unfold dict_get in H.
  destruct (dict_lookup dd "list") as [lst|] eqn:Hlist.
  2:{ simpl in H. injection H as <-. contradiction. }
  destruct (truthy lst) eqn:Hlst.
  2:{ injection H as <-. contradiction. }
  injection H as ->.
  unfold qfactory_client.extract_rows, qfactory_client.row_paths.
  simpl. now rewrite Hdata, Hlist.
Qed.

(** X16 on the envelope of three heads. *)
Lemma extract_rows_agrees_with_extract_list_witness :
  _extract_list (envelope three_heads) = Ok (VList three_heads) /\
  three_heads <> [] /\
  qfactory_client.extract_rows (envelope three_heads) = three_heads.
Proof.
  split; [reflexivity|]. split; [discriminate|].
  apply (extract_rows_agrees_with_extract_list (envelope three_heads) three_heads);
    [reflexivity | discriminate].
Defined.

(** ** Logging in *)

Lemma login_run repr self company_code user_key password t :
  let url := base_url (config self) ++ "/common/login/post-login" in
  let payload := VDict [
    ("companyCode", VStr company_code);
    ("userKey", VStr user_key);
    ("password", VStr password);
    ("languageCode", VStr (language_code (config self)))
  ] in
  login repr self company_code user_key password t
  = Some (match sess self url payload with
          | Some (VDict d) =>
              if truthy (dict_get d "success" VNone) then Ok (VDict d)
              else Raise (RuntimeError ("Login failed: " ++ repr (VDict d)))
          | Some _ => Raise AttributeError
          | None => Raise RequestException
          end, (t ++ [(url, payload)])%list).
Proof.
  unfold login, bind, post. simpl.
  destruct (sess self _ _) as [data|]; [|reflexivity].
  destruct data as [| | | | |d]; try reflexivity. simpl.
  destruct (truthy (dict_get d "success" VNone)); reflexivity.
Qed.

(** X17. [QF3Client.login] always issues exactly one request, to
    [/common/login/post-login] with the credentials given. It returns the
    answer only when that is an object with a truthy [success]; an object
    without one raises [RuntimeError] with the answer in the message, any
    other answer [AttributeError], and a failed request
    [RequestException]. *)
Theorem login_returns_only_an_answer_marked_successful :
  forall repr self company_code user_key password t,
    exists r rq,
      login repr self company_code user_key password t
      = Some (r, (t ++ [rq])%list) /\
      login_request (base_url (config self)) company_code user_key password rq /\
      match r with
      | Ok data =>
          sess self (fst rq) (snd rq) = Some data /\ marked_successful data
      | Raise RequestException => sess self (fst rq) (snd rq) = None
      | Raise AttributeError =>
          exists data,
            sess self (fst rq) (snd rq) = Some data /\
            forall d, data <> VDict d
      | Raise (RuntimeError msg) =>
          exists d,
            sess self (fst rq) (snd rq) = Some (VDict d) /\
            truthy (dict_get d "success" VNone) = false /\
            msg = "Login failed: " ++ repr (VDict d)
      | Raise _ => False
      end.
Proof.
  intros repr self company_code user_key password t.
  eexists _, _. split; [apply login_run|].
  split; [repeat split|]. cbn [fst snd].
  destruct (sess self _ _) as [data|] eqn:Hs; [|reflexivity].
  destruct data as [| | | | |d];
    try (eexists; split; [reflexivity | discriminate]).
  destruct (truthy (dict_get d "success" VNone)) eqn:Hok.
  - split; [reflexivity|]. exists d. auto.
  - exists d. auto.
Qed.

(** X18. The login button contacts the service only with all three
    credentials filled in: with any of them empty it fails at once,
    without a request. And it logs in only when the service has answered
    the single login request with an object marked successful; the client
    kept is the one for company 100, plant 11, language KO. *)
Theorem login_button_logs_in_only_on_a_successful_answer :
  forall repr s company_code user_key password t,
    (company_code = "" \/ user_key = "" \/ password = "" ->
     login_button repr s company_code user_key password t
     = Some (Raise missing_credentials, t)) /\
    (forall client t',
       login_button repr s company_code user_key password t
       = Some (Ok client, t') ->
       company_code <> "" /\ user_key <> "" /\ password <> "" /\
       client = {| config := default_config; sess := s |} /\
       exists rq data,
         t' = (t ++ [rq])%list /\
         login_request "https://qf3.qfactory.biz:8000"
           company_code user_key password rq /\
         s (fst rq) (snd rq) = Some data /\
         marked_successful data).
Proof.
  intros repr s company_code user_key password t. split.
  - unfold login_button. intros [-> | [-> | ->]]; simpl;
      rewrite ?orb_true_r; reflexivity.
  - intros client t' H. unfold login_button in H.
    destruct company_code as [|c1 s1]; [discriminate H|].
    destruct user_key as [|c2 s2]; [discriminate H|].
    destruct password as [|c3 s3]; [discriminate H|].
    cbn [truthy String.eqb negb orb] in H.
    split; [discriminate|]. split; [discriminate|]. split; [discriminate|].
    unfold bind in H.
    change {| base_url := "https://qf3.qfactory.biz:8000"; language_code := "KO";
              company_id := 100; plant_id := 11 |} with default_config in H.
    rewrite login_run in H. cbv zeta in H.
    cbn [sess config base_url language_code default_config] in H.
    match type of H with context [s ?u ?p] =>
      destruct (s u p) as [data|] eqn:Hs end; [|discriminate H].
    destruct data as [| | | | |d]; try discriminate H.
    destruct (truthy (dict_get d "success" VNone)) eqn:Hok; [|discriminate H].
    injection H as <- <-. split; [reflexivity|].
    eexists _, (VDict d). split; [reflexivity|].
    split; [repeat split|]. split; [exact Hs|]. exists d. auto.
Qed.

(** X18 with an empty password, and with credentials the service
    accepts. *)
Lemma login_button_logs_in_only_on_a_successful_answer_witness :
  login_button (fun _ => "") (fun _ _ => Some (VDict [("success", VBool true)]))
    "ACME" "kim" "" [] = Some (Raise missing_credentials, []) /\
  exists client t',
    login_button (fun _ => "") (fun _ _ => Some (VDict [("success", VBool true)]))
      "ACME" "kim" "secret" [] = Some (Ok client, t') /\
    List.length t' = 1.
Proof.
  split.
  - apply (login_button_logs_in_only_on_a_successful_answer
             (fun _ => "") (fun _ _ => Some (VDict [("success", VBool true)]))
             "ACME" "kim" "" []).
    right. right. reflexivity.
  - eexists _, _. split; [vm_compute; reflexivity | reflexivity].
Defined.

(** ** The query and the export *)

(** X19. The export works on the records of a full query: for the same
    inputs it issues the requests of the query with "load all" ticked,
    meets the same exception if there is one, and builds the sheet from
    exactly the records that query returns, whatever page size is
    selected. *)
Theorem export_builds_the_sheet_from_the_records_of_a_full_query :
  forall client limit
         inspection_date_from inspection_date_to released_from released_to
         job_name operation_code item_code item_name_q t,
    excel_download client inspection_date_from inspection_date_to
      released_from released_to job_name operation_code item_code item_name_q t
    = (do heads2 <- query client true limit
                      inspection_date_from inspection_date_to
                      released_from released_to
                      job_name operation_code item_code item_name_q;
       match heads2 with
       | [] => raise nothing_to_export
       | _ => _excel_one_sheet_item_then_results heads2 client
       end) t.
Proof.
  intros. unfold excel_download, query, bind.
  destruct (build_job_equipment_map client released_from released_to 500 999 t)
    as [[[job_mp|e] t1]|]; try reflexivity.
  destruct (fetch_all_heads client inspection_date_from inspection_date_to
              item_code "" job_name operation_code 0 "OPR" 500 999 t1)
    as [[[heads|e] t2]|]; try reflexivity.
  unfold lift.
  destruct (attach_equipment_to_heads heads job_mp) as [heads2|e];
    reflexivity.
Qed.

(** ** Enriching and filtering in either order *)

Lemma attach_keeps_item_name (job_mp : job_map) h o :
  attach_equipment job_mp (VDict h) = Ok o ->
  dict_get o "itemName" VNone = dict_get h "itemName" VNone.
Proof.
  intros H. apply attach_equipment_enriched in H as (d & Hd & Hother & _).
  injection Hd as <-. unfold dict_get. rewrite Hother; [reflexivity|].
  simpl. intros [E | [E | [E | [E | []]]]]; discriminate E.
Qed.

Lemma attach_keeps_readable (job_mp : job_map) heads : forall out,
  res_map (attach_equipment job_mp) (map VDict heads) = Ok out ->
  (Forall item_name_readable heads <-> Forall item_name_readable out) /\
  forall tokens,
    res_map (attach_equipment job_mp)
      (map VDict (List.filter (passes tokens) heads))
    = Ok (List.filter (passes tokens) out).
Proof.
  induction heads as [|h heads IH]; intros out H; simpl in H.
  - injection H as <-. split; [split; constructor | reflexivity].
  - destruct (attach_equipment job_mp (VDict h)) as [o|e] eqn:Ho; [|discriminate].
    simpl in H.
    destruct (res_map (attach_equipment job_mp) (map VDict heads))
      as [os|e] eqn:Hos; [|discriminate].
    simpl in H. injection H as <-.
    destruct (IH _ eq_refl) as [Hread Hfilter].
    pose proof (attach_keeps_item_name _ _ _ Ho) as Hname.
    split.
    + unfold item_name_readable in *.
      split; intros Hall; inversion Hall; subst; constructor;
        try (now apply Hread); congruence.
    + intros tokens. simpl.
      assert (Hp : passes tokens o = passes tokens h).
      { unfold passes, item_name_text. now rewrite Hname. }
      rewrite Hp. destruct (passes tokens h); [|apply Hfilter].
      simpl. rewrite Ho, Hfilter. reflexivity.
Qed.

(** X20. Enrichment and filter can be swapped: when every record can be
    enriched, filtering the enriched records gives what enriching the
    filtered records gives, the same exception included. The filter reads
    only [itemName], which enrichment leaves alone. *)
Theorem filtering_enriched_records_is_enriching_filtered_records :
  forall heads (job_mp : job_map) item_name_q out,
    attach_equipment_to_heads (map VDict heads) job_mp = Ok out ->
    _filter_heads_by_item_name out item_name_q
    = let? kept := _filter_heads_by_item_name heads item_name_q in
      attach_equipment_to_heads (map VDict kept) job_mp.
Proof.
  intros heads job_mp q out H. unfold attach_equipment_to_heads in *.
  destruct (attach_keeps_readable _ _ _ H) as [Hread Hfilter].
  unfold _filter_heads_by_item_name.
  destruct (_parse_and_tokens q) as [|t ts]; [simpl; now rewrite H|].
  destruct (filter_fold_cases (t :: ts) heads []) as [[Hall Hf] | [Hex Hf]];
    destruct (filter_fold_cases (t :: ts) out []) as [[Hall' Hf'] | [Hex' Hf']];
    rewrite Hf, Hf'; cbn [res_bind app].
  - now rewrite Hfilter.
  - exfalso. apply List.Exists_exists in Hex' as (o & Hin & Hn).
    apply Hn. apply Hread in Hall. rewrite List.Forall_forall in Hall.
    now apply Hall.
  - exfalso. apply List.Exists_exists in Hex as (h & Hin & Hn).
    apply Hn. apply Hread in Hall'. rewrite List.Forall_forall in Hall'.
    now apply Hall'.
  - reflexivity.
Qed.

(** X20 on three records and the query [AR%NNB]. *)
Lemma filtering_enriched_records_is_enriching_filtered_records_witness :
  exists out,
    attach_equipment_to_heads (map VDict [head_ar_nnb; head_ar; head_unnamed])
      wc1_index = Ok out /\
    _filter_heads_by_item_name out "AR%NNB"
    = let? kept := _filter_heads_by_item_name [head_ar_nnb; head_ar; head_unnamed]
                     "AR%NNB" in
      attach_equipment_to_heads (map VDict kept) wc1_index.
Proof.
  eexists. split; [vm_compute; reflexivity|].
  apply (filtering_enriched_records_is_enriching_filtered_records
           [head_ar_nnb; head_ar; head_unnamed] wc1_index "AR%NNB").
  vm_compute. reflexivity.
Defined.

(** ** A page size that is not positive *)

Lemma items_pass_no_total_no_limit limit st resp :
  (limit <= 0)%Z ->
  qfactory_client.is_total st = None ->
  qfactory_client.extract_total resp = Ok None ->
  items_pass limit st (Ok resp)
  = Ok (Next {| qfactory_client.is_all_rows :=
                  (qfactory_client.is_all_rows st
                   ++ qfactory_client.extract_rows resp)%list;
                qfactory_client.is_page := (qfactory_client.is_page st + 1)%Z;
                qfactory_client.is_total := None |}).
Proof.
  intros Hlimit Hnone Htotal. unfold items_pass. simpl.
  rewrite Hnone, Htotal. simpl.
  destruct (Z.ltb_spec (Z.of_nat (List.length (qfactory_client.extract_rows resp)))
              limit); [lia | reflexivity].
Qed.

Lemma items_loop_no_total_no_limit self f limit max_pages :
  (limit <= 0)%Z ->
  (forall p, exists resp,
      items_page self f limit p = Ok resp /\
      qfactory_client.extract_total resp = Ok None) ->
  forall fuel st t,
    qfactory_client.is_total st = None ->
    pages_left max_pages (qfactory_client.is_page st) <= fuel ->
    exists st' reqs,
      while fuel (fun st => (qfactory_client.is_page st <=? max_pages)%Z)
        (qfactory_client.list_items_all_body self f limit) st t
      = Some (Ok st', (t ++ reqs)%list) /\
      List.length reqs = pages_left max_pages (qfactory_client.is_page st) /\
      pages_asked reqs = pages_from (qfactory_client.is_page st) (List.length reqs).
Proof.
  intros Hlimit Hserve. unfold pages_left.
  induction fuel as [|fuel IH]; intros st t Hnone Hfuel.
  - exists st, []. rewrite while_stop by (apply Z.leb_gt; lia).
    rewrite app_nil_r. split; [reflexivity | split; [simpl; lia | reflexivity]].
  - destruct (qfactory_client.is_page st <=? max_pages)%Z eqn:Hc.
    2:{ exists st, []. rewrite while_stop by exact Hc.
        apply Z.leb_gt in Hc.
        rewrite app_nil_r. split; [reflexivity | split; [simpl; lia | reflexivity]]. }
    pose proof Hc as Hle. apply Z.leb_le in Hle.
    destruct (list_items_all_body_sends self f limit st)
      as (rq & Hpage & _ & Hrun).
    destruct (Hserve (qfactory_client.is_page st)) as (resp & Hresp & Htotal).
    rewrite Hresp, (items_pass_no_total_no_limit _ _ _ Hlimit Hnone Htotal) in Hrun.
    rewrite (while_next
               (fun st0 => (qfactory_client.is_page st0 <=? max_pages)%Z)
               _ _ _ _ _ _ Hc (Hrun t)).
    match goal with |- context [while fuel _ _ ?s _] =>
      destruct (IH s (t ++ [rq])%list eq_refl) as (st' & reqs & Hw & Hlen & Hasked)
    end; [simpl; lia|].
    simpl in Hlen, Hasked.
    exists st', (rq :: reqs). rewrite Hw, <- app_assoc.
    split; [reflexivity|].
    split; [simpl; lia|].
    unfold pages_asked in *. simpl. now rewrite Hpage, Hasked.
Qed.

(** X21. A page size of zero or less disables the short-page stop of
    [list_items_all]: against a service that answers every page and never
    reports a total, the loop asks for all of the pages 1 to [max_pages]
    before it returns. *)
Theorem list_items_all_with_no_total_and_no_limit_asks_every_page :
  forall self f limit max_pages t,
    (limit <= 0)%Z ->
    (forall p, exists resp,
        items_page self f limit p = Ok resp /\
        qfactory_client.extract_total resp = Ok None) ->
    exists rows reqs,
      qfactory_client.list_items_all self f limit max_pages t
      = Some (Ok rows, (t ++ reqs)%list) /\
      List.length reqs = Z.to_nat max_pages /\
      pages_asked reqs = pages_from 1 (Z.to_nat max_pages).
Proof.
  intros self f limit max_pages t Hlimit Hserve.
  destruct (items_loop_no_total_no_limit self f limit max_pages Hlimit Hserve
              (Z.to_nat max_pages)
              {| qfactory_client.is_all_rows := [];
                 qfactory_client.is_page := 1;
                 qfactory_client.is_total := None |} t eq_refl)
    as (st' & reqs & Hw & Hlen & Hasked); [unfold pages_left; simpl; lia|].
  unfold pages_left in Hlen. simpl in Hlen, Hasked.
  exists (qfactory_client.is_all_rows st'), reqs.
  unfold qfactory_client.list_items_all, bind. rewrite Hw.
  split; [reflexivity|].
  split; [lia|]. rewrite Hasked. f_equal. lia.
Qed.

(** X21 with a page size of 0 and [max_pages = 3]. *)
Lemma list_items_all_with_no_total_and_no_limit_asks_every_page_witness :
  exists rows reqs,
    qfactory_client.list_items_all (qfactory one_row_no_total) any_items 0 3 []
    = Some (Ok rows, ([] ++ reqs)%list) /\
    List.length reqs = Z.to_nat 3 /\
    pages_asked reqs = pages_from 1 (Z.to_nat 3).
Proof.
  apply (list_items_all_with_no_total_and_no_limit_asks_every_page
           (qfactory one_row_no_total) any_items 0%Z 3%Z []); [lia|].
  intros p. eexists. split; reflexivity.
Defined.
